(* ===== verification/_CoqProject ===== *)
-Q . S2P
Prelude.v
PyStr.v
Usage.v
Otp.v
Session.v
Frame.v
Regex.v
CsvHeader.v
Csv.v
Html.v
Search.v
Pages.v
App.v
