(* ===== verification/Prelude.v ===== *)
(** * Verification of cercavocicomputo (src/main.py)

    ** The program
    src/main.py is a FastAPI application (192 lines) with OTP login, a
    daily search quota and a case-insensitive search over an uploaded
    CSV or XLSX table. Its state is two in-memory dicts, [USERS]
    (email -> last issued code) and [USAGE] (email -> {date, count}),
    plus the session dict that SessionMiddleware keeps in each client's
    signed cookie. The routes: [/] redirects by login state; [/login]
    shows a form; [/send-otp] draws a 6-digit code, stores it and shows
    it; [/verify-otp] compares codes and puts the email in the session;
    [/logout] clears the session; [/app] shows the day's count; [/search]
    checks login, checks and increments the quota, then dispatches on the
    file extension to a chunked CSV scan or a whole-sheet XLSX scan, each
    keeping the rows whose space-joined text contains the query ignoring
    case, and renders the result, "no results", "unsupported format" or
    the caught exception.

    ** Files (in dependency order)
    - [Prelude]: this header, the [webapp_scope] scope with the [let*]
      notation of the error monad ([res_bind]), the [webapp] and
      [webapp_rw] hint databases, the [case_ifs] tactic and list lemmas.
    - [PyStr] (Module [PyStr]): the Python string builtins the code uses
      ([str.lower], [str.endswith], substring search, [str.join],
      [str(int)], [string.digits]) on ASCII strings, with their
      characterisations (prefix, substring and suffix relations).
    - [Usage] (Module [Usage]): [USAGE], [DAILY_LIMIT], the quota check of
      [search] (lines 128-139) as [check_and_increment], the count of the
      landing page; an abstract specification with one counter per
      (email, day) ([spec_check]) and the simulation relation
      [represents].
    - [Otp] (Module [Otp]): [USERS], code generation (line 51) from the
      random draws, storage (line 52) and the check of line 74.
    - [Session] (Module [Session]): the session dict and the truth test
      of [request.session.get("email")].
    - [Frame] (Module [Frame]): the pandas operations of lines 150-176 on
      a DataFrame of string/NaN cells, the [chunksize] reader, and the
      interfaces of the libraries the code calls: [ReEngine] (Python [re]
      with IGNORECASE, with the law [ReEngineLaws] for literal patterns),
      [TableReader] ([read_csv]/[read_excel]) and [TableRenderer]
      ([to_html]).
    - [Regex] (Module [Regex]): Python's [re] as [str.contains] uses it
      (line 153): the tokenizer and parser of CPython's [re._parser] on a
      fragment (literals, [.], [^], [$], sets, category/anchor/control
      escapes, groups, [(?:...)], [|], greedy and lazy quantifiers) with
      every [re.error] message and position, a matcher by derivatives with
      the position context of the anchors, and the engine [python_re], an
      instance of [ReEngine].
    - [CsvHeader] (Module [CsvHeader]): the column names pandas'
      [TextReader._get_header] gives a header row: ["Unnamed: i"] for an
      empty name and the [while] loop [mangle_loop] that renames a
      repeated name [name.1], [name.2], ...
    - [Csv] (Module [Csv]): pandas' [read_csv(f, dtype=str)] (line 150)
      on ASCII text. It has the C tokenizer of pandas as a state machine
      ([step], one character at a time), which counts [file_lines].
      Then it builds the table: the names of [CsvHeader]; the implicit
      index of a long first data row; the [ParserError] for a later,
      longer row; the NaN padding; and the default NA markers. The
      result is [csv_reader], an instance of [TableReader]. The file also
      has the printing of a plain table ([csv_file]).
    - [Html] (Module [Html]): pandas' [to_html(index=False)] (lines 161,
      181): [HTMLFormatter]'s lines for the table, head and body, each
      cell escaped ([&], [<], [>]) then stripped, as [pandas_html], an
      instance of [TableRenderer]; and [unescape], a browser's reading
      of the three entities (specification side).
    - [Search] (Module [Search]): lines 141-193 up to rendering: the CSV
      loop over 2000-row blocks, the XLSX pass, the dispatch on the
      lowercased extension, the caught errors, as an [outcome]; the
      reference matching rule [row_matches].
    - [Pages] (Module [Pages]): every response literal of the program,
      character for character, with verbatim interpolation.
    - [App] (Module [App]): the server state, one function per route and
      the routing [handle]; worlds of many clients with their cookie jars,
      [exec] (one request, atomic: no handler awaits), [run] (a sequence),
      honest and forged cookies, reachability, the type of [USERS].

    ** What is proved
    - Quota: the check in closed form on every branch (deny at the limit
      without writing, increment below it, reset on a new day); the
      stored counts stay within the limit on any run; the check refines
      the per-(email, day) counter specification on a clock that does not
      go back; hence at most 10 searches per email per day get through on
      any interleaving of requests ([App.quota_per_day]); exactly 10 then
      a denial ([Usage.limit_then_denied]).
    - Search: the 2000-row chunked CSV scan equals a single pass over the
      table (and does not depend on the chunk size); results keep file
      order; CSV and XLSX agree on the same table; for literal queries the matching is
      [row_matches]: case-insensitive substring of the space-joined row;
      the dispatch refuses exactly the other extensions; read errors are
      reported; end to end with the modelled [re], [read_csv] and
      [to_html], a search of the CSV text of any plain table with a query
      without metacharacters spends one unit of quota and answers pandas'
      table of the rows that [row_matches] keeps
      ([App.search_csv_end_to_end]; on the specification's 3-row file and
      "mil", the one row (Bob, Milan)).
    - Regular expressions: the derivative search equals the declarative
      semantics of [re.search] ([Regex.search_correct]); the parser
      terminates ([Regex.compile_total]); repeat bounds overflow exactly
      at [MAXREPEAT] and otherwise stay ordered below it
      ([Regex.repeat_bounds]); [python_re] satisfies the
      interface law, so every theorem proved against [ReEngineLaws] holds
      of it ([Regex.python_re_laws]); malformed queries give CPython's
      messages ([Regex.python_re_errors]); token positions index the
      pattern ([Regex.tokenize_roundtrip]); with it the query is a
      pattern, not a substring ([Search.regex_query_diverges]), and a
      malformed query spends quota and shows the [re.error] message
      ([App.invalid_pattern_spends_quota]).
    - CSV: reading back a printed plain table gives its header and rows,
      NA markers as NaN ([Csv.read_csv_roundtrip]); hence a cell holding
      an NA marker can never be found: emptying it changes no search
      ([Search.na_marker_hidden]).
      The names of a header are one per field and pairwise distinct
      ([CsvHeader.header_names_distinct]). The mangling loop always exits
      within its fuel, with a name not already in the header
      ([CsvHeader.mangle_loop_exits]). A later row longer than the header
      and the first data row gives pandas' "Expected E fields in line L,
      saw M" error ([Csv.read_csv_too_many_fields]). Rows with k extra
      fields lose their first k fields to the index
      ([Csv.read_csv_implicit_index]). So in a file whose rows end with a
      comma, the first column is never searched
      ([Search.trailing_comma_search]).
    - HTML: a cell cannot inject markup: its text in the table has no
      angle bracket and a browser decodes it to the cell's stripped text
      ([Html.cell_text_safe]); stripping commutes with escaping.
    - Runs: every code stored in [USERS] is six digits
      ([App.users_codes_typed]); a denial is never permanent: a search on
      a later day is served ([App.search_served_later_day]).
    - OTP and sessions: a stored code verifies any number of times
      (replay) until overwritten; wrong codes and anonymous clients are
      turned away without effect; in every world reached with honest
      cookies, a logged-in session names an email of [USERS].
    - Findings, each a theorem: the landing page shows a stale count on a
      new day; an unsupported file still spends quota; a clock set back
      lets 20 searches through on one day; logout does not revoke the
      cookie; a forged cookie (the key is in the source) is accepted; the
      email and the code are echoed unescaped by [/send-otp].

    ** Bounds, fuel and modelling choices
    Dates are ordinals ([date.toordinal()]); counts are [nat] (Python
    ints do not overflow). [Frame.chunk_rows] takes the number of rows as
    fuel: each block consumes at least one row, so it is enough
    ([Frame.chunk_rows_concat]). Strings are ASCII: [lower] maps A-Z only.
    The random draws of [random.choices] are an input (six indices below
    10). The search theorems hold for every [TableReader];
    [Csv.csv_reader] is the modelled CSV reader (the tokenizer is a fold
    over the characters, so it needs no fuel; the name-mangling loop
    takes one more unit of fuel than the header has names, which
    [CsvHeader.mangle_loop_spec] shows is enough, since every candidate
    name it skips is a distinct name of the header). The
    search theorems also hold for every [ReEngine]; [Regex.python_re] is
    the modelled one, and the older examples use [Frame.literal_engine],
    exact on literal patterns. With a whole-table reader a parse error is
    reported before a pattern error, whatever block holds the bad line.
    The pattern parser [Regex.go] takes one unit of fuel per token plus
    one: each step consumes a token ([Regex.go_enough_fuel]). The
    matcher needs no fuel: derivatives recurse on the text. Repeat
    bounds are [N], checked against [MAXREPEAT] = 2^32-1 as CPython does.
    The parser follows CPython 3.11 and later (possessive quantifiers
    and atomic groups exist and are outside the fragment).

    ** Not modelled
    [read_excel] (an interface: XLSX is a zipped XML format), and in
    [read_csv] non-ASCII files and unterminated quotes (left to an
    arbitrary reader, over which the theorems are quantified); with the
    2000-row chunks pandas raises a bad line's error when its block is
    read, which the whole-table model reports before any pattern error.
    In [to_html]: non-string columns, the index, [NaN] cells (the search
    fills them before rendering) and non-ASCII text. The FastAPI and
    Starlette plumbing (form parsing, cookie signing), and the process
    model beyond one event loop (several workers would each have their
    own dicts). In [re]: lookarounds, back references, named groups,
    conditionals, inline flags, numeric escapes ([\x], [\u], octal),
    possessive quantifiers and atomic groups are reported as
    [Unsupported] and left to an arbitrary engine, over which every
    theorem is quantified; case folding and the classes [\w \s \d] are
    those of ASCII (Unicode folding of non-ASCII letters is not
    modelled).

    ** Possible extensions
    The whole of src/main.py is mapped except its imports. What remains
    is outside it:
    - XLSX parsing by [read_excel] (a zipped XML format);
    - the cookie signing of Starlette (an HMAC, modelled only by the
      fact that the key is public);
    - a deployment with several worker processes, which the source does
      not configure (each worker would hold its own dicts, multiplying
      the quota);
    - the parts of [re] and of the CSV format listed above. *)

From stdpp Require Export base list gmap strings.

(** stdpp makes [String.append] opaque to [simpl]; the string models of
    this development compute with it, so it reduces on a constructor. *)
#[global] Arguments String.append : simpl nomatch.

(** ** Notation scope of the development *)

Declare Scope webapp_scope.
Delimit Scope webapp_scope with web.
Open Scope webapp_scope.

(** Fallible code returns [inl error] or [inr value]; [let*] threads
    the first error through a sequence of calls, as Python propagates an
    exception. *)
Definition res_bind {E A B} (m : E + A) (k : A -> E + B) : E + B :=
  match m with inl e => inl e | inr a => k a end.

Notation "'let*' x := m 'in' k" := (res_bind m (fun x => k))
  (at level 10, x pattern, m at level 100, k at level 200) : webapp_scope.

Lemma res_bind_inr {E A B} (m : E + A) (k : A -> E + B) b :
  res_bind m k = inr b <-> exists a, m = inr a /\ k a = inr b.
Proof. destruct m; simpl; split; [done|by intros (?&?&?)|eauto|by intros (?&[= ->]&?)]. Qed.

(** ** Hint database shared by the component files *)

Create HintDb webapp.
Create Rewrite HintDb webapp_rw.

(** ** Tactics *)

(** Case on every [if] of the goal, keeping the test as an equation. *)
Ltac case_ifs :=
  repeat match goal with
  | |- context [if ?b then _ else _] =>
      lazymatch b with
      | context [if _ then _ else _] => fail
      | _ => let E := fresh "E" in destruct b eqn:E
      end
  end.

(** ** Generic lemmas on lists *)

Section ListLemmas.
Context {A : Type}.

(** Filtering a concatenation filters each block. *)
Lemma filter_concat (p : A -> bool) (ls : list (list A)) :
  List.filter p (concat ls) = concat (map (List.filter p) ls).
Proof.
  induction ls as [|l ls IH]; [done|]. simpl. by rewrite List.filter_app, IH.
Qed.

(** Dropping the empty blocks of a list of blocks does not change
    its concatenation. *)
Lemma concat_drop_nil (ls : list (list A)) :
  concat (List.filter (fun l => negb (bool_decide (l = []))) ls) = concat ls.
Proof.
  induction ls as [|[|x l] ls IH]; [done|done|]. simpl. by rewrite IH.
Qed.

(** [List.filter] keeps the relative order: its result is a sublist. *)
Lemma filter_sublist_of (p : A -> bool) (l : list A) :
  sublist (List.filter p l) l.
Proof.
  induction l as [|x l IH]; [constructor|]. simpl.
  destruct (p x); by constructor.
Qed.
(** Overwriting an element by one with the same image leaves the
    mapped list unchanged. *)
Lemma map_insert_same {B} (f : A -> B) (l : list A) i x y :
  l !! i = Some y -> f x = f y -> map f (<[i:=x]> l) = map f l.
Proof.
  revert i. induction l as [|z l IH]; intros [|i] Hi Hf; simpl in *; try done.
  - injection Hi as ->. by rewrite Hf.
  - by rewrite IH.
Qed.
End ListLemmas.

#[export] Hint Rewrite @filter_concat @concat_drop_nil : webapp_rw.
#[export] Hint Resolve filter_sublist_of : webapp.
