(* ===== verification/PyStr.v ===== *)
(** * Python string builtins used by src/main.py

    [str.lower], [str.endswith], substring search (the literal case of
    [re.search], which pandas' [Series.str.contains] calls), [str.join],
    [str(int)] and [string.digits], on ASCII strings. Python strings are
    Unicode; the model covers the ASCII subset, where [lower] maps exactly
    'A'..'Z' to 'a'..'z'. *)

From S2P Require Import Prelude.
From Stdlib Require Import Ascii DecimalString DecimalNat.

Module PyStr.

(** ** Definitions *)

Definition is_upper (c : ascii) : bool :=
  (65 <=? nat_of_ascii c) && (nat_of_ascii c <=? 90).

(** [str.lower] on one ASCII character. *)
Definition lower_char (c : ascii) : ascii :=
  if is_upper c then ascii_of_nat (nat_of_ascii c + 32) else c.

(** [str.lower]. *)
Fixpoint lower (s : string) : string :=
  match s with
  | EmptyString => EmptyString
  | String c s' => String (lower_char c) (lower s')
  end.

(** [s[n:]]. *)
Fixpoint drop (n : nat) (s : string) : string :=
  match n, s with
  | 0, _ => s
  | S n', String _ s' => drop n' s'
  | S _, EmptyString => EmptyString
  end.

(** [s[:n]]. *)
Fixpoint take (n : nat) (s : string) : string :=
  match n, s with
  | 0, _ => EmptyString
  | S n', String c s' => String c (take n' s')
  | S _, EmptyString => EmptyString
  end.

(** [s.endswith(suffix)]: the last [len(suffix)] characters are [suffix]
    (when [suffix] is longer than [s], [drop 0 s = s] differs from it). *)
Definition endswith (s suffix : string) : bool :=
  String.eqb (drop (String.length s - String.length suffix) s) suffix.

(** [needle in hay]: some suffix of [hay] starts with [needle]. *)
Fixpoint contains (needle hay : string) : bool :=
  String.prefix needle hay ||
  match hay with
  | EmptyString => false
  | String _ hay' => contains needle hay'
  end.

(** [sep.join(parts)]. *)
Definition join (sep : string) (parts : list string) : string :=
  String.concat sep parts.

(** [str(n)] for a non-negative [int]. *)
Definition str_of_nat (n : nat) : string :=
  NilEmpty.string_of_uint (Nat.to_uint n).

(** [string.digits]. *)
Definition digits : string := "0123456789".

Definition is_digit (c : ascii) : bool :=
  (48 <=? nat_of_ascii c) && (nat_of_ascii c <=? 57).

(** [str.isspace] on one ASCII character: 9-13 and 28-32. *)
Definition is_space (c : ascii) : bool :=
  let n := nat_of_ascii c in ((9 <=? n) && (n <=? 13)) || ((28 <=? n) && (n <=? 32)).

(** [s.lstrip()] on the characters. *)
Fixpoint lstrip_list (l : list ascii) : list ascii :=
  match l with
  | c :: l' => if is_space c then lstrip_list l' else l
  | [] => []
  end.

(** [s.strip()]. *)
Definition strip (s : string) : string :=
  String.string_of_list_ascii
    (rev (lstrip_list (rev (lstrip_list (String.list_ascii_of_string s))))).

(** [s.replace(c, r)] for a one-character [c]: every occurrence. *)
Fixpoint replace_char (c : ascii) (r s : string) : string :=
  match s with
  | EmptyString => EmptyString
  | String d s' => (if Ascii.eqb d c then r else String d EmptyString) +:+ replace_char c r s'
  end.

(** Source literals contain double quotes, which are written here as
    backquotes and restored by [lit]; no literal of src/main.py contains
    a backquote. *)
Definition lit_char (c : ascii) : ascii :=
  if Ascii.eqb c (ascii_of_nat 96) then ascii_of_nat 34 else c.

Fixpoint lit (s : string) : string :=
  match s with
  | EmptyString => EmptyString
  | String c s' => String (lit_char c) (lit s')
  end.

(** The newline character. *)
Definition nl : string := String (ascii_of_nat 10) EmptyString.

(** A triple-quoted literal: a newline, the lines [ls] separated by
    newlines, a newline and the indentation [ind] before the closing
    quotes, as the literals of src/main.py are laid out. *)
Definition block (ls : list string) (ind : string) : string :=
  nl +:+ join nl ls +:+ nl +:+ ind.

(** ** Lemmas *)

Lemma append_assoc (a b c : string) : (a +:+ b) +:+ c = a +:+ (b +:+ c).
Proof. induction a as [|x a IH]; simpl; [done|by rewrite IH]. Qed.

Lemma append_nil_r (a : string) : a +:+ "" = a.
Proof. induction a as [|x a IH]; simpl; [done|by rewrite IH]. Qed.

Lemma length_append (a b : string) :
  String.length (a +:+ b) = String.length a + String.length b.
Proof. induction a as [|x a IH]; simpl; [done|by rewrite IH]. Qed.

Lemma lower_append (a b : string) : lower (a +:+ b) = lower a +:+ lower b.
Proof. induction a as [|x a IH]; simpl; [done|by rewrite IH]. Qed.

Lemma drop_append (a b : string) : drop (String.length a) (a +:+ b) = b.
Proof. induction a as [|x a IH]; simpl; [done|exact IH]. Qed.

Lemma take_drop (n : nat) (s : string) : take n s +:+ drop n s = s.
Proof.
  revert s; induction n as [|n IH]; intros [|c s]; simpl; try done.
  by rewrite IH.
Qed.

Lemma length_drop (n : nat) (s : string) :
  String.length (drop n s) = String.length s - n.
Proof. revert s; induction n as [|n IH]; intros [|c s]; simpl; auto. Qed.

Lemma prefix_cons (c d : ascii) (p s : string) :
  String.prefix (String c p) (String d s) =
  if ascii_dec c d then String.prefix p s else false.
Proof. reflexivity. Qed.

(** [String.prefix] is the prefix relation. *)
Lemma prefix_spec (p s : string) :
  String.prefix p s = true <-> exists r, s = p +:+ r.
Proof.
  revert s; induction p as [|c p IH]; intros s; simpl.
  - split; [by exists s|intros _; by destruct s].
  - destruct s as [|d s].
    + split; [discriminate|]. by intros [r ?].
    + rewrite prefix_cons. case_match; [subst d|].
      * rewrite IH. split; intros [r Hr]; exists r; congruence.
      * split; [discriminate|]. intros [r Hr]. congruence.
Qed.

Lemma contains_unfold (n h : string) :
  contains n h =
  String.prefix n h ||
  match h with EmptyString => false | String _ h' => contains n h' end.
Proof. by destruct h. Qed.

(** [contains] is the substring relation. *)
Lemma contains_spec (n h : string) :
  contains n h = true <-> exists a b, h = a +:+ n +:+ b.
Proof.
  induction h as [|c h IH]; rewrite contains_unfold, orb_true_iff, prefix_spec.
  - split.
    + intros [[r Hr]|H]; [|discriminate].
      destruct n, r; try discriminate. by exists "", "".
    + intros [[|x a] [b Hb]]; [left; by exists b|done].
  - rewrite IH. split.
    + intros [[r Hr]|[a [b ->]]]; [by exists "", r|by exists (String c a), b].
    + intros [[|x a] [b Hb]]; [left; by exists b|].
      right. injection Hb as -> ->. by exists a, b.
Qed.

Lemma contains_append_mid (a n b : string) : contains n (a +:+ n +:+ b) = true.
Proof. apply contains_spec. by exists a, b. Qed.

(** [endswith] is the suffix relation. *)
Lemma endswith_spec (s suf : string) :
  endswith s suf = true <-> exists p, s = p +:+ suf.
Proof.
  unfold endswith. rewrite String.eqb_eq. split.
  - intros Hd. exists (take (String.length s - String.length suf) s).
    rewrite <- Hd at 2. by rewrite take_drop.
  - intros [p ->]. rewrite length_append.
    replace (String.length p + String.length suf - String.length suf)
      with (String.length p) by lia.
    apply drop_append.
Qed.

Lemma lower_char_idem (c : ascii) : lower_char (lower_char c) = lower_char c.
Proof.
  destruct (is_upper c) eqn:Hu.
  - assert (is_upper (ascii_of_nat (nat_of_ascii c + 32)) = false) as Hl.
    { unfold is_upper in *. apply andb_true_iff in Hu as [H65 H90].
      apply Nat.leb_le in H65, H90. rewrite nat_ascii_embedding by lia.
      destruct (Nat.leb_spec (nat_of_ascii c + 32) 90); [lia|].
      by rewrite andb_false_r. }
    unfold lower_char at 2 3. rewrite Hu. unfold lower_char. by rewrite Hl.
  - assert (lower_char c = c) as H by (unfold lower_char; by rewrite Hu).
    rewrite H. exact H.
Qed.

Lemma lower_idem (s : string) : lower (lower s) = lower s.
Proof. induction s as [|c s IH]; simpl; [done|by rewrite lower_char_idem, IH]. Qed.

Lemma lower_join (sep : string) (parts : list string) :
  lower (join sep parts) = join (lower sep) (map lower parts).
Proof.
  unfold join. induction parts as [|x [|y l] IH]; [done|done|].
  cbn [String.concat map] in *. by rewrite !lower_append, IH.
Qed.

(** The joined text of a list with [x] at its head starts with [x]. *)
Lemma join_cons_prefix (sep x : string) (l : list string) :
  exists v, join sep (x :: l) = x +:+ v.
Proof. destruct l; [exists ""; apply eq_sym, append_nil_r|by eexists]. Qed.

Lemma concat_cons_ne (sep x : string) (l : list string) :
  l <> [] -> String.concat sep (x :: l) = x +:+ sep +:+ String.concat sep l.
Proof. by destruct l. Qed.

(** Two adjacent cells occur in the joined text with the separator
    between them. *)
Lemma join_adjacent (sep a b : string) (l1 l2 : list string) :
  exists u v, join sep (l1 ++ a :: b :: l2) = u +:+ a +:+ sep +:+ b +:+ v.
Proof.
  unfold join. induction l1 as [|x l1 IH].
  - destruct (join_cons_prefix sep b l2) as [v Hv]. unfold join in Hv.
    exists "", v. cbn [app]. by rewrite concat_cons_ne, Hv.
  - destruct IH as [u [v Hv]]. exists (x +:+ sep +:+ u), v.
    cbn [app]. rewrite concat_cons_ne by (by destruct l1). rewrite Hv.
    by rewrite !append_assoc.
Qed.

(** Substrings of substrings are substrings. *)
Lemma contains_trans (m x y : string) :
  contains m x = true -> contains x y = true -> contains m y = true.
Proof.
  rewrite !contains_spec. intros [a [b ->]] [c [d ->]].
  exists (c +:+ a), (b +:+ d). by rewrite !append_assoc.
Qed.

(** Every part occurs in the joined text. *)
Lemma join_mem (sep x : string) (l1 l2 : list string) :
  exists u v, join sep (l1 ++ x :: l2) = u +:+ x +:+ v.
Proof.
  unfold join. induction l1 as [|y l1 IH].
  - destruct (join_cons_prefix sep x l2) as [v Hv]. by exists "", v.
  - destruct IH as [u [v Hv]]. exists (y +:+ sep +:+ u), v.
    cbn [app]. rewrite concat_cons_ne by (by destruct l1). rewrite Hv.
    by rewrite !append_assoc.
Qed.

(** Every line of a triple-quoted block occurs in it. *)
Lemma block_contains_line (x ind : string) (ls : list string) :
  In x ls -> contains x (block ls ind) = true.
Proof.
  intros Hin. apply in_split in Hin as (l1 & l2 & ->).
  destruct (join_mem nl x l1 l2) as [u [v Hj]]. apply contains_spec.
  exists (nl +:+ u), (v +:+ nl +:+ ind). unfold block. rewrite Hj.
  by rewrite !append_assoc.
Qed.

(** Strings as lists of characters. *)
Lemma list_ascii_append (a b : string) :
  String.list_ascii_of_string (a +:+ b) =
  String.list_ascii_of_string a ++ String.list_ascii_of_string b.
Proof. induction a as [|x a IH]; simpl; [done|by rewrite IH]. Qed.

Lemma list_ascii_lower (s : string) :
  String.list_ascii_of_string (lower s) = map lower_char (String.list_ascii_of_string s).
Proof. induction s as [|x s IH]; simpl; [done|by rewrite IH]. Qed.

(** The substring relation on the character lists. *)
Lemma contains_list (n h : string) :
  contains n h = true <->
  exists a b, String.list_ascii_of_string h = a ++ String.list_ascii_of_string n ++ b.
Proof.
  rewrite contains_spec. split.
  - intros (a & b & ->). exists (String.list_ascii_of_string a), (String.list_ascii_of_string b).
    by rewrite !list_ascii_append.
  - intros (a & b & Hh). exists (String.string_of_list_ascii a), (String.string_of_list_ascii b).
    rewrite <- (String.string_of_list_ascii_of_string h), Hh.
    rewrite <- (String.list_ascii_of_string_of_list_ascii a) at 1.
    rewrite <- (String.list_ascii_of_string_of_list_ascii b) at 1.
    rewrite <- !list_ascii_append. apply String.string_of_list_ascii_of_string.
Qed.

(** [str(n)] is injective: [int(str(n)) = n]. *)
Lemma str_of_nat_inj m n : str_of_nat m = str_of_nat n -> m = n.
Proof.
  unfold str_of_nat. intros H. apply DecimalNat.Unsigned.to_uint_inj.
  apply (f_equal NilEmpty.uint_of_string) in H. rewrite !NilEmpty.usu in H. congruence.
Qed.

Lemma append_inj_l (a b c : string) : a +:+ b = a +:+ c -> b = c.
Proof.
  intros H. apply (f_equal String.list_ascii_of_string) in H.
  rewrite !list_ascii_append in H. apply app_inv_head in H.
  rewrite <- (String.string_of_list_ascii_of_string b), <- (String.string_of_list_ascii_of_string c).
  by f_equal.
Qed.

End PyStr.

#[export] Hint Rewrite PyStr.append_assoc PyStr.append_nil_r PyStr.lower_append
  PyStr.length_append : webapp_rw.
#[export] Hint Resolve PyStr.contains_append_mid : webapp.
