(* ===== verification/Usage.v ===== *)
(** * Usage tracker: the daily search quota of src/main.py

    [USAGE] (line 16) maps an email to a record [{"date", "count"}];
    [DAILY_LIMIT] (line 17) is 10. The quota check is the prologue of the
    [search] handler (lines 128-139); the landing page reads the count
    (lines 99-100). A [date] is modelled by its ordinal
    ([date.toordinal()]), which is all the code compares. *)

From S2P Require Import Prelude.

Module Usage.

(** ** Data *)

(** A value of [USAGE]: [{"date": date, "count": int}]. *)
Record usage := mk_usage { u_date : nat; u_count : nat }.

#[global] Instance usage_eq_dec : EqDecision usage.
Proof. solve_decision. Defined.

(** [DAILY_LIMIT = 10]. *)
Definition DAILY_LIMIT : nat := 10.

(** Outcome of the quota check: the handler goes on, or returns the
    "limit reached" page (line 135). *)
Inductive verdict := Allowed | Denied.

#[global] Instance verdict_eq_dec : EqDecision verdict.
Proof. solve_decision. Defined.

(** ** Operations *)

(** [USAGE.get(email, {"date": today, "count": 0})]. *)
Definition usage_get (USAGE : gmap string usage) (email : string)
    (today : nat) : usage :=
  default (mk_usage today 0) (USAGE !! email).

(** Lines 128-139: read the record, reset it on a new day, deny at the
    limit without writing, otherwise store the record with the count
    incremented. The dict [usage] read from [USAGE] is mutated in place
    and stored back under [email]; the model stores the updated value,
    which is the same final table. *)
Definition check_and_increment (USAGE : gmap string usage) (email : string)
    (today : nat) : verdict * gmap string usage :=
  let usage := usage_get USAGE email today in
  let usage := if decide (u_date usage = today) then usage
               else mk_usage today 0 in
  if DAILY_LIMIT <=? u_count usage then (Denied, USAGE)
  else (Allowed,
        <[email := mk_usage (u_date usage) (S (u_count usage))]> USAGE).

(** Lines 99-100: the count shown on the landing page. *)
Definition page_count (USAGE : gmap string usage) (email : string)
    (today : nat) : nat :=
  u_count (usage_get USAGE email today).

(** ** Abstract specification: one counter per (email, day) *)

(** What the quota promises: each (email, day) admits at most
    [DAILY_LIMIT] searches, counted separately per day. *)
Definition counters := string -> nat -> nat.

Definition bump (σ : counters) (e : string) (t : nat) : counters :=
  fun e' t' => if decide (e' = e /\ t' = t) then S (σ e t) else σ e' t'.

Definition spec_check (σ : counters) (e : string) (t : nat)
    : verdict * counters :=
  if DAILY_LIMIT <=? σ e t then (Denied, σ) else (Allowed, bump σ e t).

(** The table [USAGE] represents the counters [σ]: the stored record of
    [e] holds the counter of its date, and no later day has been counted
    yet; an email without record has no counted day. *)
Definition represents (USAGE : gmap string usage) (σ : counters) : Prop :=
  forall e, match USAGE !! e with
            | None => forall t, σ e t = 0
            | Some u => σ e (u_date u) = u_count u /\
                        forall t, u_date u < t -> σ e t = 0
            end.

(** The clock has not gone back for [e]: today is not before the date
    of its record. *)
Definition clock_ok (USAGE : gmap string usage) (e : string) (t : nat) : Prop :=
  forall u, USAGE !! e = Some u -> u_date u <= t.

(** Every stored count is within the limit. *)
Definition bounded (USAGE : gmap string usage) : Prop :=
  forall e u, USAGE !! e = Some u -> u_count u <= DAILY_LIMIT.

(** [n] successive checks for the same email on the same day. *)
Fixpoint run_checks (n : nat) (USAGE : gmap string usage) (e : string)
    (t : nat) : list verdict * gmap string usage :=
  match n with
  | 0 => ([], USAGE)
  | S n' =>
      let '(v, U1) := check_and_increment USAGE e t in
      let '(vs, U2) := run_checks n' U1 e t in
      (v :: vs, U2)
  end.

(** A table holding one record for [u@x], for the examples. *)
Definition demo_usage (d c : nat) : gmap string usage := <["u@x" := mk_usage d c]> ∅.

(** ** Lemmas *)

(** The count the check compares: the stored count if the record is of
    today, 0 otherwise. *)
Definition effective_count (USAGE : gmap string usage) (e : string)
    (t : nat) : nat :=
  match USAGE !! e with
  | Some u => if decide (u_date u = t) then u_count u else 0
  | None => 0
  end.

(** The check in closed form. *)
Lemma check_and_increment_eq USAGE e t :
  check_and_increment USAGE e t =
  if DAILY_LIMIT <=? effective_count USAGE e t then (Denied, USAGE)
  else (Allowed, <[e := mk_usage t (S (effective_count USAGE e t))]> USAGE).
Proof.
  unfold check_and_increment, effective_count, usage_get.
  destruct (USAGE !! e) as [[d c]|]; simpl; repeat case_decide;
    simplify_eq/=; done.
Qed.

(** The check leaves the other emails' records alone. *)
Lemma check_and_increment_other USAGE e e' t v U' :
  check_and_increment USAGE e t = (v, U') -> e' <> e ->
  U' !! e' = USAGE !! e'.
Proof.
  rewrite check_and_increment_eq.
  destruct (_ <=? _); intros [= <- <-] Hne; [done|].
  by rewrite lookup_insert_ne.
Qed.

(** After the check the record of [e], if any, is of today. *)
Lemma check_and_increment_date USAGE e t v U' u :
  check_and_increment USAGE e t = (v, U') -> v = Allowed ->
  U' !! e = Some u -> u_date u = t.
Proof.
  rewrite check_and_increment_eq.
  destruct (_ <=? _); intros [= <- <-] ?; [done|].
  rewrite lookup_insert_eq. by intros [= <-].
Qed.

(** Bumping the counter of (e, t). *)
Lemma bump_same σ e t : bump σ e t e t = S (σ e t).
Proof. unfold bump. rewrite decide_True; done. Qed.

Lemma bump_other σ e t e' t' :
  e' <> e \/ t' <> t -> bump σ e t e' t' = σ e' t'.
Proof.
  intros Hne. unfold bump. case_decide as Hc; [|done].
  destruct Hc, Hne; contradiction.
Qed.

(** Under [represents], the effective count is the abstract counter. *)
Lemma represents_effective USAGE σ e t :
  represents USAGE σ -> clock_ok USAGE e t ->
  effective_count USAGE e t = σ e t.
Proof.
  intros Hrep Hclk. specialize (Hrep e). unfold effective_count.
  destruct (USAGE !! e) as [u|] eqn:Hu; [|by rewrite Hrep].
  destruct Hrep as [Hd Hlater]. specialize (Hclk u Hu).
  case_decide; [by subst|]. symmetry. apply Hlater. lia.
Qed.

(** A denial leaves the table as it was. *)
Lemma check_denied_unchanged USAGE e t U' :
  check_and_increment USAGE e t = (Denied, U') -> U' = USAGE.
Proof. rewrite check_and_increment_eq. by destruct (_ <=? _); intros [= <-]. Qed.

(** One abstract check counts one more search exactly for the admitted
    (email, day). *)
Lemma spec_check_count σ e0 t0 e t :
  snd (spec_check σ e0 t0) e t =
  σ e t + (if decide (fst (spec_check σ e0 t0) = Allowed /\ e = e0 /\ t = t0)
           then 1 else 0).
Proof.
  unfold spec_check. destruct (DAILY_LIMIT <=? σ e0 t0); simpl.
  - lia.
  - destruct (decide (e = e0 /\ t = t0)) as [[-> ->]|Hne].
    + rewrite bump_same, decide_True by done. lia.
    + rewrite bump_other by (destruct (decide (e = e0)); [right|left]; naive_solver).
      rewrite decide_False by naive_solver. lia.
Qed.

(** The abstract counters never exceed the limit. *)
Lemma spec_check_bounded σ e0 t0 :
  (forall e t, σ e t <= DAILY_LIMIT) ->
  forall e t, snd (spec_check σ e0 t0) e t <= DAILY_LIMIT.
Proof.
  intros Hb e t. rewrite spec_check_count. specialize (Hb e t).
  unfold spec_check in *. destruct (Nat.leb_spec DAILY_LIMIT (σ e0 t0)); simpl.
  - lia.
  - case_decide as Hc; [|lia]. destruct Hc as [_ [-> ->]]. lia.
Qed.

(** ** Properties of the quota check *)

(** (C7) At or above the limit on the record's own day, the search is
    denied and [USAGE] is not written. *)
Theorem check_denied_at_limit USAGE e t u :
  USAGE !! e = Some u -> u_date u = t -> DAILY_LIMIT <= u_count u ->
  check_and_increment USAGE e t = (Denied, USAGE).
Proof.
  intros Hu Hd Hc. rewrite check_and_increment_eq. unfold effective_count.
  rewrite Hu, decide_True by done.
  destruct (Nat.leb_spec DAILY_LIMIT (u_count u)); [done|lia].
Qed.

Lemma check_denied_at_limit_witness :
  demo_usage 5 10 !! "u@x" = Some (mk_usage 5 10) /\
  check_and_increment (demo_usage 5 10) "u@x" 5 = (Denied, demo_usage 5 10).
Proof.
  split; [reflexivity|].
  apply (check_denied_at_limit _ _ _ (mk_usage 5 10)); [reflexivity|reflexivity|].
  unfold DAILY_LIMIT. simpl. lia.
Defined.

(** (C8) Below the limit on the record's own day, the search is admitted
    and the count goes up by one. *)
Theorem check_allows_below_limit USAGE e t c :
  USAGE !! e = Some (mk_usage t c) -> c < DAILY_LIMIT ->
  check_and_increment USAGE e t =
    (Allowed, <[e := mk_usage t (S c)]> USAGE).
Proof.
  intros Hu Hc. rewrite check_and_increment_eq. unfold effective_count.
  rewrite Hu. cbn [u_date u_count]. rewrite decide_True by done.
  destruct (Nat.leb_spec DAILY_LIMIT c); [lia|done].
Qed.

Lemma check_allows_below_limit_witness :
  demo_usage 5 3 !! "u@x" = Some (mk_usage 5 3) /\ 3 < DAILY_LIMIT /\
  check_and_increment (demo_usage 5 3) "u@x" 5 =
    (Allowed, <["u@x" := mk_usage 5 4]> (demo_usage 5 3)).
Proof.
  split; [reflexivity|]. split; [unfold DAILY_LIMIT; lia|].
  apply check_allows_below_limit; [reflexivity|unfold DAILY_LIMIT; lia].
Defined.

(** (C6) A record of another day, whatever its count, is reset: the
    search is admitted and the record becomes (today, 1). An email with
    no record is admitted the same way. *)
Theorem check_new_day USAGE e t :
  (forall u, USAGE !! e = Some u -> u_date u <> t) ->
  check_and_increment USAGE e t =
    (Allowed, <[e := mk_usage t 1]> USAGE).
Proof.
  intros Hstale. rewrite check_and_increment_eq. unfold effective_count.
  destruct (USAGE !! e) as [u|] eqn:Hu; [|done].
  by rewrite decide_False by (apply Hstale; done).
Qed.

Lemma check_new_day_witness :
  (forall u, demo_usage 4 10 !! "u@x" = Some u -> u_date u <> 5) /\
  check_and_increment (demo_usage 4 10) "u@x" 5 =
    (Allowed, <["u@x" := mk_usage 5 1]> (demo_usage 4 10)).
Proof.
  assert (forall u, demo_usage 4 10 !! "u@x" = Some u -> u_date u <> 5) as H.
  { intros u Hu. vm_compute in Hu. injection Hu as <-. simpl. lia. }
  split; [exact H|]. apply check_new_day, H.
Defined.

(** The check keeps every stored count within [DAILY_LIMIT]. *)
Lemma check_preserves_bounded USAGE e t v U' :
  bounded USAGE -> check_and_increment USAGE e t = (v, U') -> bounded U'.
Proof.
  intros Hb. rewrite check_and_increment_eq.
  destruct (DAILY_LIMIT <=? effective_count USAGE e t) eqn:Hle;
    intros [= <- <-]; [done|].
  apply Nat.leb_gt in Hle. intros e' u.
  destruct (decide (e' = e)) as [->|Hne].
  - rewrite lookup_insert_eq. intros [= <-]. simpl. lia.
  - rewrite lookup_insert_ne by done. apply Hb.
Qed.

(** (C2) Refinement: on a clock that does not go back, the code's check
    answers as the per-(email, day) counter specification and the tables
    stay related. *)
Theorem check_refines_spec USAGE σ e t :
  represents USAGE σ -> clock_ok USAGE e t ->
  fst (check_and_increment USAGE e t) = fst (spec_check σ e t) /\
  represents (snd (check_and_increment USAGE e t)) (snd (spec_check σ e t)).
Proof.
  intros Hrep Hclk.
  rewrite check_and_increment_eq, (represents_effective _ σ) by done.
  unfold spec_check. destruct (DAILY_LIMIT <=? σ e t); simpl; [done|].
  split; [done|]. intros e'. destruct (decide (e' = e)) as [->|Hne].
  - rewrite lookup_insert_eq. simpl. split; [apply bump_same|].
    intros t' Ht'. rewrite bump_other by (right; lia).
    specialize (Hrep e). destruct (USAGE !! e) as [u|] eqn:Hu.
    + apply Hrep. specialize (Hclk u Hu). lia.
    + apply Hrep.
  - rewrite lookup_insert_ne by done.
    specialize (Hrep e'). destruct (USAGE !! e') as [u|];
      [destruct Hrep as [Hd Hl]; split|];
      intros; rewrite ?bump_other by (left; done); auto.
Qed.

Lemma check_refines_spec_witness :
  represents ∅ (fun _ _ => 0) /\ clock_ok ∅ "u@x" 5 /\
  fst (check_and_increment ∅ "u@x" 5) = fst (spec_check (fun _ _ => 0) "u@x" 5) /\
  represents (snd (check_and_increment ∅ "u@x" 5)) (snd (spec_check (fun _ _ => 0) "u@x" 5)).
Proof.
  assert (represents ∅ (fun _ _ => 0)) as Hr by (intros e; rewrite lookup_empty; done).
  assert (clock_ok ∅ "u@x" 5) as Hc by (intros u Hu; vm_compute in Hu; discriminate).
  split; [exact Hr|]. split; [exact Hc|]. apply check_refines_spec; [exact Hr|exact Hc].
Defined.

Lemma run_checks_S n USAGE e t :
  run_checks (S n) USAGE e t =
  let '(v, U1) := check_and_increment USAGE e t in
  let '(vs, U2) := run_checks n U1 e t in (v :: vs, U2).
Proof. reflexivity. Qed.

(** The check in [run_checks], from a record of today with count [c]:
    admitted until the limit, denied afterwards. *)
Lemma run_checks_from n USAGE e t c :
  USAGE !! e = Some (mk_usage t c) -> c <= DAILY_LIMIT ->
  run_checks n USAGE e t =
    (replicate (min n (DAILY_LIMIT - c)) Allowed ++
       replicate (n - (DAILY_LIMIT - c)) Denied,
     <[e := mk_usage t (min (c + n) DAILY_LIMIT)]> USAGE).
Proof.
  revert USAGE c. induction n as [|n IH]; intros USAGE c Hu Hc.
  - simpl. rewrite Nat.add_0_r, Nat.min_l by done. by rewrite insert_id.
  - rewrite run_checks_S. destruct (decide (c < DAILY_LIMIT)) as [Hlt|Hge].
    + rewrite (check_allows_below_limit _ _ _ c) by done.
      cbv beta iota zeta.
      rewrite (IH _ (S c)) by (rewrite ?lookup_insert_eq; done || lia).
      rewrite insert_insert_eq.
      replace (DAILY_LIMIT - c) with (S (DAILY_LIMIT - S c)) by lia.
      by replace (c + S n) with (S c + n) by lia.
    + rewrite (check_denied_at_limit _ _ _ (mk_usage t c)) by (done || simpl; lia).
      cbv beta iota zeta. rewrite (IH _ c) by done.
      replace (DAILY_LIMIT - c) with 0 by lia.
      rewrite !Nat.min_0_r, !Nat.sub_0_r.
      replace (min (c + n) DAILY_LIMIT) with DAILY_LIMIT by lia.
      by replace (min (c + S n) DAILY_LIMIT) with DAILY_LIMIT by lia.
Qed.

(** (C5) After exactly [DAILY_LIMIT] admitted searches on one day, from an
    email with no record of that day, the next search is denied and the
    denial leaves the stored count at [DAILY_LIMIT]. *)
Theorem limit_then_denied USAGE e t :
  (forall u, USAGE !! e = Some u -> u_date u <> t) ->
  run_checks (S DAILY_LIMIT) USAGE e t =
    (replicate DAILY_LIMIT Allowed ++ [Denied],
     <[e := mk_usage t DAILY_LIMIT]> USAGE).
Proof.
  intros Hstale. rewrite run_checks_S, check_new_day by done.
  cbv beta iota zeta.
  rewrite (run_checks_from _ _ _ _ 1)
    by (rewrite ?lookup_insert_eq; done || (unfold DAILY_LIMIT; lia)).
  by rewrite insert_insert_eq.
Qed.

Lemma limit_then_denied_witness :
  (forall u, demo_usage 4 7 !! "u@x" = Some u -> u_date u <> 5) /\
  run_checks (S DAILY_LIMIT) (demo_usage 4 7) "u@x" 5 =
    (replicate DAILY_LIMIT Allowed ++ [Denied],
     <["u@x" := mk_usage 5 DAILY_LIMIT]> (demo_usage 4 7)).
Proof.
  assert (forall u, demo_usage 4 7 !! "u@x" = Some u -> u_date u <> 5) as H.
  { intros u Hu. vm_compute in Hu. injection Hu as <-. simpl. lia. }
  split; [exact H|]. apply limit_then_denied, H.
Defined.

End Usage.
