(* ===== verification/Otp.v ===== *)
(** * OTP registry of src/main.py

    [USERS] (line 15) maps an email to [{"otp": code}]. [send_otp]
    (lines 50-52) draws a 6-digit code with [random.choices] and
    overwrites the entry; [verify_otp] (line 74) compares the stored code
    with the submitted one and never deletes or rotates it. The random
    draws are an input of the model: [random.choices(population, k=6)]
    picks [population[floor(random() * len(population))]] six times, and
    [draws] are those six indices. *)

From S2P Require Import Prelude PyStr.
From Stdlib Require Import Ascii.

Module Otp.

(** A value of [USERS]: [{"otp": code}]. *)
Record user_record := mk_user { otp : string }.

#[global] Instance user_record_eq_dec : EqDecision user_record.
Proof. solve_decision. Defined.

(** [random.choices(population, k)], given the drawn indices. *)
Definition choices (population : string) (k : nat) (draws : list nat) : string :=
  PyStr.join "" (map (fun i => String (default "0"%char (String.get i population)) "")
                     (take k draws)).

(** Line 51: [otp = "".join(random.choices(string.digits, k=6))]. *)
Definition gen_otp (draws : list nat) : string :=
  choices PyStr.digits 6 draws.

(** Line 52: [USERS[email] = {"otp": otp}]. *)
Definition store_otp (USERS : gmap string user_record) (email code : string)
    : gmap string user_record :=
  <[email := mk_user code]> USERS.

(** Line 74: [email in USERS and USERS[email]["otp"] == otp]. *)
Definition otp_valid (USERS : gmap string user_record) (email code : string)
    : bool :=
  match USERS !! email with
  | Some u => String.eqb (otp u) code
  | None => false
  end.

(** A draw of [random()] scaled to [n] choices is below [n]. *)
Definition valid_draws (n : nat) (draws : list nat) : Prop :=
  6 <= length draws /\ Forall (fun i => i < n) draws.

(** ** Lemmas *)

Lemma otp_valid_spec USERS email code :
  otp_valid USERS email code = true <-> USERS !! email = Some (mk_user code).
Proof.
  unfold otp_valid. destruct (USERS !! email) as [[c]|]; simpl.
  - rewrite String.eqb_eq. split; congruence.
  - split; discriminate.
Qed.

Lemma join_empty_singletons (cs : list ascii) :
  PyStr.join "" (map (fun c => String c "") cs) = String.string_of_list_ascii cs.
Proof.
  unfold PyStr.join. induction cs as [|c [|c' cs] IH]; [done|done|].
  simpl in *. by rewrite IH.
Qed.

Lemma string_of_list_ascii_length (cs : list ascii) :
  String.length (String.string_of_list_ascii cs) = length cs.
Proof. induction cs; simpl; auto. Qed.

Lemma digits_get_digit i : i < 10 ->
  PyStr.is_digit (default "0"%char (String.get i PyStr.digits)) = true.
Proof. intros Hi. do 10 (destruct i as [|i]; [reflexivity|]). lia. Qed.

(** ** Properties *)

(** The code [send_otp] generates is six characters long and made of
    decimal digits only. *)
Lemma gen_otp_six_digits draws :
  valid_draws 10 draws ->
  String.length (gen_otp draws) = 6 /\
  Forall (fun c => PyStr.is_digit c = true) (String.list_ascii_of_string (gen_otp draws)).
Proof.
  intros [Hlen Hall]. unfold gen_otp, choices.
  rewrite <- (map_map (fun i => default "0"%char (String.get i PyStr.digits))
                      (fun c => String c "")), join_empty_singletons.
  split.
  - rewrite string_of_list_ascii_length, length_map, length_take. lia.
  - rewrite String.list_ascii_of_string_of_list_ascii, Forall_map.
    apply Forall_take. eapply Forall_impl; [exact Hall|]. exact digits_get_digit.
Qed.


(** Verification succeeds exactly for the code last stored for that
    email; an overwritten code fails, and other emails are untouched. *)
Lemma otp_valid_after_store USERS email code email' code' :
  otp_valid (store_otp USERS email code) email' code' =
  if decide (email' = email) then String.eqb code code'
  else otp_valid USERS email' code'.
Proof.
  unfold otp_valid, store_otp. case_decide as Hc.
  - subst. by rewrite lookup_insert_eq.
  - by rewrite lookup_insert_ne by done.
Qed.

End Otp.
