(* ===== verification/Session.v ===== *)
(** * Session of a client (SessionMiddleware, src/main.py line 12)

    [request.session] is the dict carried in the client's signed cookie;
    the handlers use its key ["email"] only. A handler reads it with
    [request.session.get("email")] and tests it for truth ([if not email]
    at lines 95 and 124, [if request.session.get("email")] at line 25), so
    a missing key and an empty string both mean "anonymous". *)

From S2P Require Import Prelude.

Module Session.

(** [request.session.get("email")] followed by the truth test. *)
Definition logged_in (sess : gmap string string) : option string :=
  match sess !! "email" with
  | Some e => if decide (e = "") then None else Some e
  | None => None
  end.

(** Line 75: [request.session["email"] = email]. *)
Definition establish (sess : gmap string string) (email : string)
    : gmap string string :=
  <["email" := email]> sess.

(** Line 85: [request.session.clear()]. *)
Definition clear (sess : gmap string string) : gmap string string := ∅.

Lemma logged_in_establish sess email :
  email <> "" -> logged_in (establish sess email) = Some email.
Proof.
  intros Hne. unfold logged_in, establish. rewrite lookup_insert_eq.
  by rewrite decide_False.
Qed.

Lemma logged_in_clear sess : logged_in (clear sess) = None.
Proof. done. Qed.

Lemma logged_in_Some sess email :
  logged_in sess = Some email -> sess !! "email" = Some email /\ email <> "".
Proof.
  unfold logged_in. destruct (sess !! "email") as [e|]; [|done].
  case_decide; [done|]. by intros [= <-].
Qed.

End Session.

#[export] Hint Rewrite Session.logged_in_clear : webapp_rw.
