(* ===== verification/Frame.v ===== *)
(** * The pandas operations called by the search handler

    A DataFrame read with [dtype=str] is a header and rows of cells, a
    cell being a string or NaN ([None]). The operations are those of
    src/main.py lines 150-176: [fillna("").astype(str)],
    [agg(" ".join, axis=1)], [str.contains(query, case=False, na=False)],
    boolean indexing [df[mask]], [mask.any()], [DataFrame.empty],
    [pd.concat(..., ignore_index=True)] and the [chunksize] reader.

    pandas itself and Python's [re] are libraries the program calls: they
    enter as two interfaces. [ReEngine] compiles a pattern with
    [re.IGNORECASE] (or raises), with the law that a pattern without
    metacharacters searches for itself case-insensitively. [TableReader]
    parses the uploaded bytes (or raises). *)

From S2P Require Import Prelude PyStr.
From Stdlib Require Import Ascii.

Module Frame.

(** ** DataFrames *)

Definition cell := option string.

Record frame (A : Type) := mk_frame { columns : list string; rows : list (list A) }.
Arguments mk_frame {A} _ _.
Arguments columns {A} _.
Arguments rows {A} _.

(** [df.fillna("").astype(str)]: NaN becomes [""], strings stay. *)
Definition fillna (v : string) (df : frame cell) : frame string :=
  mk_frame (columns df) (map (map (default v)) (rows df)).

(** [df.agg(" ".join, axis=1)]: one text per row. *)
Definition agg_join (df : frame string) : list string :=
  map (PyStr.join " ") (rows df).

(** [rows[mask]]: keep the rows whose mask entry is true. *)
Fixpoint bool_index {A} (rs : list A) (mask : list bool) : list A :=
  match rs, mask with
  | r :: rs', b :: mask' =>
      if b then r :: bool_index rs' mask' else bool_index rs' mask'
  | _, _ => []
  end.

Definition select {A} (df : frame A) (mask : list bool) : frame A :=
  mk_frame (columns df) (bool_index (rows df) mask).

(** [mask.any()]. *)
Definition mask_any (mask : list bool) : bool := existsb id mask.

(** [DataFrame.empty]: no row or no column. *)
Definition df_empty {A} (df : frame A) : bool :=
  bool_decide (rows df = []) || bool_decide (columns df = []).

(** [pd.concat(frames, ignore_index=True)] of frames with the same
    header (the callers never pass an empty list). *)
Definition concat_frames {A} (fs : list (frame A)) : frame A :=
  match fs with
  | [] => mk_frame [] []
  | f :: _ => mk_frame (columns f) (concat (map rows fs))
  end.

(** The blocks of [n] rows the reader yields with [chunksize=n]; [fuel]
    bounds the number of blocks. *)
Fixpoint chunk_rows {A} (fuel n : nat) (rs : list A) : list (list A) :=
  match fuel with
  | 0 => []
  | S fuel' =>
      match rs with
      | [] => []
      | _ => take n rs :: chunk_rows fuel' n (drop n rs)
      end
  end.

(** [pd.read_csv(..., chunksize=n)] over an already parsed table: one
    block per [n] rows, each with the header; the number of rows is
    enough fuel (see [chunk_rows_concat]). *)
Definition chunks {A} (n : nat) (df : frame A) : list (frame A) :=
  map (mk_frame (columns df)) (chunk_rows (length (rows df)) n (rows df)).

(** ** Interfaces of the libraries *)

(** Characters with a meaning in a Python regular expression. *)
Definition regex_meta : string := ".^$*+?{}[]\|()".

Definition is_literal (p : string) : bool :=
  forallb (fun c => negb (existsb (Ascii.eqb c) (String.list_ascii_of_string regex_meta)))
          (String.list_ascii_of_string p).

(** [re.compile(pat, re.IGNORECASE)]: an error message or the predicate
    [lambda x: pat.search(x) is not None]. *)
Class ReEngine := re_compile_ic : string -> string + (string -> bool).

(** On a pattern without metacharacters, [re] searches for the pattern
    itself, case-insensitively. *)
Class ReEngineLaws `{ReEngine} :=
  re_literal : forall p, is_literal p = true ->
    exists f, re_compile_ic p = inr f /\
      forall t, f t = PyStr.contains (PyStr.lower p) (PyStr.lower t).

(** [pd.read_csv(f, dtype=str)] and [pd.read_excel(f, dtype=str)]: an
    error message or the parsed table. *)
Class TableReader := {
  read_csv : list Byte.byte -> string + frame cell;
  read_excel : list Byte.byte -> string + frame cell
}.

(** [df.to_html(index=False)]. *)
Class TableRenderer := to_html : frame string -> string.

(** [combined.str.contains(query, case=False, na=False)]: the pattern is
    compiled on every call. *)
Definition str_contains `{ReEngine} (query : string) (texts : list string)
    : string + list bool :=
  match re_compile_ic query with
  | inl err => inl err
  | inr f => inr (map f texts)
  end.

(** An engine exact on literal patterns, used to evaluate examples. *)
Definition literal_engine : ReEngine :=
  fun p => inr (fun t => PyStr.contains (PyStr.lower p) (PyStr.lower t)).

Lemma literal_engine_laws : ReEngineLaws (H := literal_engine).
Proof. intros p _. by eexists. Qed.

(** ** Lemmas *)

(** Indexing by the mask of a predicate is filtering by it. *)
Lemma bool_index_map {A} (p : A -> bool) (rs : list A) :
  bool_index rs (map p rs) = List.filter p rs.
Proof. induction rs as [|r rs IH]; simpl; [done|]. by destruct (p r); rewrite IH. Qed.

Lemma mask_any_map {A} (p : A -> bool) (rs : list A) :
  mask_any (map p rs) = false <-> List.filter p rs = [].
Proof.
  unfold mask_any. induction rs as [|r rs IH]; simpl; [done|].
  destruct (p r); simpl; [done|exact IH].
Qed.

(** With [n > 0] and fuel for every row, the blocks concatenate back to
    the rows. *)
Lemma chunk_rows_concat {A} fuel n (rs : list A) :
  0 < n -> length rs <= fuel -> concat (chunk_rows fuel n rs) = rs.
Proof.
  revert rs. induction fuel as [|fuel IH]; intros rs Hn Hlen.
  - destruct rs; simpl in *; [done|lia].
  - destruct rs as [|r rs']; [done|]. cbn [chunk_rows concat].
    rewrite IH; [apply take_drop|done|].
    rewrite length_drop. simpl in *. lia.
Qed.

(** Every block is non-empty and has at most [n] rows. *)
Lemma chunk_rows_bounds {A} fuel n (rs : list A) :
  0 < n -> Forall (fun c => c <> [] /\ length c <= n) (chunk_rows fuel n rs).
Proof.
  revert rs. induction fuel as [|fuel IH]; intros rs Hn; [constructor|].
  destruct rs as [|r rs']; [constructor|]. cbn [chunk_rows].
  constructor; [|apply IH, Hn]. split.
  - destruct n; [lia|done].
  - rewrite length_take. lia.
Qed.

Lemma chunks_rows {A} n (df : frame A) :
  0 < n -> concat (map rows (chunks n df)) = rows df.
Proof.
  intros Hn. unfold chunks. rewrite map_map. simpl. rewrite map_id.
  by apply chunk_rows_concat.
Qed.

Lemma chunks_columns {A} n (df : frame A) :
  Forall (fun c => columns c = columns df) (chunks n df).
Proof. unfold chunks. apply Forall_map, Forall_forall. done. Qed.

Lemma fillna_columns v df : columns (fillna v df) = columns df.
Proof. done. Qed.

End Frame.

#[export] Hint Rewrite @Frame.bool_index_map Frame.fillna_columns : webapp_rw.
