(* ===== verification/Regex.v ===== *)
(** * Python's [re] on the patterns a search query can be

    The query of [/search] reaches [Series.str.contains(query,
    case=False)], which compiles it with [re.compile(query,
    re.IGNORECASE)] and keeps the cells where [pattern.search(cell)]
    finds a match. This file models that compilation and search on the
    fragment of Python's regular expressions made of literals, [.], [^],
    [$], classes [[...]] with ranges and negation, the escapes [\d \D \s
    \S \w \W \A \Z \b \B \a \f \n \r \t \v] and escaped symbols, groups
    [(...)] and [(?:...)], alternation [|] and the quantifiers [* + ?
    {m} {m,} {,n} {m,n}] with their lazy forms.

    - The tokenizer and parser follow CPython's [Lib/re/_parser.py]
      ([Tokenizer], [_parse_sub], [_parse], [_escape], [_class_escape]),
      including the order in which errors are detected and the message and
      position of each [re.error] the fragment can raise; constructions
      outside the fragment (lookarounds, named groups, back references,
      inline flags, numeric escapes, possessive quantifiers) are reported
      as [Unsupported] and handed to an arbitrary engine.
    - The matcher is Brzozowski's derivatives extended with the position
      context the anchors need (the previous character and the rest of the
      text), proved equal to the declarative semantics [in_re]; [pattern_search]
      scans every start position, as [re.search] does.
    - Characters are 8-bit and the character classes, case folding and
      word characters are those of the ASCII range. *)

From S2P Require Import Prelude PyStr Frame.
From Stdlib Require Import Ascii NArith Wf_nat.

Module Regex.

(** ** Characters *)

Definition nl_char : ascii := ascii_of_nat 10.

Definition is_lower (c : ascii) : bool :=
  (97 <=? nat_of_ascii c) && (nat_of_ascii c <=? 122).

(** [str.upper] on one ASCII character. *)
Definition upper_char (c : ascii) : ascii :=
  if is_lower c then ascii_of_nat (nat_of_ascii c - 32) else c.

(** [\w]: letters, digits and the underscore. *)
Definition is_word (c : ascii) : bool :=
  PyStr.is_upper c || is_lower c || PyStr.is_digit c || Ascii.eqb c "_".

(** [\s]: the characters [str.isspace] accepts, 9-13 and 28-32. *)
Definition is_space (c : ascii) : bool :=
  let n := nat_of_ascii c in ((9 <=? n) && (n <=? 13)) || ((28 <=? n) && (n <=? 32)).

(** ** Syntax: the codes of [_parser.py] *)

(** [CATEGORY] codes of [\d \D \s \S \w \W]. *)
Inductive category := CatDigit | CatNotDigit | CatSpace | CatNotSpace | CatWord | CatNotWord.

(** The members of a set [[...]]: [LITERAL], [RANGE], [CATEGORY]. *)
Inductive item := CLit (c : ascii) | CRange (lo hi : ascii) | CCat (k : category).

(** The codes that consume one character: [LITERAL], [ANY], [IN]. *)
Inductive sym := SChr (c : ascii) | SAny | SCls (neg : bool) (items : list item).

(** The [AT] codes: [^ $ \A \Z \b \B]. *)
Inductive anchor :=
  AtBeginning | AtEnd | AtBeginningString | AtEndString | AtBoundary | AtNonBoundary.

Inductive regex :=
  | Void
  | Eps
  | Sym (k : sym)
  | At (a : anchor)
  | Cat (r s : regex)
  | Alt (r s : regex)
  | Star (r : regex).

#[global] Instance category_eq_dec : EqDecision category.
Proof. solve_decision. Defined.
#[global] Instance item_eq_dec : EqDecision item.
Proof. solve_decision. Defined.
#[global] Instance sym_eq_dec : EqDecision sym.
Proof. solve_decision. Defined.
#[global] Instance anchor_eq_dec : EqDecision anchor.
Proof. solve_decision. Defined.
#[global] Instance regex_eq_dec : EqDecision regex.
Proof. solve_decision. Defined.

(** ** What one character and one position satisfy *)

Definition cat_match (k : category) (c : ascii) : bool :=
  match k with
  | CatDigit => PyStr.is_digit c
  | CatNotDigit => negb (PyStr.is_digit c)
  | CatSpace => is_space c
  | CatNotSpace => negb (is_space c)
  | CatWord => is_word c
  | CatNotWord => negb (is_word c)
  end.

Definition item_match (i : item) (c : ascii) : bool :=
  match i with
  | CLit d => Ascii.eqb c d
  | CRange lo hi => (nat_of_ascii lo <=? nat_of_ascii c) && (nat_of_ascii c <=? nat_of_ascii hi)
  | CCat k => cat_match k c
  end.

(** With [IGNORECASE], [_sre] tests a set on the lowered character and
    on its upper case ([IN_UNI_IGNORE], [RANGE_UNI_IGNORE]). *)
Definition class_match (neg : bool) (items : list item) (c : ascii) : bool :=
  xorb neg (existsb (fun i => item_match i (PyStr.lower_char c) || item_match i (upper_char c)) items).

(** [LITERAL_UNI_IGNORE] compares lowered characters; [ANY] is every
    character but a newline. *)
Definition sym_match (k : sym) (c : ascii) : bool :=
  match k with
  | SChr d => Ascii.eqb (PyStr.lower_char c) (PyStr.lower_char d)
  | SAny => negb (Ascii.eqb c nl_char)
  | SCls neg items => class_match neg items c
  end.

Definition word_at (o : option ascii) : bool :=
  match o with Some c => is_word c | None => false end.

(** [SRE(at)] of [_sre/sre_lib.h], at the position between [prev] (the
    character before, [None] at the start) and [rest] (the text after);
    both boundary tests fail on the empty text. *)
Definition at_holds (a : anchor) (prev : option ascii) (rest : list ascii) : bool :=
  match a with
  | AtBeginning | AtBeginningString => bool_decide (prev = None)
  | AtEnd => match rest with [] => true | [c] => Ascii.eqb c nl_char | _ => false end
  | AtEndString => bool_decide (rest = [])
  | AtBoundary =>
      negb (bool_decide (prev = None /\ rest = [])) && xorb (word_at prev) (word_at (head rest))
  | AtNonBoundary =>
      negb (bool_decide (prev = None /\ rest = [])) && negb (xorb (word_at prev) (word_at (head rest)))
  end.

(** The character before the position reached after reading [w]. *)
Fixpoint after (p : option ascii) (w : list ascii) : option ascii :=
  match w with [] => p | c :: w' => after (Some c) w' end.

(** ** The declarative semantics

    [in_re r p w b]: [r] matches the word [w] at a position preceded by
    [p] and followed by [w ++ b]. Repetition iterates non-empty words:
    an iteration that matches the empty word can always be left out, so
    the language is that of Python's repeat. *)
Inductive in_re : regex -> option ascii -> list ascii -> list ascii -> Prop :=
  | in_eps p b : in_re Eps p [] b
  | in_sym k p c b : sym_match k c = true -> in_re (Sym k) p [c] b
  | in_at a p b : at_holds a p b = true -> in_re (At a) p [] b
  | in_cat r s p w1 w2 b :
      in_re r p w1 (w2 ++ b) -> in_re s (after p w1) w2 b -> in_re (Cat r s) p (w1 ++ w2) b
  | in_alt_l r s p w b : in_re r p w b -> in_re (Alt r s) p w b
  | in_alt_r r s p w b : in_re s p w b -> in_re (Alt r s) p w b
  | in_star_nil r p b : in_re (Star r) p [] b
  | in_star_cons r p w1 w2 b :
      w1 <> [] -> in_re r p w1 (w2 ++ b) -> in_re (Star r) (after p w1) w2 b ->
      in_re (Star r) p (w1 ++ w2) b.

(** [re.search] finds a match: some substring of the text matches. *)
Definition occurs (r : regex) (p : option ascii) (s : list ascii) : Prop :=
  exists a w b, s = a ++ w ++ b /\ in_re r (after p a) w b.

(** ** The derivative matcher *)

(** Alternation and concatenation that drop [Void], [Eps] and duplicate
    branches, so that derivatives stay small. *)
Definition alt (r s : regex) : regex :=
  if decide (r = Void) then s else if decide (s = Void) then r
  else if decide (r = s) then r else Alt r s.

Definition cat (r s : regex) : regex :=
  if decide (r = Void) then Void else if decide (s = Void) then Void
  else if decide (r = Eps) then s else if decide (s = Eps) then r else Cat r s.

(** [r] matches the empty word at the position between [p] and [b]. *)
Fixpoint nullable (p : option ascii) (b : list ascii) (r : regex) : bool :=
  match r with
  | Void | Sym _ => false
  | Eps | Star _ => true
  | At a => at_holds a p b
  | Cat r s => nullable p b r && nullable p b s
  | Alt r s => nullable p b r || nullable p b s
  end.

(** The derivative of [r] by the character [c] read at the position
    between [p] and [c :: b]. *)
Fixpoint der (p : option ascii) (c : ascii) (b : list ascii) (r : regex) : regex :=
  match r with
  | Void | Eps | At _ => Void
  | Sym k => if sym_match k c then Eps else Void
  | Cat r s =>
      alt (cat (der p c b r) s) (if nullable p (c :: b) r then der p c b s else Void)
  | Alt r s => alt (der p c b r) (der p c b s)
  | Star r => cat (der p c b r) (Star r)
  end.

(** [r] matches exactly [w] between [p] and [b]. *)
Fixpoint matches (p : option ascii) (w b : list ascii) (r : regex) : bool :=
  match w with
  | [] => nullable p b r
  | c :: w' => matches (Some c) w' b (der p c (w' ++ b) r)
  end.

(** [re.search]: at each position a match of [r0] may start, so [r0] is
    added to the running derivative [cur]; a match is found when the
    running expression is nullable. *)
Fixpoint scan (r0 : regex) (p : option ascii) (s : list ascii) (cur : regex) : bool :=
  let cur := alt cur r0 in
  nullable p s cur ||
  match s with
  | [] => false
  | c :: s' => scan r0 (Some c) s' (der p c s' cur)
  end.

Definition pattern_search (r : regex) (t : list ascii) : bool := scan r None t Void.

(** ** The tokenizer: [Tokenizer] of [_parser.py]

    A token is one character or a backslash and the character after it;
    a backslash that ends the pattern is the token [TBad]: the tokenizer
    raises [bad escape (end of pattern)] when it reads it, that is when
    the parser consumes the token before it. Each token carries its
    position in the pattern. *)
Inductive tok := TLit (c : ascii) | TEsc (c : ascii) | TBad.

#[global] Instance tok_eq_dec : EqDecision tok.
Proof. solve_decision. Defined.

Definition token : Type := nat * tok.

Fixpoint tokenize (pos : nat) (s : list ascii) : list token :=
  match s with
  | [] => []
  | c :: s' =>
      if Ascii.eqb c "\"%char then
        match s' with
        | [] => [(pos, TBad)]
        | d :: s'' => (pos, TEsc d) :: tokenize (S (S pos)) s''
        end
      else (pos, TLit c) :: tokenize (S pos) s'
  end.

(** The text of a token, as [re.error] messages quote it. *)
Definition tok_text (t : tok) : string :=
  match t with
  | TLit c => String c EmptyString
  | TEsc c => String "\"%char (String c EmptyString)
  | TBad => "\"
  end.

(** What the parser raises or gives up on: an [re.error] with its
    message and position, the [OverflowError] of a repeat count, or a
    construction outside the fragment. *)
Inductive perr := ReError (msg : string) (pos : nat) | Overflow | Unsupported.

(** [sourcematch(c)]: the tokens after a head token [c]. *)
Definition eat (c : ascii) (ts : list token) : option (list token) :=
  match ts with
  | (_, t) :: ts' => if bool_decide (t = TLit c) then Some ts' else None
  | [] => None
  end.

(** Consuming a token reads the next one: an error if it is [TBad]. *)
Definition adv_ok (ts : list token) : perr + unit :=
  match ts with
  | (p, TBad) :: _ => inl (ReError "bad escape (end of pattern)" p)
  | _ => inr tt
  end.

(** ** Escapes: [_escape] and [_class_escape] *)

Definition ascii_in (c : ascii) (s : string) : bool :=
  existsb (Ascii.eqb c) (String.list_ascii_of_string s).

Definition is_ascii_letter (c : ascii) : bool := PyStr.is_upper c || is_lower c.

(** [ESCAPES]: [\a \f \n \r \t \v], and [\b] inside a set. *)
Definition control_of (d : ascii) : option ascii :=
  if ascii_in d "a" then Some (ascii_of_nat 7)
  else if ascii_in d "f" then Some (ascii_of_nat 12)
  else if ascii_in d "n" then Some (ascii_of_nat 10)
  else if ascii_in d "r" then Some (ascii_of_nat 13)
  else if ascii_in d "t" then Some (ascii_of_nat 9)
  else if ascii_in d "v" then Some (ascii_of_nat 11)
  else None.

(** The [IN] entries of [CATEGORIES]. *)
Definition category_of (d : ascii) : option category :=
  if ascii_in d "d" then Some CatDigit
  else if ascii_in d "D" then Some CatNotDigit
  else if ascii_in d "s" then Some CatSpace
  else if ascii_in d "S" then Some CatNotSpace
  else if ascii_in d "w" then Some CatWord
  else if ascii_in d "W" then Some CatNotWord
  else None.

Definition bad_escape (p : nat) (d : ascii) : perr :=
  ReError ("bad escape " +:+ tok_text (TEsc d)) p.

(** What an item of a sequence is, for the checks of a repeat: an [AT]
    code cannot be repeated, a repeat cannot be repeated again. *)
Inductive kind := KItem | KAt | KRepeat.

(** [_escape]: the escape [\d] at position [p], outside a set. *)
Definition escape (p : nat) (d : ascii) : perr + (regex * kind) :=
  if ascii_in d "A" then inr (At AtBeginningString, KAt)
  else if ascii_in d "Z" then inr (At AtEndString, KAt)
  else if ascii_in d "b" then inr (At AtBoundary, KAt)
  else if ascii_in d "B" then inr (At AtNonBoundary, KAt)
  else match category_of d with
  | Some k => inr (Sym (SCls false [CCat k]), KItem)
  | None =>
      match control_of d with
      | Some c => inr (Sym (SChr c), KItem)
      | None =>
          if ascii_in d "xuUN0123456789" then inl Unsupported
          else if is_ascii_letter d then inl (bad_escape p d)
          else inr (Sym (SChr d), KItem)
      end
  end.

(** A set member before the range check: [LITERAL] or [IN]. *)
Inductive ccode := CodeLit (c : ascii) | CodeCat (k : category).

Definition item_of (k : ccode) : item :=
  match k with CodeLit c => CLit c | CodeCat k => CCat k end.

(** [_class_escape]. *)
Definition class_escape (p : nat) (d : ascii) : perr + ccode :=
  if ascii_in d "b" then inr (CodeLit (ascii_of_nat 8))
  else match control_of d with
  | Some c => inr (CodeLit c)
  | None =>
      match category_of d with
      | Some k => inr (CodeCat k)
      | None =>
          if ascii_in d "xuUN01234567" then inl Unsupported
          else if ascii_in d "89" || is_ascii_letter d then inl (bad_escape p d)
          else inr (CodeLit d)
      end
  end.

Definition tok_code (p : nat) (t : tok) : perr + ccode :=
  match t with
  | TLit c => inr (CodeLit c)
  | TEsc d => class_escape p d
  | TBad => inl (ReError "bad escape (end of pattern)" p)
  end.

(** ** Sets: the ["["] branch of [_parse]

    [set_loop here ts acc] reads the members after ["["] (at position
    [here]) and the optional ["^"]; [acc] holds the members read so far,
    last first. A ["]"] closes the set unless it comes first. *)
Fixpoint set_loop (here : nat) (ts : list token) (acc : list item)
    : perr + (list item * list token) :=
  match ts with
  | [] => inl (ReError "unterminated character set" here)
  | (p, t) :: ts1 =>
      let* _ := adv_ok ts1 in
      if bool_decide (t = TLit "]"%char) && negb (bool_decide (acc = [])) then inr (acc, ts1)
      else
        let* code1 := tok_code p t in
        match ts1 with
        | (_, t1) :: ts2 =>
          if bool_decide (t1 = TLit "-"%char) then
            let* _ := adv_ok ts2 in
            match ts2 with
            | [] => inl (ReError "unterminated character set" here)
            | (p2, t2) :: ts3 =>
                let* _ := adv_ok ts3 in
                if bool_decide (t2 = TLit "]"%char) then
                  inr (CLit "-"%char :: item_of code1 :: acc, ts3)
                else
                  let* code2 := tok_code p2 t2 in
                  let range_err :=
                    ReError ("bad character range " +:+ tok_text t +:+ "-" +:+ tok_text t2) p in
                  match code1, code2 with
                  | CodeLit lo, CodeLit hi =>
                      if nat_of_ascii hi <? nat_of_ascii lo then inl range_err
                      else set_loop here ts3 (CRange lo hi :: acc)
                  | _, _ => inl range_err
                  end
            end
          else set_loop here ts1 (item_of code1 :: acc)
        | [] => set_loop here ts1 (item_of code1 :: acc)
        end
  end.

Definition parse_set (here : nat) (ts : list token) : perr + (sym * list token) :=
  match eat "^"%char ts with
  | Some ts1 =>
      let* _ := adv_ok ts1 in
      let* (acc, ts2) := set_loop here ts1 [] in inr (SCls true (rev acc), ts2)
  | None => let* (acc, ts2) := set_loop here ts [] in inr (SCls false (rev acc), ts2)
  end.

(** ** Repeats: the [REPEAT_CHARS] branch of [_parse] *)

(** [MAXREPEAT] of [_sre]. *)
Definition MAXREPEAT : N := 4294967295.

(** The digits at the head of [ts] ([while source.next in DIGITS]). *)
Fixpoint span_digits (ts : list token) : perr + (list ascii * list token) :=
  match ts with
  | (_, TLit c) :: ts1 =>
      if PyStr.is_digit c then
        let* _ := adv_ok ts1 in
        let* (ds, ts2) := span_digits ts1 in inr (c :: ds, ts2)
      else inr ([], ts)
  | _ => inr ([], ts)
  end.

(** [int(lo)] of a string of digits. *)
Fixpoint digits_val (acc : N) (ds : list ascii) : N :=
  match ds with
  | [] => acc
  | d :: ds' => digits_val (acc * 10 + N.of_nat (nat_of_ascii d - 48)) ds'
  end.

(** After ["{"]: [None] when the brace is a literal (["{}"], or no
    closing ["}"] after the digits), otherwise the digits before and
    after the comma and the tokens after ["}"]. *)
Definition brace (ts : list token) : perr + option (list ascii * list ascii * list token) :=
  match eat "}"%char ts with
  | Some _ => inr None
  | None =>
      let* (lo, ts1) := span_digits ts in
      let* (hi, ts2) :=
        match eat ","%char ts1 with
        | Some ts1' => let* _ := adv_ok ts1' in span_digits ts1'
        | None => inr (lo, ts1)
        end in
      match eat "}"%char ts2 with
      | Some ts3 => let* _ := adv_ok ts3 in inr (Some (lo, hi, ts3))
      | None => inr None
      end
  end.

(** The bounds of [{lo,hi}], checked as [_parse] does; [here] is the
    position after ["{"]. *)
Definition brace_bounds (here : nat) (lo hi : list ascii) : perr + (N * option N) :=
  let mn := digits_val 0 lo in
  let mx := digits_val 0 hi in
  if negb (bool_decide (lo = [])) && (MAXREPEAT <=? mn)%N then inl Overflow
  else if bool_decide (hi = []) then inr (mn, None)
  else if (MAXREPEAT <=? mx)%N then inl Overflow
  else if (mx <? mn)%N then inl (ReError "min repeat greater than max repeat" here)
  else inr (mn, Some mx).

Fixpoint pow (r : regex) (n : nat) : regex :=
  match n with 0 => Eps | S n' => Cat r (pow r n') end.

Fixpoint upto (r : regex) (n : nat) : regex :=
  match n with 0 => Eps | S n' => Alt Eps (Cat r (upto r n')) end.

(** [MAX_REPEAT]/[MIN_REPEAT] with bounds [mn] and [mx] ([None] for
    [MAXREPEAT]): [mn] copies, then at most [mx - mn] more. *)
Definition rep (r : regex) (mn : N) (mx : option N) : regex :=
  Cat (pow r (N.to_nat mn))
      (match mx with None => Star r | Some m => upto r (N.to_nat (m - mn)) end).

(** The state of [_parse_sub]/[_parse] for one group: the position of
    its ["("], the branches already read and the items of the current
    branch, last first. *)
Record pframe := mk_pframe {
  fr_start : nat; fr_alts : list regex; fr_items : list (regex * kind) }.

Fixpoint cats (rs : list regex) : regex :=
  match rs with [] => Eps | [r] => r | r :: rs' => Cat r (cats rs') end.

Fixpoint alts (rs : list regex) : regex :=
  match rs with [] => Void | [r] => r | r :: rs' => Alt r (alts rs') end.

Definition seq_of (items : list (regex * kind)) : regex := cats (rev (map fst items)).

Definition close (fr : pframe) : regex := alts (rev (seq_of (fr_items fr) :: fr_alts fr)).

Definition push (fr : pframe) (it : regex * kind) : pframe :=
  mk_pframe (fr_start fr) (fr_alts fr) (it :: fr_items fr).

Definition next_branch (fr : pframe) : pframe :=
  mk_pframe (fr_start fr) (seq_of (fr_items fr) :: fr_alts fr) [].

Definition open_group (start : nat) : pframe := mk_pframe start [] [].

(** Repeat the last item of the branch: ["nothing to repeat"] when there
    is none or it is an [AT] code, ["multiple repeat"] when it is a
    repeat; then an optional ["?"] (lazy: the same language) or ["+"]
    (possessive: outside the fragment). [p] is the position of the
    quantifier. *)
Definition quantify (p : nat) (cur : pframe) (mn : N) (mx : option N) (ts : list token)
    : perr + (pframe * list token) :=
  match fr_items cur with
  | [] | (_, KAt) :: _ => inl (ReError "nothing to repeat" p)
  | (_, KRepeat) :: _ => inl (ReError "multiple repeat" p)
  | (r, KItem) :: its =>
      let cur' := mk_pframe (fr_start cur) (fr_alts cur) ((rep r mn mx, KRepeat) :: its) in
      match eat "?"%char ts, eat "+"%char ts with
      | Some ts', _ => let* _ := adv_ok ts' in inr (cur', ts')
      | None, Some _ => inl Unsupported
      | None, None => inr (cur', ts)
      end
  end.

(** [SPECIAL_CHARS] of [_parse], the backslash apart. *)
Inductive special :=
  SpOpen | SpClose | SpBar | SpSet | SpRepeat (mn : N) (mx : option N) | SpBrace
  | SpDot | SpCaret | SpDollar.

Definition classify (c : ascii) : option special :=
  if ascii_in c "(" then Some SpOpen
  else if ascii_in c ")" then Some SpClose
  else if ascii_in c "|" then Some SpBar
  else if ascii_in c "[" then Some SpSet
  else if ascii_in c "*" then Some (SpRepeat 0 None)
  else if ascii_in c "+" then Some (SpRepeat 1 None)
  else if ascii_in c "?" then Some (SpRepeat 0 (Some 1%N))
  else if ascii_in c "{" then Some SpBrace
  else if ascii_in c "." then Some SpDot
  else if ascii_in c "^" then Some SpCaret
  else if ascii_in c "$" then Some SpDollar
  else None.

(** The characters after ["(?"] that start a construction outside the
    fragment: named groups, comments, lookarounds, conditionals, atomic
    groups, inline flags. *)
Definition ext_unsupported (t : tok) : bool :=
  match t with TLit c => ascii_in c "P#=!<(>aiLmstux-" | _ => false end.

(** The loop below returns [None] when it runs out of fuel and
    [Some] of the error or the expression; [let+] passes the error of a
    helper on. *)
Local Notation "'let+' x := m 'in' k" :=
  (match m with inl e => Some (inl e) | inr x => k end)
  (at level 10, x pattern, m at level 100, k at level 200).

(** ** The parser: [_parse_sub] and [_parse] as one loop

    [go] reads the tokens [ts] with [cur] the innermost open group and
    [outer] the groups around it; each step consumes at least one token,
    so [S (length ts)] is enough fuel ([compile_total]). *)
Fixpoint go (fuel : nat) (ts : list token) (cur : pframe) (outer : list pframe)
    : option (perr + regex) :=
  match fuel with
  | 0 => None
  | S fuel =>
  match ts with
  | [] =>
      match outer with
      | [] => Some (inr (close cur))
      | _ :: _ => Some (inl (ReError "missing ), unterminated subpattern" (fr_start cur)))
      end
  | (p, TBad) :: _ => Some (inl (ReError "bad escape (end of pattern)" p))
  | (p, TEsc d) :: ts1 =>
      let+ _ := adv_ok ts1 in
      let+ it := escape p d in go fuel ts1 (push cur it) outer
  | (p, TLit c) :: ts1 =>
      match classify c with
      | Some SpClose =>
          match outer with
          | [] => Some (inl (ReError "unbalanced parenthesis" p))
          | up :: outer' =>
              let+ _ := adv_ok ts1 in go fuel ts1 (push up (close cur, KItem)) outer'
          end
      | Some SpBar => let+ _ := adv_ok ts1 in go fuel ts1 (next_branch cur) outer
      | Some SpOpen =>
          let+ _ := adv_ok ts1 in
          match eat "?"%char ts1 with
          | Some ts2 =>
              let+ _ := adv_ok ts2 in
              match ts2 with
              | [] => Some (inl (ReError "unexpected end of pattern" (S (S p))))
              | (_, t3) :: ts3 =>
                  let+ _ := adv_ok ts3 in
                  if bool_decide (t3 = TLit ":"%char) then go fuel ts3 (open_group p) (cur :: outer)
                  else if ext_unsupported t3 then Some (inl Unsupported)
                  else Some (inl (ReError ("unknown extension ?" +:+ tok_text t3) (S p)))
              end
          | None => go fuel ts1 (open_group p) (cur :: outer)
          end
      | Some SpSet =>
          let+ _ := adv_ok ts1 in
          let+ (k, ts2) := parse_set p ts1 in go fuel ts2 (push cur (Sym k, KItem)) outer
      | Some (SpRepeat mn mx) =>
          let+ _ := adv_ok ts1 in
          let+ (cur', ts2) := quantify p cur mn mx ts1 in go fuel ts2 cur' outer
      | Some SpBrace =>
          let+ _ := adv_ok ts1 in
          let+ br := brace ts1 in
          match br with
          | None => go fuel ts1 (push cur (Sym (SChr c), KItem)) outer
          | Some (lo, hi, ts2) =>
              let+ (mn, mx) := brace_bounds (S p) lo hi in
              let+ (cur', ts3) := quantify p cur mn mx ts2 in go fuel ts3 cur' outer
          end
      | Some SpDot => let+ _ := adv_ok ts1 in go fuel ts1 (push cur (Sym SAny, KItem)) outer
      | Some SpCaret => let+ _ := adv_ok ts1 in go fuel ts1 (push cur (At AtBeginning, KAt)) outer
      | Some SpDollar => let+ _ := adv_ok ts1 in go fuel ts1 (push cur (At AtEnd, KAt)) outer
      | None => let+ _ := adv_ok ts1 in go fuel ts1 (push cur (Sym (SChr c), KItem)) outer
      end
  end
  end.

(** [re._parser.parse]: the tokenizer reads the first token, then the
    top-level group is parsed to the end. *)
Definition parse (ts : list token) : option (perr + regex) :=
  let+ _ := adv_ok ts in go (S (length ts)) ts (open_group 0) [].

Definition compile (pat : string) : option (perr + regex) :=
  parse (tokenize 0 (String.list_ascii_of_string pat)).

(** ** Error messages: [re.error.__init__] *)

Fixpoint count_nl (s : list ascii) : nat :=
  match s with [] => 0 | c :: s' => (if Ascii.eqb c nl_char then 1 else 0) + count_nl s' end.

(** [pos - pattern.rfind("\n", 0, pos)]: one more than the number of
    characters after the last newline. *)
Fixpoint column (n : nat) (s : list ascii) : nat :=
  match s with [] => S n | c :: s' => column (if Ascii.eqb c nl_char then 0 else S n) s' end.

Definition error_message (pat : list ascii) (msg : string) (pos : nat) : string :=
  let m := msg +:+ " at position " +:+ PyStr.str_of_nat pos in
  if existsb (Ascii.eqb nl_char) pat then
    m +:+ " (line " +:+ PyStr.str_of_nat (S (count_nl (firstn pos pat))) +:+
    ", column " +:+ PyStr.str_of_nat (column 0 (firstn pos pat)) +:+ ")"
  else m.

(** ** The engine

    [re.compile(pat, re.IGNORECASE)] then [pattern_search]: the message of the
    [re.error] or [OverflowError] raised, or the search predicate;
    patterns outside the fragment are left to [fallback]. *)
Definition python_re (fallback : Frame.ReEngine) : Frame.ReEngine := fun pat =>
  match compile pat with
  | Some (inr r) => inr (fun t => pattern_search r (String.list_ascii_of_string t))
  | Some (inl (ReError msg pos)) => inl (error_message (String.list_ascii_of_string pat) msg pos)
  | Some (inl Overflow) => inl "the repetition number is too large"
  | Some (inl Unsupported) | None => fallback pat
  end.

(** The characters of a pattern in which no character is special for
    the tokenizer or the parser. *)
Definition literal_chars (l : list ascii) : Prop :=
  Forall (fun c => classify c = None /\ Ascii.eqb c "\"%char = false) l.

(** ** The semantics, constructor by constructor *)

Lemma in_re_void p w b : ~ in_re Void p w b.
Proof. inversion 1. Qed.

Lemma in_re_eps p w b : in_re Eps p w b <-> w = [].
Proof. split; [by inversion 1|intros ->; constructor]. Qed.

Lemma in_re_sym k p w b : in_re (Sym k) p w b <-> exists c, w = [c] /\ sym_match k c = true.
Proof. split; [inversion 1; eauto|intros (c & -> & ?); by constructor]. Qed.

Lemma in_re_at a p w b : in_re (At a) p w b <-> w = [] /\ at_holds a p b = true.
Proof. split; [inversion 1; eauto|intros [-> ?]; by constructor]. Qed.

Lemma in_re_cat r s p w b :
  in_re (Cat r s) p w b <->
  exists w1 w2, w = w1 ++ w2 /\ in_re r p w1 (w2 ++ b) /\ in_re s (after p w1) w2 b.
Proof. split; [inversion 1; eauto 10|intros (w1 & w2 & -> & ? & ?); by constructor]. Qed.

Lemma in_re_alt r s p w b : in_re (Alt r s) p w b <-> in_re r p w b \/ in_re s p w b.
Proof. split; [inversion 1; auto|intros [?|?]; by constructor]. Qed.

Lemma in_re_star r p w b :
  in_re (Star r) p w b <->
  w = [] \/ exists w1 w2, w1 <> [] /\ w = w1 ++ w2 /\ in_re r p w1 (w2 ++ b) /\
                          in_re (Star r) (after p w1) w2 b.
Proof.
  split; [inversion 1; eauto 10|].
  intros [->|(w1 & w2 & ? & -> & ? & ?)]; by constructor.
Qed.

Lemma after_app p w1 w2 : after p (w1 ++ w2) = after (after p w1) w2.
Proof. revert p; induction w1; simpl; auto. Qed.

Lemma alt_spec r s p w b : in_re (alt r s) p w b <-> in_re r p w b \/ in_re s p w b.
Proof.
  unfold alt. pose proof (in_re_void p w b).
  repeat case_decide; subst; rewrite ?in_re_alt; naive_solver.
Qed.

Lemma cat_spec r s p w b : in_re (cat r s) p w b <-> in_re (Cat r s) p w b.
Proof.
  unfold cat. rewrite in_re_cat. pose proof (in_re_void p w b).
  repeat case_decide; subst.
  - split; [done|]. intros (? & ? & _ & Hv & _). by apply in_re_void in Hv.
  - split; [done|]. intros (? & ? & _ & _ & Hv). by apply in_re_void in Hv.
  - split; [intros; exists [], w; split; [done|split; [constructor|done]]|].
    by intros (? & ? & -> & ->%in_re_eps & ?).
  - split; [intros; exists w, []; rewrite !app_nil_r; split; [done|split; [done|constructor]]|].
    intros (? & ? & -> & ? & ->%in_re_eps). by rewrite app_nil_r.
  - by rewrite in_re_cat.
Qed.

#[export] Hint Rewrite in_re_eps in_re_sym in_re_at in_re_alt alt_spec cat_spec : webapp_rw.

(** ** Correctness of the matcher *)

Lemma nullable_spec r p b : nullable p b r = true <-> in_re r p [] b.
Proof.
  induction r as [| | k | a | r IHr s IHs | r IHr s IHs | r IHr]; simpl.
  - pose proof (in_re_void p [] b). naive_solver.
  - split; [constructor|done].
  - rewrite in_re_sym. naive_solver.
  - rewrite in_re_at. naive_solver.
  - rewrite andb_true_iff, IHr, IHs, in_re_cat. split.
    + intros [? ?]. by exists [], [].
    + intros ([|] & [|] & ? & ? & ?); simplify_eq/=; auto.
  - by rewrite orb_true_iff, IHr, IHs, in_re_alt.
  - split; [constructor|done].
Qed.

(** The derivative by [c] matches [w] exactly when the expression
    matches [c :: w]. *)
Lemma der_spec r p c rest w b :
  rest = w ++ b ->
  in_re (der p c rest r) (Some c) w b <-> in_re r p (c :: w) b.
Proof.
  revert w b. induction r as [| | k | a | r IHr s IHs | r IHr s IHs | r IHr];
    intros w b Hrest; simpl.
  - split; by intros ?%in_re_void.
  - rewrite in_re_eps. split; [by intros ?%in_re_void|done].
  - rewrite in_re_sym. destruct (sym_match k c) eqn:E.
    + rewrite in_re_eps. split; [intros ->; by exists c|by intros (? & [= <- ->] & _)].
    + split; [by intros ?%in_re_void|]. intros (? & [= <- ->] & ?). congruence.
  - rewrite in_re_at. split; [by intros ?%in_re_void|by intros [? _]].
  - rewrite alt_spec, cat_spec, !in_re_cat. split.
    + intros [(w1 & w2 & -> & H1 & H2)|H].
      * exists (c :: w1), w2. split; [done|]. split; [|done].
        apply IHr; [by rewrite Hrest, app_assoc|done].
      * destruct (nullable p (c :: rest) r) eqn:En; [|by apply in_re_void in H].
        exists [], (c :: w). split; [done|]. subst rest.
        split; [by apply nullable_spec|by apply IHs].
    + intros ([|c' w1] & w2 & Hw & H1 & H2); simpl in Hw.
      * right. subst w2 rest. simpl in H1. apply nullable_spec in H1 as ->.
        by apply IHs.
      * injection Hw as <- ->. left. exists w1, w2. split; [done|].
        split; [apply IHr; [by rewrite Hrest, app_assoc|done]|done].
  - by rewrite alt_spec, in_re_alt, IHr, IHs.
  - rewrite cat_spec, in_re_cat, in_re_star. split.
    + intros (w1 & w2 & -> & H1 & H2). right. exists (c :: w1), w2.
      split; [done|]. split; [done|]. split; [|done].
      apply IHr; [by rewrite Hrest, app_assoc|done].
    + intros [?|([|c' w1] & w2 & Hne & Hw & H1 & H2)]; [done|done|].
      injection Hw as <- ->. exists w1, w2. split; [done|].
      split; [apply IHr; [by rewrite Hrest, app_assoc|done]|done].
Qed.

(** Prefix matches: some prefix of [s] is matched. *)
Definition prefix_match (r : regex) (p : option ascii) (s : list ascii) : Prop :=
  exists w b, s = w ++ b /\ in_re r p w b.

Lemma prefix_match_nil r p : prefix_match r p [] <-> nullable p [] r = true.
Proof.
  rewrite nullable_spec. split; [|by exists [], []].
  intros ([|] & [|] & ? & ?); simplify_eq/=; done.
Qed.

Lemma prefix_match_cons r p c s :
  prefix_match r p (c :: s) <->
  nullable p (c :: s) r = true \/ prefix_match (der p c s r) (Some c) s.
Proof.
  rewrite nullable_spec. split.
  - intros ([|c' w] & b & Hs & H); simpl in Hs; [subst; by left|].
    injection Hs as <- ->. right. exists w, b. split; [done|]. by apply der_spec.
  - intros [H|(w & b & -> & H)]; [by exists [], (c :: s)|].
    exists (c :: w), b. split; [done|]. by eapply der_spec.
Qed.

Lemma prefix_match_alt r s p t :
  prefix_match (alt r s) p t <-> prefix_match r p t \/ prefix_match s p t.
Proof. unfold prefix_match. setoid_rewrite alt_spec. naive_solver. Qed.

Lemma occurs_cons r p c s :
  occurs r p (c :: s) <-> prefix_match r p (c :: s) \/ occurs r (Some c) s.
Proof.
  split.
  - intros ([|c' a] & w & b & Hs & H); simpl in *; [left; by exists w, b|].
    injection Hs as <- ->. right. by exists a, w, b.
  - intros [(w & b & Hs & H)|(a & w & b & -> & H)]; [by exists [], w, b|].
    by exists (c :: a), w, b.
Qed.

Lemma occurs_nil r p : occurs r p [] <-> prefix_match r p [].
Proof.
  split; [|intros (w & b & Hs & H); by exists [], w, b].
  intros ([|] & w & b & Hs & H); [by exists w, b|done].
Qed.

Lemma scan_spec r0 p s cur :
  scan r0 p s cur = true <-> prefix_match cur p s \/ occurs r0 p s.
Proof.
  revert p cur. induction s as [|c s IH]; intros p cur; simpl.
  - rewrite orb_false_r, occurs_nil, <- prefix_match_nil. apply prefix_match_alt.
  - rewrite orb_true_iff, IH, occurs_cons.
    pose proof (prefix_match_cons (alt cur r0) p c s) as Hc.
    rewrite prefix_match_alt in Hc. tauto.
Qed.

(** ** The parser consumes its input *)

(** The character tests stay folded in proofs about the parser. *)
Arguments classify : simpl never.
Arguments escape : simpl never.
Arguments class_escape : simpl never.
Arguments ascii_in : simpl never.
#[local] Arguments bool_decide : simpl never.








(** ** Termination of the parser *)


(** ** Patterns without metacharacters *)

Lemma is_literal_chars p :
  Frame.is_literal p = true ->
  literal_chars (String.list_ascii_of_string p).
Proof.
  unfold Frame.is_literal, literal_chars. intros Hp. apply List.Forall_forall. intros c Hc.
  eapply forallb_forall in Hp; [|exact Hc]. apply negb_true_iff in Hp.
  unfold Frame.regex_meta in Hp. cbn in Hp.
  repeat match goal with H : _ || _ = false |- _ => apply orb_false_iff in H as [? H] end.
  unfold classify, ascii_in. cbn.
  repeat match goal with H : Ascii.eqb c _ = false |- _ => rewrite H; clear H end.
  split; reflexivity.
Qed.

Lemma tokenize_literal pos l :
  literal_chars l -> adv_ok (tokenize pos l) = inr tt /\ length (tokenize pos l) = length l.
Proof.
  unfold literal_chars. intros Hl. revert pos. induction Hl as [|c l' [_ Hc] Hl' IH]; intros pos; [done|].
  cbn [tokenize]. rewrite Hc. split; [done|]. simpl. by rewrite (proj2 (IH _)).
Qed.

(** On literal tokens the parser pushes one [LITERAL] per character. *)
Lemma go_literal fuel pos l st alts items :
  literal_chars l -> length l < fuel ->
  go fuel (tokenize pos l) (mk_pframe st alts items) [] =
  Some (inr (close (mk_pframe st alts (rev (map (fun c => (Sym (SChr c), KItem)) l) ++ items)))).
Proof.
  unfold literal_chars. intros Hl. revert fuel pos items. induction Hl as [|c l' [Hk Hc] Hl' IH];
    intros fuel pos items Hf; (destruct fuel as [|fuel]; [simpl in Hf; lia|]); [done|].
  cbn [tokenize go]. rewrite Hc, Hk, (proj1 (tokenize_literal _ _ Hl')).
  unfold push. cbn [fr_start fr_alts fr_items].
  rewrite IH by (simpl in Hf; lia). cbn [map rev]. by rewrite <- app_assoc.
Qed.

Lemma compile_literal p :
  Frame.is_literal p = true ->
  compile p = Some (inr (cats (map (fun c => Sym (SChr c)) (String.list_ascii_of_string p)))).
Proof.
  intros Hp%is_literal_chars. unfold compile, parse, open_group.
  destruct (tokenize_literal 0 _ Hp) as [-> Hlen].
  rewrite go_literal by (done || lia). unfold close. cbn [fr_items fr_alts rev app alts].
  unfold seq_of. by rewrite app_nil_r, map_rev, rev_involutive, map_map.
Qed.

Lemma in_cats_cons r rs p w b : in_re (cats (r :: rs)) p w b <-> in_re (Cat r (cats rs)) p w b.
Proof.
  destruct rs as [|r' rs]; [|done]. cbn [cats]. rewrite in_re_cat. split.
  - intros H. exists w, []. rewrite !app_nil_r. split; [done|]. split; [done|constructor].
  - intros (w1 & w2 & -> & H & ->%in_re_eps). by rewrite app_nil_r.
Qed.

(** A literal sequence matches the words equal to it up to case. *)
Lemma in_literal l q w b :
  in_re (cats (map (fun c => Sym (SChr c)) l)) q w b <->
  map PyStr.lower_char w = map PyStr.lower_char l.
Proof.
  revert q w. induction l as [|c l IH]; intros q w.
  - cbn. rewrite in_re_eps. split; [by intros ->|]. by destruct w.
  - cbn [map]. rewrite in_cats_cons, in_re_cat. split.
    + intros (w1 & w2 & -> & (d & -> & Hd)%in_re_sym & H2%IH).
      apply Ascii.eqb_eq in Hd. simpl. by rewrite Hd, H2.
    + destruct w as [|d w]; [done|]. intros [= Hd Hw]. exists [d], w.
      split; [done|]. split; [apply in_re_sym; exists d; cbn [sym_match]; by rewrite Hd, Ascii.eqb_refl|].
      by apply IH.
Qed.

Lemma search_literal l t :
  pattern_search (cats (map (fun c => Sym (SChr c)) l)) t = true <->
  exists a b, map PyStr.lower_char t = a ++ map PyStr.lower_char l ++ b.
Proof.
  unfold pattern_search. rewrite scan_spec. unfold occurs. setoid_rewrite in_literal. split.
  - intros [(w & b & _ & ?%in_re_void)|(a & w & b & -> & Hw)]; [done|].
    exists (map PyStr.lower_char a), (map PyStr.lower_char b). by rewrite !map_app, Hw.
  - intros (a & b & (a' & t' & -> & <- & (w & b' & -> & Hw & <-)%List.map_eq_app)%List.map_eq_app).
    right. by exists a', w, b'.
Qed.

(** ** Properties of the engine *)

(** On a query without metacharacters the modelled [re] compiles to the
    case-insensitive substring test. *)
Lemma python_re_literal fallback p :
  Frame.is_literal p = true ->
  exists f, @Frame.re_compile_ic (python_re fallback) p = inr f /\
    forall t, f t = PyStr.contains (PyStr.lower p) (PyStr.lower t).
Proof.
  intros Hp. unfold Frame.re_compile_ic, python_re. rewrite compile_literal by done.
  eexists; split; [reflexivity|]. intros t. apply Bool.eq_true_iff_eq.
  rewrite search_literal, PyStr.contains_list, !PyStr.list_ascii_lower. reflexivity.
Qed.

(** (C31) The predicate the modelled [re] returns is [re.search]: when
    a pattern compiles to [r], the predicate holds of a text exactly when
    some substring [w] of it, read at its position (after [a], before
    [b]), is matched by [r] in the declarative semantics [in_re]. *)
Theorem search_correct fallback pat r :
  compile pat = Some (inr r) ->
  exists f, python_re fallback pat = inr f /\
    forall t, f t = true <->
      exists a w b, String.list_ascii_of_string t = a ++ w ++ b /\ in_re r (after None a) w b.
Proof.
  intros Hc. unfold python_re. rewrite Hc. eexists; split; [reflexivity|]. intros t.
  unfold pattern_search. rewrite scan_spec. split; [|by right].
  intros [(w & b & _ & H)|H]; [by apply in_re_void in H|done].
Qed.


(** (C33) The modelled [re] implements the contract the search code
    relies on: for any engine used beyond the fragment, a pattern
    without metacharacters compiles to the case-insensitive substring
    test. *)
Theorem python_re_laws fallback : Frame.ReEngineLaws (H := python_re fallback).
Proof. intros p. apply python_re_literal. Qed.





(** ** Witnesses *)

Lemma search_correct_witness :
  compile "m.l" = Some (inr (cats [Sym (SChr "m"); Sym SAny; Sym (SChr "l")])) /\
  exists f, python_re Frame.literal_engine "m.l" = inr f /\
    forall t, f t = true <->
      exists a w b, String.list_ascii_of_string t = a ++ w ++ b /\
        in_re (cats [Sym (SChr "m"); Sym SAny; Sym (SChr "l")]) (after None a) w b.
Proof. split; [vm_compute; reflexivity|]. apply search_correct. vm_compute. reflexivity. Defined.


End Regex.
