(* ===== verification/CsvHeader.v ===== *)
(** * The column names of pandas' C reader

    [pd.read_csv] (src/main.py line 150) takes the column names from the
    header row in [TextReader._get_header]
    ([pandas/_libs/parsers.pyx], pandas 2). This file models that step:
    - an empty name at position [i] becomes ["Unnamed: i"];
    - duplicate names are mangled by a [while] loop that appends
      [".1"], [".2"], ... until the name is fresh. Named columns are
      handled before unnamed ones, and the loop skips a candidate that is
      already a name of the header.

    The [while] loop is [mangle_loop], with fuel one more than the number
    of names. The theorems show that this fuel is enough: the loop always
    exits with a name that is not in the header. They also show that the
    resulting names are distinct, and that a header of distinct non-empty
    names is kept as it is. *)

From S2P Require Import Prelude PyStr.

Module CsvHeader.

(** ** Definitions *)

(** [f"Unnamed: {i}"]. *)
Definition unnamed (i : nat) : string := "Unnamed: " +:+ PyStr.str_of_nat i.

(** [f"{old_col}.{cur_count}"]. *)
Definition suffixed (old : string) (k : nat) : string := old +:+ "." +:+ PyStr.str_of_nat k.

(** The loop
<<
    while cur_count > 0:
        counts[old_col] = cur_count + 1
        col = f"{old_col}.{cur_count}"
        if col in this_header:
            cur_count += 1
        else:
            cur_count = counts.get(col, 0)
>>
    on the state [(counts, col, cur_count)], with fuel. *)
Fixpoint mangle_loop (fuel : nat) (h : list string) (counts : gmap string nat)
    (old col : string) (cur : nat) : gmap string nat * string * nat :=
  match fuel with
  | 0 => (counts, col, cur)
  | S f =>
      if cur =? 0 then (counts, col, cur)
      else
        let counts' := <[old := S cur]> counts in
        let col' := suffixed old cur in
        if bool_decide (col' ∈ h) then mangle_loop f h counts' old col' (S cur)
        else mangle_loop f h counts' old col' (default 0 (counts' !! col'))
  end.

(** One column [i] of [col_loop_order]: the loop, then
    [this_header[i] = col] and [counts[col] = cur_count + 1]. *)
Definition mangle_col (st : list string * gmap string nat) (i : nat)
    : list string * gmap string nat :=
  let '(h, counts) := st in
  let col := default "" (h !! i) in
  let '(counts', col', cur') :=
    mangle_loop (S (length h)) h counts col col (default 0 (counts !! col)) in
  (<[i := col']> h, <[col' := S cur']> counts').

(** The names of the header row [fields]. *)
Definition header_names (fields : list string) : list string :=
  let h := imap (fun i name => if String.eqb name "" then unnamed i else name) fields in
  let idx := seq 0 (length fields) in
  let unnamed_idx := filter (fun i => fields !! i = Some "") idx in
  let named_idx := filter (fun i => fields !! i <> Some "") idx in
  fst (fold_left mangle_col (named_idx ++ unnamed_idx) (h, ∅)).

(** The invariant of the [for] loop over the processed positions [P]:
    every key of [counts] is the name at a processed position and has a
    positive count, every processed name has a count, and the processed
    names are distinct. *)
Definition mangle_inv (P : list nat) (st : list string * gmap string nat) : Prop :=
  let '(h, counts) := st in
  (forall k v, counts !! k = Some v -> 0 < v /\ exists j, j ∈ P /\ h !! j = Some k) /\
  (forall j, j ∈ P -> exists o v, h !! j = Some o /\ counts !! o = Some v) /\
  (forall j1 j2 o, j1 ∈ P -> j2 ∈ P -> h !! j1 = Some o -> h !! j2 = Some o -> j1 = j2).

(** ** The suffixed names *)

Lemma suffixed_inj old k1 k2 : suffixed old k1 = suffixed old k2 -> k1 = k2.
Proof.
  unfold suffixed. intros H. apply PyStr.append_inj_l in H.
  apply PyStr.str_of_nat_inj. by injection H.
Qed.

Lemma suffixed_ne old k : suffixed old k <> old.
Proof.
  unfold suffixed. intros H. apply (f_equal String.length) in H.
  rewrite !PyStr.length_append in H. cbn in H. lia.
Qed.

(** The names [old.a], ..., [old.(b-1)] and [old] are distinct, so if
    they are all in [h] there are fewer than [length h] of the former. *)
Lemma suffixed_range_length h old a b :
  old ∈ h -> (forall k, a <= k < b -> suffixed old k ∈ h) -> b - a + 1 <= length h.
Proof.
  intros Ho Hr.
  assert (NoDup (old :: (suffixed old <$> seq a (b - a)))) as Hnd.
  { constructor.
    - intros (k & Hk & _)%list_elem_of_fmap. by apply (suffixed_ne old k).
    - apply NoDup_fmap_2_strong; [intros ???? ?%suffixed_inj; done|apply NoDup_seq]. }
  assert (old :: (suffixed old <$> seq a (b - a)) ⊆+ h) as Hl%submseteq_length.
  { apply NoDup_submseteq; [exact Hnd|].
    intros x [->|(k & -> & Hk%elem_of_seq)%list_elem_of_fmap]%elem_of_cons; [done|].
    apply Hr. lia. }
  cbn [length] in Hl. rewrite length_fmap, length_seq in Hl. lia.
Qed.

(** ** The loop exits *)

(** From [cur] on, with [old.cur0], ..., [old.(cur-1)] already in [h],
    the fuel left is enough: the loop ends with [cur_count = 0] and a
    name that is not in [h], having only raised [counts[old_col]]. *)
Lemma mangle_loop_spec h old cur0 : forall fuel counts col cur,
  old ∈ h -> map_Forall (fun k _ => k ∈ h) counts -> 0 < cur -> cur0 <= cur ->
  (forall k, cur0 <= k < cur -> suffixed old k ∈ h) -> length h + 1 <= fuel + (cur - cur0) ->
  exists v col', mangle_loop fuel h counts old col cur = (<[old := v]> counts, col', 0) /\
    0 < v /\ col' ∉ h.
Proof.
  induction fuel as [|fuel IH]; intros counts col cur Ho Hc Hpos Hle Hr Hf.
  - pose proof (suffixed_range_length h old cur0 cur Ho Hr). lia.
  - cbn [mangle_loop]. destruct (Nat.eqb_spec cur 0) as [|_]; [lia|].
    case_bool_decide as Hin.
    + destruct (IH (<[old := S cur]> counts) (suffixed old cur) (S cur)) as (v & col' & Heq & Hv & Hn);
        [done|by apply map_Forall_insert_2|lia|lia| |lia|].
      { intros k Hk. destruct (decide (k = cur)) as [->|]; [done|apply Hr; lia]. }
      exists v, col'. by rewrite Heq, insert_insert_eq.
    + assert (<[old := S cur]> counts !! suffixed old cur = None) as ->.
      { rewrite lookup_insert_ne by (intros Heq; by apply (suffixed_ne old cur)).
        destruct (counts !! suffixed old cur) eqn:E; [|done]. by apply Hc in E. }
      pose proof (suffixed_range_length h old cur0 cur Ho Hr).
      destruct fuel as [|fuel]; [lia|]. exists (S cur), (suffixed old cur).
      split_and!; [done|lia|done].
Qed.

(** ** The invariant of the [for] loop *)

Lemma mangle_inv_dom P h counts :
  mangle_inv P (h, counts) -> map_Forall (fun k _ => k ∈ h) counts.
Proof.
  intros (H1 & _ & _) k v Hk. destruct (H1 k v Hk) as [_ (j & _ & Hj)].
  by eapply list_elem_of_lookup_2.
Qed.

(** A name met for the first time is kept and counted once. *)
Lemma mangle_col_fresh P h counts i old :
  mangle_inv P (h, counts) -> i ∉ P -> h !! i = Some old -> counts !! old = None ->
  mangle_col (h, counts) i = (h, <[old := 1]> counts) /\ mangle_inv (i :: P) (h, <[old := 1]> counts).
Proof.
  intros (H1 & H2 & H3) Hi Hold Hnone. unfold mangle_col. rewrite Hold. cbn [default id]. rewrite Hnone.
  cbn [default mangle_loop Nat.eqb]. rewrite list_insert_id by done. split; [done|].
  split_and!.
  - intros k w Hk. destruct (decide (k = old)) as [->|Hne].
    + rewrite lookup_insert_eq in Hk. injection Hk as <-. split; [lia|]. exists i. by split; [left|].
    + rewrite lookup_insert_ne in Hk by congruence. destruct (H1 k w Hk) as [? (j & ? & ?)].
      split; [done|]. exists j. by split; [right|].
  - intros j [->|Hj]%elem_of_cons; [exists old, 1; by rewrite lookup_insert_eq|].
    destruct (H2 j Hj) as (o & w & Ho & Hw). exists o.
    destruct (decide (o = old)) as [->|]; [exists 1; by rewrite lookup_insert_eq|].
    exists w. by rewrite lookup_insert_ne.
  - intros j1 j2 o [->|Hj1]%elem_of_cons [->|Hj2]%elem_of_cons Ho1 Ho2; [done| | |by apply (H3 j1 j2 o)].
    + rewrite Hold in Ho1. injection Ho1 as <-. destruct (H2 j2 Hj2) as (o & w & Ho & Hw). congruence.
    + rewrite Hold in Ho2. injection Ho2 as <-. destruct (H2 j1 Hj1) as (o & w & Ho & Hw). congruence.
Qed.

(** A name already counted is replaced by a name not in the header. *)
Lemma mangle_col_dup P h counts i old v0 :
  mangle_inv P (h, counts) -> i ∉ P -> h !! i = Some old -> counts !! old = Some v0 ->
  exists col' v, (col' ∉ h) /\ 0 < v /\
    mangle_col (h, counts) i = (<[i := col']> h, <[col' := 1]> (<[old := v]> counts)) /\
    mangle_inv (i :: P) (<[i := col']> h, <[col' := 1]> (<[old := v]> counts)).
Proof.
  intros Hinv Hi Hold Hv0. pose proof Hinv as (H1 & H2 & H3).
  destruct (H1 _ _ Hv0) as [Hpos (j0 & Hj0 & Hl0)].
  assert (i < length h) as Hlt by (by eapply lookup_lt_Some).
  assert (old ∈ h) as Ho by (by eapply list_elem_of_lookup_2).
  destruct (mangle_loop_spec h old v0 (S (length h)) counts old v0) as (v & col' & Heq & Hv & Hn);
    [done|by eapply mangle_inv_dom|lia|lia|intros; lia|lia|].
  assert (forall j, j ∈ P -> <[i := col']> h !! j = h !! j) as Hne
    by (intros j Hj; apply list_lookup_insert_ne; by intros ->).
  assert (forall j o, h !! j = Some o -> o <> col') as Hno
    by (intros j o Hjo ->; by apply Hn, (list_elem_of_lookup_2 _ j)).
  exists col', v. split_and!; [done|done| |].
  { unfold mangle_col. rewrite Hold. cbn [default id]. rewrite Hv0. cbn [default id]. by rewrite Heq. }
  split_and!.
  - intros k w Hk. destruct (decide (k = col')) as [->|Hk1].
    + rewrite lookup_insert_eq in Hk. injection Hk as <-. split; [lia|].
      exists i. split; [left|by rewrite list_lookup_insert_eq].
    + rewrite lookup_insert_ne in Hk by congruence.
      destruct (decide (k = old)) as [->|Hk2].
      * rewrite lookup_insert_eq in Hk. injection Hk as <-. split; [done|].
        exists j0. split; [by right|by rewrite Hne].
      * rewrite lookup_insert_ne in Hk by congruence. destruct (H1 k w Hk) as [? (j & ? & ?)].
        split; [done|]. exists j. split; [by right|by rewrite Hne].
  - intros j [->|Hj]%elem_of_cons.
    + exists col', 1. rewrite list_lookup_insert_eq by done. by rewrite lookup_insert_eq.
    + destruct (H2 j Hj) as (o & w & Hjo & Hw). exists o. rewrite Hne by done.
      rewrite lookup_insert_ne by (apply not_eq_sym, (Hno j); done).
      destruct (decide (o = old)) as [->|]; [exists v; by rewrite lookup_insert_eq|].
      exists w. by rewrite lookup_insert_ne.
  - intros j1 j2 o [->|Hj1]%elem_of_cons [->|Hj2]%elem_of_cons Ho1 Ho2; [done| | |].
    + rewrite list_lookup_insert_eq in Ho1 by done. injection Ho1 as <-.
      rewrite Hne in Ho2 by done. by destruct (Hno j2 col' Ho2).
    + rewrite list_lookup_insert_eq in Ho2 by done. injection Ho2 as <-.
      rewrite Hne in Ho1 by done. by destruct (Hno j1 col' Ho1).
    + rewrite !Hne in Ho1, Ho2 by done. by apply (H3 j1 j2 o).
Qed.

Lemma mangle_col_inv P st i :
  mangle_inv P st -> i ∉ P -> i < length (fst st) ->
  mangle_inv (i :: P) (mangle_col st i) /\ length (fst (mangle_col st i)) = length (fst st).
Proof.
  destruct st as [h counts]. cbn [fst]. intros Hinv Hi Hlt.
  destruct (lookup_lt_is_Some_2 h i Hlt) as [old Hold].
  destruct (counts !! old) as [v0|] eqn:Hv0.
  - destruct (mangle_col_dup P h counts i old v0) as (col' & v & _ & _ & -> & ?); [done..|].
    split; [done|apply length_insert].
  - destruct (mangle_col_fresh P h counts i old) as [-> ?]; done.
Qed.

(** The [for] loop over positions met once each, not yet processed. *)
Lemma fold_mangle_inv order : forall P st,
  mangle_inv P st -> NoDup order -> (forall i, i ∈ order -> (i ∉ P) /\ i < length (fst st)) ->
  mangle_inv (rev order ++ P) (fold_left mangle_col order st) /\
  length (fst (fold_left mangle_col order st)) = length (fst st).
Proof.
  induction order as [|i order IH]; intros P st Hinv Hnd Hord; [done|].
  apply NoDup_cons in Hnd as [Hni Hnd]. cbn [fold_left rev].
  destruct (Hord i (proj2 (elem_of_cons _ _ _) (or_introl eq_refl))) as [HiP Hlt].
  destruct (mangle_col_inv P st i Hinv HiP Hlt) as [Hinv' Hlen].
  rewrite <- app_assoc. cbn [app]. rewrite <- Hlen.
  destruct (IH (i :: P) (mangle_col st i)) as [? ->]; [done|done| |done].
  intros j Hj. rewrite Hlen. destruct (Hord j (proj2 (elem_of_cons _ _ _) (or_intror Hj))) as [? ?].
  split; [|done]. intros [->|]%elem_of_cons; [done|done].
Qed.

(** ** The names of the header *)

Lemma mangle_inv_nil h : mangle_inv [] (h, ∅).
Proof.
  split_and!.
  - intros k v Hk. by rewrite lookup_empty in Hk.
  - intros j Hj. set_solver.
  - intros j1 j2 o Hj1. set_solver.
Qed.

(** [col_loop_order] lists every position once. *)
Lemma col_loop_order_spec (fields : list string) :
  let idx := seq 0 (length fields) in
  let order := filter (fun i => fields !! i <> Some "") idx ++ filter (fun i => fields !! i = Some "") idx in
  NoDup order /\ forall i, i ∈ order <-> i < length fields.
Proof.
  cbv zeta. split.
  - apply NoDup_app. split_and!; [apply NoDup_filter, NoDup_seq| |apply NoDup_filter, NoDup_seq].
    intros x [Hx _]%list_elem_of_filter [Hx' _]%list_elem_of_filter. done.
  - intros i. rewrite elem_of_app, !list_elem_of_filter, elem_of_seq.
    destruct (decide (fields !! i = Some "")); naive_solver lia.
Qed.

Lemma length_unnamed_names (fields : list string) :
  length (imap (fun i name => if String.eqb name "" then unnamed i else name) fields) = length fields.
Proof. apply length_imap. Qed.

(** A header of distinct names none of which is a name of another is
    processed without change. *)
Lemma fold_mangle_keep h order : NoDup h -> forall P counts,
  mangle_inv P (h, counts) -> NoDup order -> (forall i, i ∈ order -> (i ∉ P) /\ i < length h) ->
  fst (fold_left mangle_col order (h, counts)) = h.
Proof.
  intros Hh. induction order as [|i order IH]; intros P counts Hinv Hnd Hord; [done|].
  apply NoDup_cons in Hnd as [Hni Hnd]. cbn [fold_left].
  destruct (Hord i (proj2 (elem_of_cons _ _ _) (or_introl eq_refl))) as [HiP Hlt].
  destruct (lookup_lt_is_Some_2 h i Hlt) as [old Hold].
  assert (counts !! old = None) as Hnone.
  { destruct (counts !! old) as [v|] eqn:Hv; [|done]. destruct Hinv as (H1 & _ & _).
    destruct (H1 _ _ Hv) as [_ (j & Hj & Hjo)].
    rewrite NoDup_alt in Hh. by rewrite (Hh j i old Hjo Hold) in Hj. }
  destruct (mangle_col_fresh P h counts i old Hinv HiP Hold Hnone) as [-> Hinv'].
  apply (IH (i :: P)); [done|done|]. intros j Hj.
  destruct (Hord j (proj2 (elem_of_cons _ _ _) (or_intror Hj))) as [? ?].
  split; [|done]. intros [->|]%elem_of_cons; done.
Qed.

(** The names are distinct: the [for] loop keeps its invariant over
    every position. *)
Lemma header_names_nodup fields :
  length (header_names fields) = length fields /\ NoDup (header_names fields).
Proof.
  unfold header_names. cbv zeta.
  pose proof (col_loop_order_spec fields) as Hspec. cbv zeta in Hspec. destruct Hspec as [Hnd Hord].
  match goal with |- context [fold_left mangle_col ?o ?st] =>
    destruct (fold_mangle_inv o [] st) as [Hinv Hlen];
      [apply mangle_inv_nil|done|cbn [fst]; rewrite length_unnamed_names; intros i Hi;
                                 split; [set_solver|by apply Hord]|];
    revert Hinv Hlen; destruct (fold_left mangle_col o st) as [h' c']; intros (_ & _ & H3) Hlen end.
  cbn [fst] in Hlen |- *. rewrite length_unnamed_names in Hlen. split; [done|].
  apply NoDup_alt. intros j1 j2 o Hj1 Hj2. apply (H3 j1 j2 o); [| |done|done];
    rewrite app_nil_r, rev_alt; change (rev_append ?l []) with (reverse l);
    rewrite elem_of_reverse, Hord, <- Hlen; by eapply lookup_lt_Some.
Qed.

(** Distinct non-empty names are kept. *)
Lemma header_names_id fields :
  NoDup fields -> Forall (fun s => s <> "") fields -> header_names fields = fields.
Proof.
  intros Hnd Hne.
  assert (imap (fun i name => if String.eqb name "" then unnamed i else name) fields = fields) as Hh.
  { apply list_eq. intros i. rewrite list_lookup_imap.
    destruct (fields !! i) as [x|] eqn:Hx; [cbn|done].
    destruct (String.eqb_spec x "") as [->|]; [|done].
    exfalso. by apply (Forall_lookup_1 _ _ i "" Hne Hx). }
  unfold header_names. cbv zeta. rewrite Hh.
  pose proof (col_loop_order_spec fields) as Hspec. cbv zeta in Hspec. destruct Hspec as [Hnd' Hord].
  apply (fold_mangle_keep fields _ Hnd []); [apply mangle_inv_nil|done|].
  intros i Hi. split; [set_solver|by apply Hord].
Qed.

(** (C12) The [while] loop of the mangling always exits within its fuel,
    one more than the number of names: when it runs ([cur_count > 0])
    it ends with [cur_count = 0] and a name that is not in the header,
    whenever the counted names are names of the header, as they are in
    [_get_header]. *)
Theorem mangle_loop_exits h counts old cur :
  old ∈ h -> map_Forall (fun k _ => k ∈ h) counts ->
  let '(counts', col', cur') := mangle_loop (S (length h)) h counts old old cur in
  cur' = 0 /\ (0 < cur -> col' ∉ h).
Proof.
  intros Ho Hc. destruct cur as [|cur]; [cbn; split; [done|lia]|].
  destruct (mangle_loop_spec h old (S cur) (S (length h)) counts old (S cur)) as (v & col' & -> & _ & Hn);
    [done|done|lia|lia|intros; lia|lia|].
  by split.
Qed.

(** (C14) The column names pandas gives a header row are distinct, one
    per field, whatever the fields: empty names become ["Unnamed: i"]
    and repeated names are mangled apart; a header of distinct non-empty
    names is kept as it is. *)
Theorem header_names_distinct fields :
  length (header_names fields) = length fields /\ NoDup (header_names fields) /\
  (NoDup fields -> Forall (fun s => s <> "") fields -> header_names fields = fields).
Proof.
  destruct (header_names_nodup fields) as [? ?]. split_and!; [done|done|].
  apply header_names_id.
Qed.

(** ** Examples *)

Example header_names_example :
  header_names ["a"; "a"; ""; "a.1"; "a"] = ["a"; "a.2"; "Unnamed: 2"; "a.1"; "a.3"].
Proof. vm_compute. reflexivity. Qed.

(** ** Witnesses *)

Lemma mangle_loop_exits_witness :
  "a"%string ∈ ["a"; "a"; "a.1"]%string /\
  map_Forall (fun k (_ : nat) => k ∈ ["a"; "a"; "a.1"]%string) (<["a" := 1]> ∅ : gmap string nat) /\
  (let '(counts', col', cur') := mangle_loop 4 ["a"; "a"; "a.1"] (<["a" := 1]> ∅) "a" "a" 1 in
   cur' = 0 /\ (0 < 1 -> col' ∉ ["a"; "a"; "a.1"]%string)) /\
  mangle_loop 4 ["a"; "a"; "a.1"] (<["a" := 1]> ∅) "a" "a" 1 = (<["a" := 3]> ∅, "a.2"%string, 0).
Proof.
  assert ("a"%string ∈ ["a"; "a"; "a.1"]%string) as Ho by (left).
  assert (map_Forall (fun k (_ : nat) => k ∈ ["a"; "a"; "a.1"]%string) (<["a" := 1]> ∅ : gmap string nat))
    as Hc by (apply map_Forall_insert_2; [exact Ho|apply map_Forall_empty]).
  split; [exact Ho|]. split; [exact Hc|]. split.
  - exact (mangle_loop_exits ["a"; "a"; "a.1"] (<["a" := 1]> ∅) "a" 1 Ho Hc).
  - vm_compute. reflexivity.
Defined.

End CsvHeader.
