(* ===== verification/Csv.v ===== *)
(** * pandas' [read_csv(f, dtype=str)] on plain CSV text

    The CSV branch of [/search] reads the upload with
    [pd.read_csv(file.file, chunksize=2000, dtype=str)] (src/main.py
    line 150). This file models:
    - the C tokenizer of pandas ([pandas/_libs/src/parser/tokenizer.c],
      function [tokenize_bytes]) as a state machine over the characters,
      with its defaults: comma separator, double-quote quoting with
      doubled quotes, [\n], [\r\n] and [\r] line ends, blank and
      whitespace-only lines skipped. It keeps the counter [file_lines],
      so each record carries the line number the errors report.
    - the table built from the records: the column names of [CsvHeader];
      the implicit index ([leading_cols]) that a first data row longer
      than the header creates; [end_line]'s [ParserError] for a later
      row longer than [ex_fields]; the padding of short rows; and the
      default NA markers ([STR_NA_VALUES] of [pandas/_libs/parsers.pyx],
      pandas 2), read as NaN even with [dtype=str].

    Files outside the fragment (non-ASCII bytes, an unterminated quote)
    are left to an arbitrary reader, as the parser of [Regex] leaves
    constructions outside its fragment. *)

From S2P Require Import Prelude PyStr Frame CsvHeader.
From Stdlib Require Import Ascii.

Module Csv.
Import Frame.

(** ** Characters *)

Definition is_comma (c : ascii) : bool := Ascii.eqb c ","%char.
Definition is_quote (c : ascii) : bool := Ascii.eqb c (ascii_of_nat 34).
Definition is_cr (c : ascii) : bool := Ascii.eqb c (ascii_of_nat 13).
Definition is_nl (c : ascii) : bool := Ascii.eqb c (ascii_of_nat 10) || is_cr c.

(** [IS_WHITESPACE]: space and tab. *)
Definition is_ws (c : ascii) : bool := Ascii.eqb c " "%char || Ascii.eqb c (ascii_of_nat 9).

(** ** The tokenizer *)

(** The states of [tokenize_bytes] the defaults reach. *)
Inductive mode :=
  StartRecord | StartField | InField | InQuoted | QuoteInQuoted | WsLine | EatCrnl.

(** The tokenizer's state: the mode, the current field (last character
    first), the fields of the current record (last first), the records
    read (last first) each with its [file_lines] number, and
    [file_lines], the lines ended so far, skipped ones included. *)
Record tst := mk_tst {
  mode_of : mode; fld : list ascii; recd : list string; recs : list (nat * list string);
  flines : nat }.

Definition init_tst : tst := mk_tst StartRecord [] [] [] 0.

Definition field_text (t : tst) : string := String.string_of_list_ascii (rev (fld t)).

Definition set_mode (t : tst) (m : mode) : tst := mk_tst m (fld t) (recd t) (recs t) (flines t).

Definition add (t : tst) (m : mode) (c : ascii) : tst :=
  mk_tst m (c :: fld t) (recd t) (recs t) (flines t).

(** [END_FIELD]. *)
Definition end_field (t : tst) : tst :=
  mk_tst StartField [] (field_text t :: recd t) (recs t) (flines t).

(** [END_LINE]: the record ends and [file_lines] is incremented; after
    [\r] a [\n] is swallowed. *)
Definition end_line (t : tst) (c : ascii) : tst :=
  mk_tst (if is_cr c then EatCrnl else StartRecord) [] []
         ((S (flines t), rev (field_text t :: recd t)) :: recs t) (S (flines t)).

(** A skipped blank or whitespace-only line: [file_lines++] only. *)
Definition skip_line (t : tst) (c : ascii) : tst :=
  mk_tst (if is_cr c then EatCrnl else StartRecord) [] [] (recs t) (S (flines t)).

(** [START_FIELD]. *)
Definition step_field (t : tst) (c : ascii) : tst :=
  if is_nl c then end_line t c
  else if is_quote c then set_mode t InQuoted
  else if is_comma c then end_field t
  else add t InField c.

(** [IN_FIELD]: a quote after the start of a field is an ordinary
    character. *)
Definition step_in_field (t : tst) (c : ascii) : tst :=
  if is_nl c then end_line t c
  else if is_comma c then end_field t
  else add t InField c.

(** [START_RECORD]: blank lines are skipped ([skip_blank_lines=True]);
    leading whitespace may start a whitespace-only line. *)
Definition step_record (t : tst) (c : ascii) : tst :=
  if is_nl c then skip_line t c
  else if is_ws c then add t WsLine c
  else step_field t c.

(** One character. In [WHITESPACE_LINE] a newline drops the line, any
    other character resumes it as a field that began with the spaces. *)
Definition step (t : tst) (c : ascii) : tst :=
  match mode_of t with
  | StartRecord => step_record t c
  | EatCrnl => if Ascii.eqb c (ascii_of_nat 10) then set_mode t StartRecord else step_record t c
  | StartField => step_field t c
  | WsLine =>
      if is_ws c then add t WsLine c
      else if is_nl c then skip_line t c
      else step_in_field (set_mode t InField) c
  | InField => step_in_field t c
  | InQuoted => if is_quote c then set_mode t QuoteInQuoted else add t InQuoted c
  | QuoteInQuoted =>
      if is_quote c then add t InQuoted c
      else if is_comma c then end_field t
      else if is_nl c then end_line t c
      else add t InField c
  end.

(** End of data: the last record ends; inside quotes the C parser raises
    ("EOF inside string"). *)
Definition finish (t : tst) : option (list (nat * list string)) :=
  match mode_of t with
  | StartRecord | EatCrnl | WsLine => Some (rev (recs t))
  | InQuoted => None
  | StartField | InField | QuoteInQuoted =>
      Some (rev ((S (flines t), rev (field_text t :: recd t)) :: recs t))
  end.

Definition tokenize (cs : list ascii) : option (list (nat * list string)) :=
  finish (fold_left step cs init_tst).

(** ** From records to a DataFrame *)

(** [STR_NA_VALUES]: the texts read as NaN by default. *)
Definition na_values : list string :=
  ["-1.#IND"; "1.#QNAN"; "1.#IND"; "-1.#QNAN"; "#N/A N/A"; "#N/A"; "N/A"; "n/a"; "NA";
   "<NA>"; "#NA"; "NULL"; "null"; "NaN"; "-NaN"; "nan"; "-nan"; "None"; ""].

Definition is_na (s : string) : bool := existsb (String.eqb s) na_values.

(** A field of a data row, with [na_filter]. *)
Definition to_cell (s : string) : cell := if is_na s then None else Some s.

(** A data row: missing trailing fields are NaN. *)
Definition to_row (ncols : nat) (r : list string) : list cell :=
  map to_cell r ++ List.repeat None (ncols - length r).

(** A header the reader keeps as it is: distinct names, none of them an
    NA marker (so none empty). *)
Definition header_ok (hdr : list string) : bool :=
  negb (existsb is_na hdr) && bool_decide (NoDup hdr).

(** [ParserError] of [raise_parser_error("Error tokenizing data", ...)]
    with the message of [end_line] in [tokenizer.c]. *)
Definition too_many_fields (ex line saw : nat) : string :=
  "Error tokenizing data. C error: Expected " +:+ PyStr.str_of_nat ex +:+ " fields in line " +:+
  PyStr.str_of_nat line +:+ ", saw " +:+ PyStr.str_of_nat saw +:+ PyStr.nl.

(** The fields every data row is padded to ([ex_fields]): those of the
    header, or of the first data row when it has more. *)
Definition expected_fields (hdr : list string) (rows : list (nat * list string)) : nat :=
  match rows with
  | [] => length hdr
  | (_, r1) :: _ => Nat.max (length hdr) (length r1)
  end.

(** The table of the records. The names are those of [_get_header]; the
    first data row's extra fields ([leading_cols]) become the index,
    which neither the search nor [to_html(index=False)] shows; a later
    row with more fields than [ex_fields] stops the tokenizer with
    [ParserError]. *)
Definition frame_of_records (rs : list (nat * list string)) : option (string + frame cell) :=
  match rs with
  | [] => Some (inl "No columns to parse from file")
  | (_, hdr) :: rows =>
      let ex := expected_fields hdr rows in
      match List.find (fun lr => ex <? length (snd lr)) (drop 1 rows) with
      | Some (l, r) => Some (inl (too_many_fields ex l (length r)))
      | None =>
          Some (inr (mk_frame (CsvHeader.header_names hdr)
                      (map (fun lr => to_row (length hdr) (drop (ex - length hdr) (snd lr))) rows)))
      end
  end.

(** The bytes, decoded when they are ASCII. *)
Definition decode (bs : list Byte.byte) : option (list ascii) :=
  if forallb (fun b => Byte.to_nat b <? 128) bs then Some (map ascii_of_byte bs) else None.

Definition parse_csv (bs : list Byte.byte) : option (string + frame cell) :=
  match decode bs with
  | None => None
  | Some cs =>
      match tokenize cs with
      | None => None
      | Some rs => frame_of_records rs
      end
  end.

(** [pd.read_csv(f, dtype=str)]: the modelled reader, and [fallback]
    outside the fragment and for [read_excel]. *)
Definition csv_reader (fallback : TableReader) : TableReader := {|
  read_csv bs := match parse_csv bs with Some r => r | None => @read_csv fallback bs end;
  read_excel := @read_excel fallback
|}.

(** ** Printing a table as CSV text

    The file a spreadsheet exports for a table of plain fields (no
    comma, quote or line end): fields joined by commas, rows ended by
    [\n]. *)
Definition render_row (r : list string) : list ascii :=
  String.list_ascii_of_string (PyStr.join "," r) ++ [ascii_of_nat 10].

Definition render (rs : list (list string)) : list ascii := concat (map render_row rs).

Definition plain_char (c : ascii) : Prop :=
  is_comma c = false /\ is_quote c = false /\ is_nl c = false /\ nat_of_ascii c < 128.

Definition plain_field (s : string) : Prop := Forall plain_char (String.list_ascii_of_string s).

(** A table a reader of the fragment reads back: a header of distinct
    names that are not NA markers, rows of at least two and at most as
    many plain fields as the header. *)
Definition plain_table (hdr : list string) (rows : list (list string)) : Prop :=
  header_ok hdr = true /\
  Forall (fun r => 2 <= length r <= length hdr /\ Forall plain_field r) (hdr :: rows).

#[global] Instance plain_table_dec hdr rows : Decision (plain_table hdr rows).
Proof. unfold plain_table, plain_field, plain_char. apply _. Defined.

(** The uploaded bytes of the printed table. *)
Definition csv_file (rs : list (list string)) : list Byte.byte := map byte_of_ascii (render rs).


(** ** The tokenizer on printed tables *)

#[local] Arguments is_comma : simpl never.
#[local] Arguments is_quote : simpl never.
#[local] Arguments is_nl : simpl never.
#[local] Arguments is_ws : simpl never.
#[local] Arguments is_cr : simpl never.

Lemma fold_step_app cs1 cs2 t :
  fold_left step (cs1 ++ cs2) t = fold_left step cs2 (fold_left step cs1 t).
Proof. apply fold_left_app. Qed.

(** Inside a field, plain characters accumulate. *)
Lemma in_field_plain cs t :
  Forall plain_char cs -> mode_of t = InField ->
  fold_left step cs t = mk_tst InField (rev cs ++ fld t) (recd t) (recs t) (flines t).
Proof.
  revert t. induction cs as [|c cs IH]; intros t Hp Hm; simpl.
  - by destruct t; simpl in *; subst.
  - apply Forall_cons in Hp as [(Hc & Hq & Hn & _) Hp].
    unfold step. rewrite Hm. unfold step_in_field. rewrite Hn, Hc.
    rewrite IH by done. by rewrite <- app_assoc.
Qed.

Lemma field_text_rev cs t :
  fld t = rev cs -> field_text t = String.string_of_list_ascii cs.
Proof. unfold field_text. intros ->. by rewrite rev_involutive. Qed.

(** The two separators of a printed table. *)
Lemma comma_facts c : is_comma c = true -> is_nl c = false /\ is_quote c = false /\ is_ws c = false.
Proof. unfold is_comma. intros ->%Ascii.eqb_eq. split_and!; reflexivity. Qed.

Lemma lf_facts c :
  Ascii.eqb c (ascii_of_nat 10) = true -> is_nl c = true /\ is_cr c = false /\ is_comma c = false.
Proof. intros ->%Ascii.eqb_eq. split_and!; reflexivity. Qed.

(** The separator after a field, read in [START_FIELD] or [IN_FIELD]. *)
Lemma step_sep t sep :
  (mode_of t = StartField \/ mode_of t = InField) ->
  (is_comma sep = true \/ Ascii.eqb sep (ascii_of_nat 10) = true) ->
  step t sep =
  if is_comma sep then end_field t
  else mk_tst StartRecord [] [] ((S (flines t), rev (field_text t :: recd t)) :: recs t) (S (flines t)).
Proof.
  intros Hm [Hs|Hs].
  - destruct (comma_facts _ Hs) as (Hn & Hq & _). unfold step.
    destruct Hm as [-> | ->]; unfold step_field, step_in_field; by rewrite Hn, ?Hq, Hs.
  - destruct (lf_facts _ Hs) as (Hn & Hr & Hc). unfold step.
    destruct Hm as [-> | ->]; unfold step_field, step_in_field, end_line; by rewrite Hn, Hr, Hc.
Qed.

(** A plain field read from [START_FIELD] and its separator. *)
Lemma start_field_plain cs sep t :
  Forall plain_char cs -> mode_of t = StartField -> fld t = [] ->
  (is_comma sep = true \/ Ascii.eqb sep (ascii_of_nat 10) = true) ->
  fold_left step (cs ++ [sep]) t =
  if is_comma sep then mk_tst StartField [] (String.string_of_list_ascii cs :: recd t) (recs t) (flines t)
  else mk_tst StartRecord [] []
         ((S (flines t), rev (String.string_of_list_ascii cs :: recd t)) :: recs t) (S (flines t)).
Proof.
  intros Hp Hm Hf Hs. rewrite fold_step_app. cbn [fold_left].
  destruct cs as [|c cs].
  - cbn [fold_left]. rewrite step_sep by auto. unfold end_field.
    rewrite (field_text_rev []) by done. by destruct (is_comma sep).
  - apply Forall_cons in Hp as [(Hc & Hq & Hn & _) Hp]. cbn [fold_left].
    assert (step t c = add t InField c) as ->.
    { unfold step. rewrite Hm. unfold step_field. by rewrite Hn, Hq, Hc. }
    rewrite in_field_plain by done. rewrite step_sep by auto.
    unfold end_field. cbn [fld recd recs].
    rewrite (field_text_rev (c :: cs)) by (simpl; by rewrite Hf).
    by destruct (is_comma sep).
Qed.

(** The first field of a line, from [START_RECORD], possibly through
    [WHITESPACE_LINE] when it starts with spaces. *)
Lemma ws_line_plain cs t :
  Forall plain_char cs -> mode_of t = WsLine ->
  fold_left step (cs ++ [","%char]) t =
  mk_tst StartField [] (String.string_of_list_ascii (rev (fld t) ++ cs) :: recd t) (recs t) (flines t).
Proof.
  destruct (comma_facts ","%char eq_refl) as (Hn0 & Hq0 & Hw0).
  revert t. induction cs as [|c cs IH]; intros t Hp Hm; cbn [app fold_left].
  - unfold step. rewrite Hm, Hw0, Hn0. unfold step_in_field. rewrite Hn0. cbn.
    unfold end_field, field_text. by rewrite app_nil_r.
  - apply Forall_cons in Hp as [(Hc & Hq & Hn & _) Hp].
    unfold step at 2. rewrite Hm. destruct (is_ws c) eqn:Hw.
    + rewrite IH by done. cbn [add fld recd recs rev]. by rewrite <- app_assoc.
    + unfold step_in_field. rewrite Hn. cbn [set_mode]. rewrite Hc.
      rewrite fold_step_app, (in_field_plain cs) by done. cbn [fold_left].
      rewrite step_sep by auto. cbn [is_comma]. unfold end_field. cbn [fld recd recs].
      rewrite (field_text_rev (rev (fld t) ++ c :: cs)); [done|].
      cbn [fld add set_mode]. rewrite rev_app_distr, rev_involutive. cbn [rev].
      by rewrite <- app_assoc.
Qed.

Lemma start_record_plain cs t :
  Forall plain_char cs -> mode_of t = StartRecord -> fld t = [] ->
  fold_left step (cs ++ [","%char]) t =
  mk_tst StartField [] (String.string_of_list_ascii cs :: recd t) (recs t) (flines t).
Proof.
  intros Hp Hm Hf. destruct cs as [|c cs].
  - destruct (comma_facts ","%char eq_refl) as (Hn & Hq & Hw). cbn [app fold_left].
    unfold step. rewrite Hm. unfold step_record, step_field. rewrite Hn, Hw, Hq.
    replace (is_comma ","%char) with true by reflexivity.
    unfold end_field. by rewrite (field_text_rev []) by done.
  - pose proof Hp as Hp'. apply Forall_cons in Hp' as [(Hc & Hq & Hn & _) Hp'].
    cbn [app fold_left]. unfold step at 2. rewrite Hm. unfold step_record. rewrite Hn.
    destruct (is_ws c) eqn:Hw.
    + rewrite ws_line_plain by done. cbn. by rewrite Hf.
    + assert (step_field t c = add t InField c) as ->.
      { unfold step_field. by rewrite Hn, Hq, Hc. }
      rewrite fold_step_app, (in_field_plain cs) by done. cbn [fold_left].
      rewrite step_sep by auto. unfold end_field. cbn [fld recd recs].
      by rewrite (field_text_rev (c :: cs)) by (simpl; by rewrite Hf).
Qed.

Lemma list_ascii_join_cons f fs :
  fs <> [] ->
  String.list_ascii_of_string (PyStr.join "," (f :: fs)) =
  String.list_ascii_of_string f ++ [","%char] ++ String.list_ascii_of_string (PyStr.join "," fs).
Proof. intros Hne. unfold PyStr.join. rewrite PyStr.concat_cons_ne, !PyStr.list_ascii_append by done. done. Qed.

(** The fields after the first, from [START_FIELD] to the line end. *)
Lemma fields_plain fs t :
  Forall plain_field fs -> fs <> [] -> mode_of t = StartField -> fld t = [] ->
  fold_left step (String.list_ascii_of_string (PyStr.join "," fs) ++ [ascii_of_nat 10]) t =
  mk_tst StartRecord [] [] ((S (flines t), rev (recd t) ++ fs) :: recs t) (S (flines t)).
Proof.
  revert t. induction fs as [|f fs IH]; intros t Hp Hne Hm Hf; [done|].
  apply Forall_cons in Hp as [Hpf Hp]. destruct fs as [|f' fs'].
  - cbn [PyStr.join String.concat].
    rewrite start_field_plain; [|exact Hpf|done|done|right; reflexivity]. cbn.
    by rewrite String.string_of_list_ascii_of_string.
  - rewrite list_ascii_join_cons by done.
    rewrite <- !app_assoc, app_assoc, fold_step_app.
    rewrite (start_field_plain (String.list_ascii_of_string f)); [|exact Hpf|done|done|left; reflexivity].
    replace (is_comma ","%char) with true by reflexivity.
    rewrite IH by done. cbn [recd recs rev]. rewrite String.string_of_list_ascii_of_string.
    by rewrite <- app_assoc.
Qed.

(** A printed row, from the start of a line. *)
Lemma row_plain r t :
  2 <= length r -> Forall plain_field r ->
  mode_of t = StartRecord -> fld t = [] -> recd t = [] ->
  fold_left step (render_row r) t = mk_tst StartRecord [] [] ((S (flines t), r) :: recs t) (S (flines t)).
Proof.
  intros Hlen Hp Hm Hf Hr. destruct r as [|f [|f' fs]]; simpl in Hlen; [lia|lia|].
  apply Forall_cons in Hp as [Hpf Hp]. unfold render_row.
  rewrite list_ascii_join_cons by done. rewrite <- !app_assoc, app_assoc, fold_step_app.
  rewrite start_record_plain by done. rewrite fields_plain by done. cbn.
  by rewrite Hr, String.string_of_list_ascii_of_string.
Qed.

(** The tokenizer reads back the rows of a printed table, the [i]-th
    on line [i]. *)
Lemma tokenize_render rs :
  Forall (fun r => 2 <= length r /\ Forall plain_field r) rs ->
  tokenize (render rs) = Some (zip (seq 1 (length rs)) rs).
Proof.
  intros Hrs. unfold tokenize.
  enough (forall recs0 k, fold_left step (render rs) (mk_tst StartRecord [] [] recs0 k) =
          mk_tst StartRecord [] [] (rev (zip (seq (S k) (length rs)) rs) ++ recs0) (k + length rs)) as H.
  { unfold init_tst. rewrite H. cbn. by rewrite app_nil_r, rev_involutive. }
  induction Hrs as [|r rs [Hl Hp] Hrs IH]; intros recs0 k; [by rewrite Nat.add_0_r|].
  unfold render. cbn [map concat]. rewrite fold_step_app. fold (render rs).
  rewrite row_plain by done. cbn [flines recs]. rewrite IH. cbn [length seq zip rev].
  rewrite <- app_assoc. f_equal. lia.
Qed.

Lemma join_chars (P : ascii -> Prop) r :
  P ","%char -> Forall (fun f => Forall P (String.list_ascii_of_string f)) r ->
  Forall P (String.list_ascii_of_string (PyStr.join "," r)).
Proof.
  intros Hc Hr. induction Hr as [|f r Hf Hr IH]; [constructor|].
  destruct r as [|f' r]; [by cbn; rewrite ?PyStr.append_nil_r|].
  rewrite list_ascii_join_cons by done. apply Forall_app; split; [done|].
  by apply Forall_cons.
Qed.

(** A printed plain table is ASCII text. *)
Lemma decode_csv_file rs :
  Forall (fun r => Forall plain_field r) rs -> decode (csv_file rs) = Some (render rs).
Proof.
  intros Hrs. assert (Forall (fun c => nat_of_ascii c < 128) (render rs)) as Ha.
  { unfold render. apply Forall_concat, Forall_map. eapply Forall_impl; [exact Hrs|].
    intros r Hr. unfold render_row. apply Forall_app; split.
    - apply join_chars; [apply Nat.ltb_lt; reflexivity|]. eapply Forall_impl; [exact Hr|].
      intros f Hf. eapply Forall_impl; [exact Hf|]. by intros c (_ & _ & _ & ?).
    - apply Forall_cons; split; [apply Nat.ltb_lt; reflexivity|constructor]. }
  unfold decode, csv_file.
  destruct (forallb _ _) eqn:E.
  - f_equal. rewrite map_map. rewrite <- (map_id (render rs)) at 2.
    apply map_ext. intros c. apply ascii_of_byte_of_ascii.
  - exfalso. apply not_true_iff_false in E. apply E, forallb_forall.
    intros b Hb. apply in_map_iff in Hb as (c & <- & Hc).
    rewrite (Byte.to_of_nat _ (eq_sym (byte_of_ascii_via_nat c))).
    apply Nat.ltb_lt. eapply List.Forall_forall in Ha; [exact Ha|exact Hc].
Qed.

(** The reader on printed rows: the table of their records, the [i]-th
    row on line [i]. *)
Lemma parse_csv_printed rs :
  Forall (fun r => 2 <= length r /\ Forall plain_field r) rs ->
  parse_csv (csv_file rs) = frame_of_records (zip (seq 1 (length rs)) rs).
Proof.
  intros Hrs. unfold parse_csv.
  rewrite decode_csv_file by (eapply Forall_impl; [exact Hrs|]; by intros r [_ ?]).
  by rewrite tokenize_render.
Qed.

Lemma header_ok_spec hdr : header_ok hdr = true -> NoDup hdr /\ Forall (fun s => s <> "") hdr.
Proof.
  unfold header_ok. intros [Hna Hnd]%andb_prop. split; [by apply bool_decide_eq_true in Hnd|].
  apply List.Forall_forall. intros x Hx ->. apply negb_true_iff, not_true_iff_false in Hna.
  apply Hna, existsb_exists. by exists "".
Qed.

Lemma Forall_zip_snd {A} (P : list string -> Prop) (ls : list A) rows :
  Forall P rows -> Forall (fun lr => P (snd lr)) (zip ls rows).
Proof.
  intros Hr. revert ls. induction Hr as [|r rows Hr Hrs IH]; intros [|l ls]; cbn; constructor; auto.
Qed.

Lemma map_zip_snd {A B} (f : list string -> B) (ls : list A) rows :
  length ls = length rows -> map (fun lr => f (snd lr)) (zip ls rows) = map f rows.
Proof.
  revert ls. induction rows as [|r rows IH]; intros [|l ls] Hl; cbn in *; try done.
  rewrite IH; [done|lia].
Qed.

(** No row longer than [ex_fields]: no [ParserError]. *)
Lemma find_short ex (lrs : list (nat * list string)) :
  Forall (fun lr => length (snd lr) <= ex) lrs -> List.find (fun lr => ex <? length (snd lr)) lrs = None.
Proof.
  induction 1 as [|lr lrs Hl Hlrs IH]; [done|]. cbn [List.find]. by rewrite (proj2 (Nat.ltb_ge _ _) Hl).
Qed.

Lemma expected_fields_short hdr rows :
  Forall (fun lr => length (snd lr) <= length hdr) rows -> expected_fields hdr rows = length hdr.
Proof. intros [|[l r] rows' Hr _]; cbn in *; lia. Qed.

(** The reader on a printed plain table: its header, and its rows with
    NA markers as NaN, padded with NaN. *)
Lemma parse_csv_file hdr rows :
  plain_table hdr rows ->
  parse_csv (csv_file (hdr :: rows)) = Some (inr (mk_frame hdr (map (to_row (length hdr)) rows))).
Proof.
  intros [Hh Hrs]. rewrite parse_csv_printed by (eapply Forall_impl; [exact Hrs|]; intros r [[? _] ?]; by split).
  apply Forall_cons in Hrs as [_ Hrs].
  assert (Forall (fun lr => length (snd lr) <= length hdr) (zip (seq 2 (length rows)) rows)) as Hs
    by (apply (Forall_zip_snd (fun r => length r <= length hdr)); eapply Forall_impl; [exact Hrs|];
        by intros r [[_ ?] _]).
  cbn [length seq zip frame_of_records]. rewrite expected_fields_short by done.
  cbv zeta. rewrite find_short by (by apply Forall_drop).
  destruct (header_ok_spec hdr Hh) as [Hnd Hne]. rewrite CsvHeader.header_names_id by done.
  rewrite Nat.sub_diag, (map_zip_snd (fun r => to_row (length hdr) (drop 0 r))) by apply length_seq.
  do 3 f_equal.
Qed.


Lemma zip_seq_app (k : nat) (a b : list (list string)) :
  zip (seq k (length (a ++ b))) (a ++ b) = zip (seq k (length a)) a ++ zip (seq (k + length a) (length b)) b.
Proof.
  revert k. induction a as [|x a IH]; intros k; cbn [app length seq zip]; [by rewrite Nat.add_0_r|].
  rewrite IH. by replace (S k + length a) with (k + S (length a)) by lia.
Qed.

Lemma find_app {A} (f : A -> bool) l1 l2 :
  List.find f (l1 ++ l2) = match List.find f l1 with Some x => Some x | None => List.find f l2 end.
Proof. induction l1 as [|x l1 IH]; cbn; [done|]. by destruct (f x). Qed.

(** The data rows of a printed file, numbered from line 2. *)
Lemma frame_of_printed hdr rows :
  Forall (fun r => 2 <= length r /\ Forall plain_field r) (hdr :: rows) ->
  parse_csv (csv_file (hdr :: rows)) = frame_of_records ((1, hdr) :: zip (seq 2 (length rows)) rows).
Proof. intros Hp. by rewrite parse_csv_printed. Qed.

(** ** Properties of the reader *)

(** (C40) Printing and reading back: on the CSV text of a plain table,
    the modelled [read_csv] returns its header and its rows, each field
    that is an NA marker read as NaN and each short row padded with NaN,
    whatever reader handles the files outside the fragment. *)
Theorem read_csv_roundtrip fallback hdr rows :
  plain_table hdr rows ->
  @read_csv (csv_reader fallback) (csv_file (hdr :: rows)) =
  inr (mk_frame hdr (map (to_row (length hdr)) rows)).
Proof. intros Hp. unfold csv_reader. cbn [Frame.read_csv]. by rewrite parse_csv_file. Qed.

(** (C18) A row with more fields than the header and the first data
    row stops the reader with pandas' [ParserError], which names the
    expected and the actual number of fields and the row's line (the
    header is line 1); the rows before it, none longer, are read
    without error. *)
Theorem read_csv_too_many_fields fallback hdr r1 mid r rest :
  Forall (fun row => 2 <= length row /\ Forall plain_field row) (hdr :: r1 :: mid ++ r :: rest) ->
  Forall (fun row => length row <= Nat.max (length hdr) (length r1)) mid ->
  Nat.max (length hdr) (length r1) < length r ->
  @read_csv (csv_reader fallback) (csv_file (hdr :: r1 :: mid ++ r :: rest)) =
    inl (too_many_fields (Nat.max (length hdr) (length r1)) (length mid + 3) (length r)).
Proof.
  intros Hp Hmid Hr. unfold csv_reader. cbn [Frame.read_csv]. rewrite frame_of_printed by done.
  cbn [length seq zip frame_of_records expected_fields drop]. cbv zeta.
  rewrite drop_0, zip_seq_app, find_app, find_short.
  - cbn [length seq zip List.find snd]. rewrite (proj2 (Nat.ltb_lt _ _) Hr).
    replace (length mid + 3) with (3 + length mid) by lia. reflexivity.
  - by apply (Forall_zip_snd (fun row => length row <= Nat.max (length hdr) (length r1))).
Qed.

(** (C21) Rows with [k] fields more than the header, the same number in
    every row, get an implicit index: their first [k] fields become the
    row labels, which the search and [to_html(index=False)] never show,
    and the columns take the fields after them. A file whose data rows
    end with a comma thus loses its first column. *)
Theorem read_csv_implicit_index fallback hdr rows k :
  header_ok hdr = true -> Forall (fun row => 2 <= length row /\ Forall plain_field row) (hdr :: rows) ->
  Forall (fun row => length row = length hdr + k) rows ->
  @read_csv (csv_reader fallback) (csv_file (hdr :: rows)) =
    inr (mk_frame hdr (map (fun row => map to_cell (drop k row)) rows)).
Proof.
  intros Hh Hp Hk. unfold csv_reader. cbn [Frame.read_csv]. rewrite frame_of_printed by done.
  cbn [frame_of_records]. cbv zeta.
  set (ex := expected_fields hdr (zip (seq 2 (length rows)) rows)).
  assert (forall row, row ∈ rows -> ex = length hdr + k) as Hex.
  { intros row Hrow. destruct Hk as [|r rows' Hr _]; [set_solver|]. unfold ex. cbn. lia. }
  assert (Forall (fun row => length row <= ex) rows) as Hle.
  { apply Forall_forall. intros row Hrow. rewrite (Hex row Hrow).
    by rewrite (proj1 (Forall_forall _ _) Hk row Hrow). }
  rewrite find_short by (apply Forall_drop, (Forall_zip_snd (fun row => length row <= ex)), Hle).
  destruct (header_ok_spec hdr Hh) as [Hnd Hne]. rewrite CsvHeader.header_names_id by done.
  rewrite (map_zip_snd (fun row => to_row (length hdr) (drop (ex - length hdr) row))) by apply length_seq.
  do 2 f_equal. apply map_ext_in. intros row Hrow%list_elem_of_In.
  rewrite (Hex row Hrow). replace (length hdr + k - length hdr) with k by lia. unfold to_row.
  by rewrite length_drop, (proj1 (Forall_forall _ _) Hk row Hrow), Nat.add_sub, Nat.sub_diag, app_nil_r.
Qed.

(** ** Witnesses *)

Lemma read_csv_roundtrip_witness :
  plain_table ["name"; "city"] [["Bob"; "NA"]; ["Carol"; "Turin"]] /\
  @read_csv (csv_reader {| read_csv _ := inl "x"; read_excel _ := inl "x" |}) (csv_file [["name"; "city"]; ["Bob"; "NA"]; ["Carol"; "Turin"]]) =
  inr (mk_frame ["name"; "city"] [[Some "Bob"; None]; [Some "Carol"; Some "Turin"]]).
Proof.
  assert (plain_table ["name"; "city"] [["Bob"; "NA"]; ["Carol"; "Turin"]]) as H
    by (apply (bool_decide_unpack _); vm_compute; reflexivity).
  split; [exact H|]. apply (read_csv_roundtrip _ _ _ H).
Defined.


Lemma read_csv_too_many_fields_witness :
  Forall (fun row => 2 <= length row /\ Forall plain_field row)
    [["a"; "b"]; ["1"; "2"]; ["3"; "4"; "5"]] /\
  @read_csv (csv_reader {| read_csv _ := inl "x"; read_excel _ := inl "x" |})
    (csv_file [["a"; "b"]; ["1"; "2"]; ["3"; "4"; "5"]]) =
  inl ("Error tokenizing data. C error: Expected 2 fields in line 3, saw 3" +:+ PyStr.nl).
Proof.
  assert (Forall (fun row => 2 <= length row /\ Forall plain_field row)
            [["a"; "b"]; ["1"; "2"]; ["3"; "4"; "5"]]) as Hp
    by (apply (bool_decide_unpack _); vm_compute; reflexivity).
  split; [exact Hp|].
  apply (read_csv_too_many_fields _ ["a"; "b"] ["1"; "2"] [] ["3"; "4"; "5"] [] Hp);
    [constructor|cbn; lia].
Defined.

Lemma read_csv_implicit_index_witness :
  header_ok ["name"; "city"] = true /\
  Forall (fun row => 2 <= length row /\ Forall plain_field row)
    [["name"; "city"]; ["Alice"; "Rome"; ""]; ["Bob"; "Milan"; ""]] /\
  @read_csv (csv_reader {| read_csv _ := inl "x"; read_excel _ := inl "x" |})
    (csv_file [["name"; "city"]; ["Alice"; "Rome"; ""]; ["Bob"; "Milan"; ""]]) =
  inr (mk_frame ["name"; "city"] [[Some "Rome"; None]; [Some "Milan"; None]]).
Proof.
  assert (Forall (fun row => 2 <= length row /\ Forall plain_field row)
            [["name"; "city"]; ["Alice"; "Rome"; ""]; ["Bob"; "Milan"; ""]]) as Hp
    by (apply (bool_decide_unpack _); vm_compute; reflexivity).
  split; [reflexivity|]. split; [exact Hp|].
  apply (read_csv_implicit_index _ ["name"; "city"] [["Alice"; "Rome"; ""]; ["Bob"; "Milan"; ""]] 1);
    [reflexivity|exact Hp|repeat constructor].
Defined.

End Csv.
