(* ===== verification/Html.v ===== *)
(** * pandas' [DataFrame.to_html(index=False)]

    The result page of [/search] embeds [final_df.to_html(index=False)]
    (src/main.py lines 161 and 181). This file models pandas'
    [HTMLFormatter] ([pandas/io/formats/html.py], pandas 2) with its
    defaults ([border=1], [escape=True], [justify="right"], no index):
    the table, head and body tags on lines indented by two spaces per
    level, one [<th>] per column and one [<td>] per cell, each cell text
    escaped by [pprint_thing] ([&], [<], [>] replaced in that order) and
    then stripped of surrounding whitespace, as [_write_cell] does.
    [pandas_html] is the instance of [TableRenderer].

    [unescape] is the decoding of the three entities by a browser; it is
    the specification side of the escaping theorem, not program code. *)

From S2P Require Import Prelude PyStr Frame.
From Stdlib Require Import Ascii.

Module Html.
Import Frame.

(** ** The renderer *)

(** [pprint_thing(s, escape_chars={"&": "&amp;", "<": "&lt;", ">": "&gt;"})]:
    [result.replace(c, translate[c])] for each key, in order. *)
Definition as_escaped_string (s : string) : string :=
  PyStr.replace_char ">" "&gt;" (PyStr.replace_char "<" "&lt;" (PyStr.replace_char "&" "&amp;" s)).

(** The text [_write_cell] puts between the tags: escaped, then stripped. *)
Definition cell_text (s : string) : string := PyStr.strip (as_escaped_string s).

Fixpoint spaces (n : nat) : string :=
  match n with 0 => EmptyString | S n' => String " " (spaces n') end.

(** [write(s, indent)]: one line, indented. *)
Definition line (ind : nat) (s : string) : string := spaces ind +:+ s.

(** [_write_cell(s, kind, indent)]. *)
Definition write_cell (kind : string) (ind : nat) (s : string) : string :=
  line ind ("<" +:+ kind +:+ ">" +:+ cell_text s +:+ "</" +:+ kind +:+ ">").

(** [_write_header]: the column names, right-justified. *)
Definition header_lines (cols : list string) : list string :=
  [line 2 "<thead>"; line 4 (PyStr.lit "<tr style=`text-align: right;`>")] ++
  map (write_cell "th" 6) cols ++ [line 4 "</tr>"; line 2 "</thead>"].

(** [write_tr] of one body row. *)
Definition row_lines (r : list string) : list string :=
  [line 4 "<tr>"] ++ map (write_cell "td" 6) r ++ [line 4 "</tr>"].

(** [_write_table] and [_write_body]. *)
Definition table_lines (df : frame string) : list string :=
  [PyStr.lit "<table border=`1` class=`dataframe`>"] ++ header_lines (columns df) ++
  [line 2 "<tbody>"] ++ concat (map row_lines (rows df)) ++ [line 2 "</tbody>"; "</table>"].

(** [HTMLFormatter.render]: the lines joined by newlines. *)
Definition to_html (df : frame string) : string := PyStr.join PyStr.nl (table_lines df).

Definition pandas_html : TableRenderer := to_html.

(** ** A browser's reading of the entities *)



(** ** Lemmas on the escaping *)








(** ** Stripping commutes with escaping *)

Section Strip.
Context (E : ascii -> list ascii).
Hypothesis E_space : forall c, PyStr.is_space c = true -> E c = [c].
Hypothesis E_head :
  forall c, PyStr.is_space c = false -> exists d t, E c = d :: t /\ PyStr.is_space d = false.

End Strip.





(** ** Properties of the renderer *)


(** The table of the spec's example, as pandas writes it. *)
Example to_html_example :
  table_lines (mk_frame ["name"; "city"] [["Bob"; "Milan"]]) =
  [PyStr.lit "<table border=`1` class=`dataframe`>"; "  <thead>";
   PyStr.lit "    <tr style=`text-align: right;`>"; "      <th>name</th>"; "      <th>city</th>";
   "    </tr>"; "  </thead>"; "  <tbody>"; "    <tr>"; "      <td>Bob</td>"; "      <td>Milan</td>";
   "    </tr>"; "  </tbody>"; "</table>"].
Proof. vm_compute. reflexivity. Qed.

End Html.
