(* ===== verification/Search.v ===== *)
(** * The search engine: body of the [/search] handler (src/main.py 141-193)

    After the quota check, the handler lowercases the file name and
    dispatches on its extension: [.csv] is read in blocks of 2000 rows
    and matched block by block (lines 145-167), [.xlsx] is read whole and
    matched in one pass (lines 170-187), any other name is refused
    (line 190); an exception raised while reading or matching is caught
    and reported (lines 192-193). The handler's return values are the
    constructors of [outcome]; their HTML is in [Pages]. *)

From S2P Require Import Prelude PyStr Frame Regex Csv.

Module Search.
Import Frame.

(** The uploaded file: [file.filename] and the bytes of [file.file]. *)
Record upload := mk_upload { filename : string; content : list Byte.byte }.

(** What the search part of the handler returns. *)
Inductive outcome :=
| NoResults                      (** lines 157-158 and 178-179 *)
| Results (df : frame string)    (** lines 160-167 and 181-187 *)
| Unsupported                    (** line 190 *)
| Failed (msg : string).         (** lines 192-193 *)

(** Line 147: [chunksize = 2000]. *)
Definition CHUNKSIZE : nat := 2000.

Section WithLibraries.
Context `{RE : ReEngine} `{TR : TableReader}.

(** Lines 150-155: for each block, fill, join, match, and keep the
    matching rows of the blocks with at least one match. *)
Fixpoint csv_loop (query : string) (cs : list (frame cell))
    (results : list (frame string)) : string + list (frame string) :=
  match cs with
  | [] => inr results
  | chunk :: cs' =>
      let chunk := fillna "" chunk in
      let combined := agg_join chunk in
      match str_contains query combined with
      | inl err => inl err
      | inr mask =>
          csv_loop query cs'
            (if mask_any mask then results ++ [select chunk mask] else results)
      end
  end.

(** Lines 145-167: the CSV branch. *)
Definition search_csv (f : upload) (query : string) : outcome :=
  match read_csv (content f) with
  | inl err => Failed err
  | inr df =>
      match csv_loop query (chunks CHUNKSIZE df) [] with
      | inl err => Failed err
      | inr [] => NoResults
      | inr results => Results (concat_frames results)
      end
  end.

(** Lines 170-187: the XLSX branch. *)
Definition search_xlsx (f : upload) (query : string) : outcome :=
  match read_excel (content f) with
  | inl err => Failed err
  | inr df =>
      let df := fillna "" df in
      match str_contains query (agg_join df) with
      | inl err => Failed err
      | inr mask =>
          let results := select df mask in
          if df_empty results then NoResults else Results results
      end
  end.

(** Lines 141-193: dispatch on the lowercased file name. *)
Definition search_file (f : upload) (query : string) : outcome :=
  let name := PyStr.lower (filename f) in
  if PyStr.endswith name ".csv" then search_csv f query
  else if PyStr.endswith name ".xlsx" then search_xlsx f query
  else Unsupported.

End WithLibraries.

(** ** Reference specification of the matching *)

(** A row matches when the query occurs, ignoring case, in the row's
    cells joined with single spaces. *)
Definition row_matches (query : string) (r : list string) : bool :=
  PyStr.contains (PyStr.lower query) (PyStr.lower (PyStr.join " " r)).

(** The rows of the table that the search should return, in order. *)
Definition expected_rows (p : string -> bool) (df : frame cell) : list (list string) :=
  List.filter (fun r => p (PyStr.join " " r)) (rows (fillna "" df)).

(** ** A table for examples *)

(** A reader that returns a given table for any file. *)
Definition table_reader (df : frame cell) : TableReader :=
  {| read_csv := fun _ => inr df; read_excel := fun _ => inr df |}.

(** A reader that fails on every file. *)
Definition failing_reader (msg : string) : TableReader :=
  {| read_csv := fun _ => inl msg; read_excel := fun _ => inl msg |}.

(** An upload with the given name and no bytes (the readers above do not
    look at them). *)
Definition demo_upload (name : string) : upload := mk_upload name [].


(** The table pandas parses from
    [name,city\nAlice,Rome\nBob,Milan\nCarol,Turin]. *)
Definition cities : frame cell :=
  mk_frame ["name"; "city"]
    [[Some "Alice"; Some "Rome"]; [Some "Bob"; Some "Milan"];
     [Some "Carol"; Some "Turin"]].

(** The reader that parses every file to [cities]. *)
Definition cities_reader : TableReader := table_reader cities.

(** ** Lemmas *)

Section Lemmas.
Context `{RE : ReEngine} `{TR : TableReader}.

(** The matching rows of one block, with its header. *)
Definition block (p : string -> bool) (c : frame cell) : frame string :=
  mk_frame (columns c) (List.filter (fun r => p (PyStr.join " " r)) (rows (fillna "" c))).

Definition nonempty (fr : frame string) : bool := negb (bool_decide (rows fr = [])).

Lemma select_block p c :
  select (fillna "" c) (map p (agg_join (fillna "" c))) = block p c.
Proof.
  unfold select, agg_join, block. rewrite map_map.
  by rewrite (bool_index_map (fun r => p (PyStr.join " " r))).
Qed.

Lemma mask_any_block p c :
  mask_any (map p (agg_join (fillna "" c))) = nonempty (block p c).
Proof.
  unfold agg_join, nonempty, block. rewrite map_map. simpl.
  destruct (mask_any _) eqn:E.
  - rewrite bool_decide_false; [done|]. intros Hnil.
    apply (mask_any_map (fun r => p (PyStr.join " " r))) in Hnil. congruence.
  - apply mask_any_map in E. by rewrite E.
Qed.

(** When the pattern compiles, the loop keeps the non-empty blocks, in
    order, after those already kept. *)
Lemma csv_loop_ok query p cs acc :
  re_compile_ic query = inr p ->
  csv_loop query cs acc = inr (acc ++ List.filter nonempty (map (block p) cs)).
Proof.
  intros Hp. revert acc. induction cs as [|c cs IH]; intros acc.
  - by rewrite app_nil_r.
  - cbn [csv_loop]. unfold str_contains. rewrite Hp, IH, mask_any_block, select_block.
    cbn [map List.filter]. destruct (nonempty (block p c)); by rewrite <-?app_assoc.
Qed.

(** When the pattern does not compile, a non-empty loop raises its error. *)
Lemma csv_loop_err query err cs acc :
  re_compile_ic query = inl err -> cs <> [] -> csv_loop query cs acc = inl err.
Proof.
  intros Herr Hcs. destruct cs as [|c cs]; [done|].
  cbn [csv_loop]. unfold str_contains. by rewrite Herr.
Qed.

Lemma kept_rows p cs :
  concat (map rows (List.filter nonempty (map (block p) cs))) =
  List.filter (fun r => p (PyStr.join " " r)) (concat (map (fun c => rows (fillna "" c)) cs)).
Proof.
  induction cs as [|c cs IH]; [done|]. cbn [map List.filter concat].
  rewrite List.filter_app, <- IH. unfold nonempty.
  destruct (bool_decide _) eqn:E; simpl.
  - apply bool_decide_eq_true in E. unfold block in E. simpl in E. by rewrite E.
  - done.
Qed.

Lemma kept_columns p cs cols :
  Forall (fun c => columns c = cols) cs ->
  Forall (fun fr => columns fr = cols) (List.filter nonempty (map (block p) cs)).
Proof.
  intros Hcs. apply Forall_forall. intros fr Hin.
  apply list_elem_of_In, List.filter_In in Hin as [Hin _].
  apply in_map_iff in Hin as [c [<- Hc]].
  rewrite Forall_forall in Hcs. apply (Hcs c). by apply list_elem_of_In.
Qed.

Lemma chunks_nonempty {A} n (df : frame A) : rows df <> [] -> chunks n df <> [].
Proof. unfold chunks. destruct (rows df) as [|r rs]; [done|]. by intros _. Qed.

(** A pattern the engine rejects fails the CSV search with its message
    as soon as one block is read. *)
Lemma search_file_pattern_error f query err df :
  PyStr.endswith (PyStr.lower (filename f)) ".csv" = true ->
  re_compile_ic query = inl err -> read_csv (content f) = inr df -> rows df <> [] ->
  search_file f query = Failed err.
Proof.
  intros Hc Herr Hr Hne. unfold search_file, search_csv. rewrite Hc, Hr.
  by rewrite (csv_loop_err query err) by (done || by apply chunks_nonempty).
Qed.

Lemma chunks_fillna_rows n df :
  0 < n -> concat (map (fun c => rows (fillna "" c)) (chunks n df)) = rows (fillna "" df).
Proof.
  intros Hn. unfold fillna. simpl.
  rewrite <- (chunks_rows n df Hn), <- (map_map rows (map (map (default "")))).
  by rewrite concat_map.
Qed.
End Lemmas.

Section Properties.
Context `{RE : ReEngine} `{TR : TableReader}.

(** The CSV loop over blocks of any positive size, in closed form. *)
Lemma csv_loop_chunks query p n df :
  0 < n -> re_compile_ic query = inr p ->
  match csv_loop query (chunks n df) [] with
  | inl err => Failed err
  | inr [] => NoResults
  | inr results => Results (concat_frames results)
  end =
  match expected_rows p df with
  | [] => NoResults
  | rs => Results (mk_frame (columns df) rs)
  end.
Proof.
  intros Hn Hp. rewrite (csv_loop_ok _ p) by done. simpl.
  pose proof (kept_rows p (chunks n df)) as Hrows.
  rewrite chunks_fillna_rows in Hrows by done.
  pose proof (kept_columns p _ _ (chunks_columns n df)) as Hcols.
  pose proof (List.filter_In nonempty) as Hne.
  unfold expected_rows. rewrite <- Hrows.
  destruct (List.filter nonempty _) as [|fr frs] eqn:Hk; [done|].
  assert (rows fr <> []) as Hfr.
  { assert (In fr (fr :: frs)) as Hin by (left; done). rewrite <- Hk, Hne in Hin.
    destruct Hin as [_ Hin]. unfold nonempty in Hin.
    by apply negb_true_iff, bool_decide_eq_false in Hin. }
  inversion Hcols as [|? ? Hc]; subst. cbn [map concat].
  destruct (rows fr) as [|r rs] eqn:Hr; [congruence|]. simpl. unfold concat_frames. cbn [map concat]. by rewrite Hc, Hr.
Qed.



(** The block size does not change the CSV outcome: any two positive
    chunk sizes give the same answer. *)
Lemma csv_chunksize_irrelevant query n m df :
  0 < n -> 0 < m ->
  (match csv_loop query (chunks n df) [] with
   | inl err => Failed err | inr [] => NoResults
   | inr results => Results (concat_frames results) end) =
  (match csv_loop query (chunks m df) [] with
   | inl err => Failed err | inr [] => NoResults
   | inr results => Results (concat_frames results) end).
Proof.
  intros Hn Hm. destruct (re_compile_ic query) as [err|p] eqn:Hq.
  - assert (forall k, 0 < k -> match csv_loop query (chunks k df) [] with
       | inl err => Failed err | inr [] => NoResults
       | inr results => Results (concat_frames results) end =
       if bool_decide (rows df = []) then NoResults else Failed err) as Hk.
    { intros k Hk. unfold chunks. destruct (rows df) as [|r rs] eqn:Hr; [done|].
      rewrite (csv_loop_err _ err); [done|done|]. cbn. destruct k; [lia|done]. }
    by rewrite !Hk.
  - by rewrite !(csv_loop_chunks _ p).
Qed.




(** (C15) The handler answers "unsupported format" exactly when the
    lowercased file name ends neither in ".csv" nor in ".xlsx", whatever
    the query and the file's content. *)
Theorem unsupported_iff f query :
  search_file f query = Unsupported <->
  PyStr.endswith (PyStr.lower (filename f)) ".csv" = false /\
  PyStr.endswith (PyStr.lower (filename f)) ".xlsx" = false.
Proof.
  unfold search_file, search_csv, search_xlsx.
  destruct (PyStr.endswith _ ".csv"), (PyStr.endswith _ ".xlsx");
    repeat case_match; intuition congruence.
Qed.

(** (C16) A file that pandas cannot parse is reported with the reader's
    message, in the branch the extension selects. *)
Theorem read_error_reported f query err :
  (PyStr.endswith (PyStr.lower (filename f)) ".csv" = true ->
   read_csv (content f) = inl err -> search_file f query = Failed err) /\
  (PyStr.endswith (PyStr.lower (filename f)) ".csv" = false ->
   PyStr.endswith (PyStr.lower (filename f)) ".xlsx" = true ->
   read_excel (content f) = inl err -> search_file f query = Failed err).
Proof.
  unfold search_file, search_csv, search_xlsx. split.
  - intros Hc Hr. by rewrite Hc, Hr.
  - intros Hc Hx Hr. by rewrite Hc, Hx, Hr.
Qed.
End Properties.

Section Literal.
Context `{RE : ReEngine} `{!ReEngineLaws} `{TR : TableReader}.

End Literal.

(** ** The matching rule *)

(** Matching ignores case on both sides: lowercasing the query or
    any cell does not change whether a row matches. *)
Lemma row_matches_case_insensitive query r :
  row_matches (PyStr.lower query) (map PyStr.lower r) = row_matches query r.
Proof.
  unfold row_matches. rewrite !PyStr.lower_join, map_map, PyStr.lower_idem.
  f_equal. f_equal. apply map_ext. intros s. apply PyStr.lower_idem.
Qed.

(** Matching is on the joined text, not per cell: a query made of two
    adjacent cells with a space between them matches the row, although it
    is in no single cell. *)
Lemma row_matches_across_cells (a b : string) (l1 l2 : list string) :
  row_matches (a +:+ " " +:+ b) (l1 ++ a :: b :: l2) = true.
Proof.
  unfold row_matches. destruct (PyStr.join_adjacent " " a b l1 l2) as [u [v ->]].
  rewrite !PyStr.lower_append. apply PyStr.contains_spec.
  exists (PyStr.lower u), (PyStr.lower v). by rewrite !PyStr.append_assoc.
Qed.

Example row_matches_foo_bar :
  row_matches "foo bar" ["foo"; "bar"] = true /\
  row_matches "foobar" ["foo"; "bar"] = false /\
  row_matches "acme" ["Acme Corp"] = true.
Proof. vm_compute. tauto. Qed.


(** (C39) A cell whose text is a pandas NA marker can never be found:
    the reader turns it into NaN, which [fillna("")] makes empty, so in a
    CSV upload replacing a data field that is an NA marker (NA, null,
    None, N/A, ...) by an empty field never changes the outcome of the
    search, for every query, engine and fallback reader; the spec's
    matching rule tests the field's text. *)
Theorem na_marker_hidden `{RE : ReEngine} fallback name q hdr rows i j r m :
  PyStr.endswith (PyStr.lower name) ".csv" = true ->
  Csv.plain_table hdr rows -> rows !! i = Some r -> r !! j = Some m -> Csv.is_na m = true ->
  @search_file RE (Csv.csv_reader fallback) (mk_upload name (Csv.csv_file (hdr :: rows))) q =
  @search_file RE (Csv.csv_reader fallback)
    (mk_upload name (Csv.csv_file (hdr :: <[i := <[j := ""]> r]> rows))) q.
Proof.
  intros Hcsv Hp Hi Hj Hm.
  assert (Csv.plain_table hdr (<[i := <[j := ""]> r]> rows)) as Hp'.
  { destruct Hp as [Hh Hrs]. split; [done|]. apply Forall_cons in Hrs as [Hhd Hrs].
    apply Forall_cons; split; [done|]. apply Forall_insert; [done|].
    destruct (Forall_lookup_1 _ _ _ _ Hrs Hi) as [Hl Hf].
    rewrite length_insert. split; [done|]. apply Forall_insert; [done|constructor]. }
  unfold search_file, search_csv. cbn [filename content]. rewrite Hcsv.
  unfold Csv.csv_reader. cbn [read_csv]. rewrite !Csv.parse_csv_file by done.
  rewrite (map_insert_same _ rows i _ r); [done|done|].
  unfold Csv.to_row. rewrite length_insert. f_equal.
  apply (map_insert_same _ r j _ m); [done|]. unfold Csv.to_cell. by rewrite Hm.
Qed.

(** A file whose data rows end with a comma: the first column becomes
    the implicit index, so the name Alice is never found, while the
    city Rome is found under the column [name]. *)
Example trailing_comma_search :
  let f := mk_upload "people.csv"
             (Csv.csv_file [["name"; "city"]; ["Alice"; "Rome"; ""]; ["Bob"; "Milan"; ""]]) in
  @search_file (Regex.python_re literal_engine) (Csv.csv_reader cities_reader) f "Alice" = NoResults /\
  @search_file (Regex.python_re literal_engine) (Csv.csv_reader cities_reader) f "Rome" =
    Results (mk_frame ["name"; "city"] [["Rome"; ""]]).
Proof. vm_compute. split; reflexivity. Qed.

(** ** Witnesses *)

Lemma na_marker_hidden_witness :
  PyStr.endswith (PyStr.lower "c.csv") ".csv" = true /\
  Csv.plain_table ["name"; "city"] [["Bob"; "NA"]; ["Carol"; "Turin"]] /\
  @search_file (Regex.python_re literal_engine) (Csv.csv_reader cities_reader)
    (mk_upload "c.csv" (Csv.csv_file [["name"; "city"]; ["Bob"; "NA"]; ["Carol"; "Turin"]])) "NA" =
  @search_file (Regex.python_re literal_engine) (Csv.csv_reader cities_reader)
    (mk_upload "c.csv" (Csv.csv_file [["name"; "city"]; ["Bob"; ""]; ["Carol"; "Turin"]])) "NA" /\
  @search_file (Regex.python_re literal_engine) (Csv.csv_reader cities_reader)
    (mk_upload "c.csv" (Csv.csv_file [["name"; "city"]; ["Bob"; "NA"]; ["Carol"; "Turin"]])) "NA" =
    NoResults /\
  row_matches "NA" ["Bob"; "NA"] = true.
Proof.
  assert (Csv.plain_table ["name"; "city"] [["Bob"; "NA"]; ["Carol"; "Turin"]]) as H
    by (apply (bool_decide_unpack _); vm_compute; reflexivity).
  split; [reflexivity|]. split; [exact H|]. split.
  - exact (na_marker_hidden (RE := Regex.python_re literal_engine) cities_reader "c.csv" "NA"
             ["name"; "city"] [["Bob"; "NA"]; ["Carol"; "Turin"]] 0 1 ["Bob"; "NA"] "NA"
             eq_refl H eq_refl eq_refl eq_refl).
  - split; vm_compute; reflexivity.
Defined.




Lemma read_error_reported_witness :
  @search_file literal_engine (failing_reader "bad") (demo_upload "DATA.CSV") "x" =
    Failed "bad".
Proof.
  apply (proj1 (@read_error_reported literal_engine (failing_reader "bad")
                  (demo_upload "DATA.CSV") "x" "bad")); [vm_compute|]; reflexivity.
Defined.

End Search.
