(* ===== verification/Pages.v ===== *)
(** * The responses of src/main.py

    Each handler returns a [RedirectResponse] (status 307 unless given,
    302 at line 76) or an HTML string. The HTML literals are written here
    character for character; interpolated values ([{email}], [{otp}],
    [{count}], [{query}], [{table_html}], [{str(e)}]) are inserted
    verbatim, without escaping, as the f-strings do. *)

From S2P Require Import Prelude PyStr Usage Frame Search.

Module Pages.
Import PyStr.

(** A response of a handler. *)
Inductive response :=
| Redirect (url : string) (status_code : nat)
| Html (body : string).

#[global] Instance response_eq_dec : EqDecision response.
Proof. solve_decision. Defined.

(** [RedirectResponse(url)]: status 307 by default. *)
Definition redirect (url : string) : response := Redirect url 307.

Definition html_open : string :=
  lit "    <html><body style=`font-family: Arial; margin: 40px;`>".
Definition html_close : string := "    </body></html>".

(** Lines 35-43. *)
Definition login_html : string :=
  block [html_open;
         "        <h2>Accedi</h2>";
         lit "        <form action=`/send-otp` method=`post`>";
         lit "            <p><input type=`email` name=`email` placeholder=`Email` required></p>";
         lit "            <button type=`submit`>Invia codice</button>";
         "        </form>";
         html_close] "    ".

(** Lines 56-66. *)
Definition send_otp_html (email otp : string) : string :=
  block [html_open;
         "        <h3>Codice inviato a " +:+ email +:+ "</h3>";
         "        <p><b>Codice OTP (solo per test): " +:+ otp +:+ "</b></p>";
         lit "        <form action=`/verify-otp` method=`post`>";
         lit "            <input type=`hidden` name=`email` value=`" +:+ email +:+ lit "`>";
         lit "            <p><input type=`text` name=`otp` placeholder=`Inserisci codice` required></p>";
         lit "            <button type=`submit`>Accedi</button>";
         "        </form>";
         html_close] "    ".

(** Line 77. *)
Definition wrong_code_html : string := "<h3>Codice errato</h3>".

(** Lines 102-115. *)
Definition app_html (email : string) (count : nat) : string :=
  block [html_open;
         "        <h2>Benvenuto, " +:+ email +:+ "</h2>";
         "        <p>Ricerche oggi: <b>" +:+ str_of_nat count +:+ "/" +:+
           str_of_nat Usage.DAILY_LIMIT +:+ "</b></p>";
         lit "        <a href=`/logout`>Logout</a>";
         "        <hr>";
         "        <h3>Carica un file e cerca una voce</h3>";
         lit "        <form action=`/search` method=`post` enctype=`multipart/form-data`>";
         lit "            <p><input type=`file` name=`file` required></p>";
         lit "            <p><input type=`text` name=`query` placeholder=`Voce da cercare` required></p>";
         lit "            <button type=`submit`>Cerca</button>";
         "        </form>";
         html_close] "    ".

(** Line 135. *)
Definition limit_html : string :=
  "<h3>Hai raggiunto il limite giornaliero di ricerche.</h3>".

(** Lines 158 and 179. *)
Definition no_results_html (query : string) : string :=
  "<h3>Nessun risultato trovato per: <b>" +:+ query +:+ "</b></h3>".

(** Lines 163-167 and 183-187. *)
Definition results_html (query table_html : string) : string :=
  block ["            <h3>Risultati per: <b>" +:+ query +:+ "</b></h3>";
         "            " +:+ table_html;
         lit "            <br><a href=`/app`>Torna indietro</a>"] "            ".

(** Line 190. *)
Definition unsupported_html : string :=
  "<h3>Formato non supportato. Usa CSV o XLSX.</h3>".

(** Line 193. *)
Definition error_html (msg : string) : string := "<h3>Errore: " +:+ msg +:+ "</h3>".

(** The HTML the search part returns for each outcome
    (lines 157-167, 178-193). *)
Definition render_outcome `{Frame.TableRenderer} (query : string)
    (o : Search.outcome) : string :=
  match o with
  | Search.NoResults => no_results_html query
  | Search.Results df => results_html query (Frame.to_html df)
  | Search.Unsupported => unsupported_html
  | Search.Failed msg => error_html msg
  end.

(** ** Lemmas *)

(** No search outcome is rendered as the "limit reached" page. *)
Lemma render_outcome_not_limit `{Frame.TableRenderer} query o :
  render_outcome query o <> limit_html.
Proof.
  destruct o; unfold render_outcome; intros Hr; apply (f_equal (String.get 4)) in Hr;
    vm_compute in Hr; discriminate.
Qed.

End Pages.
