(* ===== verification/App.v ===== *)
(** * The web application: routes of src/main.py and runs of many clients

    The server state is the two in-memory dicts [USERS] and [USAGE]
    (lines 15-16). Each route handler (lines 23-193) is a function of the
    server state, the session dict presented by the client (its signed
    cookie, SessionMiddleware line 12), today's date and the random draws,
    returning the new state, the new session and the response. A handler
    body has no [await], so on the single event loop each request runs
    atomically: a run is a sequence of requests from several clients.

    A client presents the cookie it was last given, or any cookie it
    holds: one the server issued earlier (replay), or, since the signing
    key is written in the source, one it made itself (forgery). *)

From S2P Require Import Prelude PyStr Usage Otp Session Frame Regex Csv Html Search Pages.

Module App.
Import Pages.

(** ** State, requests, handlers *)

(** [USERS] and [USAGE]. *)
Record state := mk_state {
  USERS : gmap string Otp.user_record;
  USAGE : gmap string Usage.usage
}.

Definition init_state : state := mk_state ∅ ∅.

(** The routes, with their form fields. *)
Inductive request :=
| GetRoot                                  (** line 23 *)
| GetLogin                                 (** line 33 *)
| PostSendOtp (email : string)             (** line 49 *)
| PostVerifyOtp (email otp : string)       (** line 72 *)
| GetLogout                                (** line 83 *)
| GetApp                                   (** line 92 *)
| PostSearch (file : Search.upload) (query : string).  (** line 121 *)

(** What a request reads from the outside world: [date.today()] and the
    indices drawn by [random.choices]. *)
Record env := mk_env { today : nat; draws : list nat }.

Section Handlers.
Context `{RE : Frame.ReEngine} `{TR : Frame.TableReader} `{HR : Frame.TableRenderer}.

(** Lines 23-27. *)
Definition root (sess : gmap string string) : response :=
  match Session.logged_in sess with
  | Some _ => redirect "/app"
  | None => redirect "/login"
  end.

(** Lines 33-43. *)
Definition login_page : response := Html login_html.

(** Lines 49-66. *)
Definition send_otp (st : state) (rnd : list nat) (email : string)
    : state * response :=
  let otp := Otp.gen_otp rnd in
  (mk_state (Otp.store_otp (USERS st) email otp) (USAGE st),
   Html (send_otp_html email otp)).

(** Lines 72-77. *)
Definition verify_otp (st : state) (sess : gmap string string)
    (email otp : string) : gmap string string * response :=
  if Otp.otp_valid (USERS st) email otp
  then (Session.establish sess email, Redirect "/app" 302)
  else (sess, Html wrong_code_html).

(** Lines 83-86. *)
Definition logout (sess : gmap string string) : gmap string string * response :=
  (Session.clear sess, redirect "/login").

(** Lines 92-115. *)
Definition app_page (st : state) (sess : gmap string string) (t : nat)
    : response :=
  match Session.logged_in sess with
  | None => redirect "/login"
  | Some email => Html (app_html email (Usage.page_count (USAGE st) email t))
  end.

(** Lines 121-193: login check, quota check, then the search. *)
Definition search (st : state) (sess : gmap string string) (t : nat)
    (file : Search.upload) (query : string) : state * response :=
  match Session.logged_in sess with
  | None => (st, redirect "/login")
  | Some email =>
      match Usage.check_and_increment (USAGE st) email t with
      | (Usage.Denied, _) => (st, Html limit_html)
      | (Usage.Allowed, U') =>
          (mk_state (USERS st) U',
           Html (render_outcome query (Search.search_file file query)))
      end
  end.

(** The routing of [app]: one handler per request. *)
Definition handle (st : state) (sess : gmap string string) (e : env)
    (req : request) : state * gmap string string * response :=
  match req with
  | GetRoot => (st, sess, root sess)
  | GetLogin => (st, sess, login_page)
  | PostSendOtp email => let '(st', r) := send_otp st (draws e) email in (st', sess, r)
  | PostVerifyOtp email otp =>
      let '(sess', r) := verify_otp st sess email otp in (st, sess', r)
  | GetLogout => let '(sess', r) := logout sess in (st, sess', r)
  | GetApp => (st, sess, app_page st sess (today e))
  | PostSearch f q => let '(st', r) := search st sess (today e) f q in (st', sess, r)
  end.

(** ** Runs of many clients *)

(** The server state, the cookie each client holds, and every session
    the server has signed so far. *)
Record world := mk_world {
  server : state;
  jar : gmap nat (gmap string string);
  issued : list (gmap string string)
}.

Definition init_world : world := mk_world init_state ∅ [].

(** A request of client [client]; [cookie] is the session it presents
    instead of the one it was last given, when it presents another. *)
Record event := mk_event {
  client : nat;
  cookie : option (gmap string string);
  ev_env : env;
  ev_req : request
}.

Definition presented (w : world) (ev : event) : gmap string string :=
  match cookie ev with
  | Some s => s
  | None => default ∅ (jar w !! client ev)
  end.

(** The search a request performed, as (email, day): a search request
    of a logged-in client answered with anything but the "limit reached"
    page. *)
Definition searched (sess : gmap string string) (ev : event) (r : response)
    : option (string * nat) :=
  match ev_req ev, Session.logged_in sess with
  | PostSearch _ _, Some email =>
      if decide (r = Html limit_html) then None else Some (email, today (ev_env ev))
  | _, _ => None
  end.

(** One request: the handler runs on the presented session; the client
    keeps the returned session. *)
Definition exec (w : world) (ev : event)
    : world * response * option (string * nat) :=
  let sess := presented w ev in
  let '(st', sess', r) := handle (server w) sess (ev_env ev) (ev_req ev) in
  (mk_world st' (<[client ev := sess']> (jar w)) (sess' :: issued w), r,
   searched sess ev r).

(** A sequence of requests, one after the other. *)
Fixpoint run (w : world) (evs : list event)
    : world * list response * list (option (string * nat)) :=
  match evs with
  | [] => (w, [], [])
  | ev :: evs' =>
      let '(w1, r, l) := exec w ev in
      let '(w2, rs, ls) := run w1 evs' in
      (w2, r :: rs, l :: ls)
  end.

(** Admitted searches of [email] on day [t]. *)
Definition count_searches (email : string) (t : nat)
    (ls : list (option (string * nat))) : nat :=
  length (List.filter (fun l => bool_decide (l = Some (email, t))) ls).

(** The dates of the requests never go back, starting from [d]. *)
Fixpoint dates_from (d : nat) (evs : list event) : bool :=
  match evs with
  | [] => true
  | ev :: evs' => (d <=? today (ev_env ev)) && dates_from (today (ev_env ev)) evs'
  end.

(** A client presents its own cookie or one the server signed. *)
Inductive honest (w : world) (ev : event) : Prop :=
| honest_own : cookie ev = None -> honest w ev
| honest_replay s : cookie ev = Some s -> s ∈ issued w -> honest w ev.

(** Worlds reachable by honest requests. *)
Inductive reachable : world -> Prop :=
| reach_init : reachable init_world
| reach_step w ev : reachable w -> honest w ev -> reachable (fst (fst (exec w ev))).

(** Every signed or held session that is logged in names an email of
    [USERS]. *)
Definition sessions_known (w : world) : Prop :=
  forall s email,
    (s ∈ issued w \/ exists c, jar w !! c = Some s) ->
    Session.logged_in s = Some email -> is_Some (USERS (server w) !! email).

(** The type [USERS] has for the code: every stored code is a string of
    six decimal digits. *)
Definition users_typed (st : state) : Prop :=
  map_Forall (fun _ u => String.length (Otp.otp u) = 6 /\
                Forall (fun c => PyStr.is_digit c = true) (String.list_ascii_of_string (Otp.otp u)))
             (USERS st).

(** The random source of [/send-otp] draws indices of [string.digits]. *)
Definition draws_ok (ev : event) : Prop :=
  match ev_req ev with
  | PostSendOtp _ => Otp.valid_draws 10 (draws (ev_env ev))
  | _ => True
  end.

End Handlers.

(** ** Concrete runs *)

(** A renderer for the examples; the runs below do not depend on the
    table's HTML. *)
Definition demo_renderer : Frame.TableRenderer := fun _ => "".


(** Client 0 asks a code for [u@x] (the draws give "123456") and logs in. *)
Definition ev_send : event := mk_event 0 None (mk_env 1 [1; 2; 3; 4; 5; 6]) (PostSendOtp "u@x").
Definition ev_verify : event := mk_event 0 None (mk_env 1 []) (PostVerifyOtp "u@x" "123456").
Definition ev_search (d : nat) : event :=
  mk_event 0 None (mk_env d []) (PostSearch (Search.mk_upload "cities.csv" []) "mil").



(** Eleven searches on day 1 after logging in. *)
Definition eleven_searches : list event :=
  [ev_send; ev_verify] ++ repeat (ev_search 1) 11.

(** A server whose only [USAGE] record is [u@x]'s (day [d], count [c]),
    and the session of a client logged in as [u@x]. *)
Definition demo_state (d c : nat) : state := mk_state ∅ (Usage.demo_usage d c).
Definition demo_session : gmap string string := Session.establish ∅ "u@x".


(** ** Lemmas on handlers and runs *)

Section Lemmas.
Context `{RE : Frame.ReEngine} `{TR : Frame.TableReader} `{HR : Frame.TableRenderer}.

(** Only an admitted search writes [USAGE], with the quota check's table. *)
Lemma handle_usage st sess e req :
  USAGE (fst (fst (handle st sess e req))) =
  match req, Session.logged_in sess with
  | PostSearch _ _, Some email => snd (Usage.check_and_increment (USAGE st) email (today e))
  | _, _ => USAGE st
  end.
Proof.
  destruct req; simpl; try done.
  - unfold verify_otp. by destruct (Otp.otp_valid _ _ _).
  - unfold search. destruct (Session.logged_in sess) as [email|]; [|done].
    destruct (Usage.check_and_increment _ _ _) as [[] U'] eqn:Hc; [done|].
    symmetry. by apply Usage.check_denied_unchanged in Hc.
Qed.

(** No handler removes an email from [USERS]. *)
Lemma handle_users_typed st sess e req :
  (match req with PostSendOtp _ => Otp.valid_draws 10 (draws e) | _ => True end) ->
  users_typed st -> users_typed (fst (fst (handle st sess e req))).
Proof.
  intros Hd Ht. destruct req; simpl; try done.
  - unfold send_otp, Otp.store_otp. simpl.
    apply map_Forall_insert_2; [apply Otp.gen_otp_six_digits, Hd|done].
  - unfold verify_otp. by destruct (Otp.otp_valid _ _ _).
  - unfold search. destruct (Session.logged_in sess); [|done].
    by destruct (Usage.check_and_increment _ _ _) as [[] U'].
Qed.

Lemma handle_users_grow st sess e req k :
  is_Some (USERS st !! k) -> is_Some (USERS (fst (fst (handle st sess e req))) !! k).
Proof.
  intros Hk. destruct req; simpl; try done.
  - unfold send_otp, Otp.store_otp. simpl.
    destruct (decide (email = k)) as [->|Hne]; [by rewrite lookup_insert_eq|].
    by rewrite lookup_insert_ne.
  - unfold verify_otp. by destruct (Otp.otp_valid _ _ _).
  - unfold search. destruct (Session.logged_in sess); [|done].
    by destruct (Usage.check_and_increment _ _ _) as [[] U'].
Qed.

(** A session the handler returns is logged in only as the session it
    was given, or as an email whose code was just checked. *)
Lemma handle_session st sess e req email :
  Session.logged_in (snd (fst (handle st sess e req))) = Some email ->
  Session.logged_in sess = Some email \/ is_Some (USERS st !! email).
Proof.
  destruct req; simpl; try (intros; left; done).
  - unfold verify_otp. destruct (Otp.otp_valid _ _ _) eqn:Hv; simpl; [|by left].
    intros Hl. apply Session.logged_in_Some in Hl as [Hl _].
    unfold Session.establish in Hl. rewrite lookup_insert_eq in Hl. injection Hl as <-.
    right. apply Otp.otp_valid_spec in Hv. by rewrite Hv.
  - unfold search. destruct (Session.logged_in sess) eqn:E;
      [destruct (Usage.check_and_increment _ _ _) as [[] U']|]; simpl;
      intros Hl; left; congruence.
Qed.

Lemma exec_world w ev :
  fst (fst (exec w ev)) =
  let '(st', sess', _) := handle (server w) (presented w ev) (ev_env ev) (ev_req ev) in
  mk_world st' (<[client ev := sess']> (jar w)) (sess' :: issued w).
Proof. unfold exec. by destruct (handle _ _ _ _) as [[? ?] ?]. Qed.

Lemma exec_response w ev :
  snd (fst (exec w ev)) = snd (handle (server w) (presented w ev) (ev_env ev) (ev_req ev)).
Proof. unfold exec. by destruct (handle _ _ _ _) as [[? ?] ?]. Qed.

Lemma exec_label w ev :
  snd (exec w ev) =
  match ev_req ev, Session.logged_in (presented w ev) with
  | PostSearch _ _, Some email =>
      if decide (fst (Usage.check_and_increment (USAGE (server w)) email
                        (today (ev_env ev))) = Usage.Allowed)
      then Some (email, today (ev_env ev)) else None
  | _, _ => None
  end.
Proof.
  unfold exec. destruct (handle _ _ _ _) as [[st' sess'] r] eqn:Hh. simpl.
  unfold searched. destruct (ev_req ev) as [| | | | | |f q]; try done.
  destruct (Session.logged_in (presented w ev)) as [email|] eqn:Hl; [|done].
  simpl in Hh. unfold search in Hh. rewrite Hl in Hh.
  destruct (Usage.check_and_increment _ _ _) as [[] U']; injection Hh as <- <- <-.
  - rewrite decide_False; [done|]. intros [= Hr]. by apply (render_outcome_not_limit q (Search.search_file f q)).
  - by rewrite decide_True.
Qed.

Lemma exec_usage w ev :
  USAGE (server (fst (fst (exec w ev)))) =
  USAGE (fst (fst (handle (server w) (presented w ev) (ev_env ev) (ev_req ev)))).
Proof. rewrite exec_world. by destruct (handle _ _ _ _) as [[? ?] ?]. Qed.

Lemma run_cons w ev evs :
  run w (ev :: evs) =
  (fst (fst (run (fst (fst (exec w ev))) evs)),
   snd (fst (exec w ev)) :: snd (fst (run (fst (fst (exec w ev))) evs)),
   snd (exec w ev) :: snd (run (fst (fst (exec w ev))) evs)).
Proof.
  simpl. destruct (exec w ev) as [[w1 r] l]. simpl.
  by destruct (run w1 evs) as [[w2 rs] ls].
Qed.
End Lemmas.

(** ** Properties of runs *)

Section Runs.
Context `{RE : Frame.ReEngine} `{TR : Frame.TableReader} `{HR : Frame.TableRenderer}.

Lemma exec_bounded w ev :
  Usage.bounded (USAGE (server w)) ->
  Usage.bounded (USAGE (server (fst (fst (exec w ev))))).
Proof.
  intros Hb. rewrite exec_usage, handle_usage.
  destruct (ev_req ev); try done.
  destruct (Session.logged_in _) as [email|]; [|done].
  destruct (Usage.check_and_increment _ _ _) as [v U'] eqn:Hc.
  exact (Usage.check_preserves_bounded _ _ _ _ _ Hb Hc).
Qed.

(** (C9) Whatever requests come, from any clients and with any cookies,
    no stored count ever exceeds [DAILY_LIMIT]. *)
Theorem run_usage_bounded evs :
  Usage.bounded (USAGE (server (fst (fst (run init_world evs))))).
Proof.
  assert (forall w, Usage.bounded (USAGE (server w)) ->
            Usage.bounded (USAGE (server (fst (fst (run w evs)))))) as Hgen.
  { induction evs as [|ev evs IH]; intros w Hb; [done|].
    rewrite run_cons. simpl. apply IH, exec_bounded, Hb. }
  apply Hgen. intros e u Hu. simpl in Hu. by rewrite lookup_empty in Hu.
Qed.

(** One request keeps the table related to the abstract counters and
    counts its admitted search in them. *)
Lemma exec_counters w ev σ d :
  Usage.represents (USAGE (server w)) σ ->
  (forall e u, USAGE (server w) !! e = Some u -> Usage.u_date u <= d) ->
  (forall e t, σ e t <= Usage.DAILY_LIMIT) ->
  d <= today (ev_env ev) ->
  exists σ1,
    Usage.represents (USAGE (server (fst (fst (exec w ev))))) σ1 /\
    (forall e u, USAGE (server (fst (fst (exec w ev)))) !! e = Some u ->
                 Usage.u_date u <= today (ev_env ev)) /\
    (forall e t, σ1 e t <= Usage.DAILY_LIMIT) /\
    (forall e t, σ1 e t = σ e t +
       if decide (snd (exec w ev) = Some (e, t)) then 1 else 0).
Proof.
  intros Hrep Hclk Hb Hd. rewrite exec_label, exec_usage, handle_usage.
  set (t0 := today (ev_env ev)).
  destruct (ev_req ev);
    try (exists σ; split_and!; [done|intros e u Hu; etrans; [by eapply Hclk|lia]|done|
                                intros; rewrite decide_False; [lia|done]]).
  destruct (Session.logged_in _) as [e0|];
    [|exists σ; split_and!; [done|intros e u Hu; etrans; [by eapply Hclk|lia]|done|
                             intros; rewrite decide_False; [lia|done]]].
  assert (Usage.clock_ok (USAGE (server w)) e0 t0) as Hok
    by (intros u Hu; etrans; [by eapply Hclk|lia]).
  destruct (Usage.check_refines_spec _ σ e0 t0 Hrep Hok) as [Hv Hrep'].
  exists (snd (Usage.spec_check σ e0 t0)). split_and!.
  - done.
  - intros e u Hu. destruct (decide (e = e0)) as [->|Hne].
    + destruct (Usage.check_and_increment _ e0 t0) as [v U'] eqn:Hc. simpl in Hu.
      destruct v.
      * eapply Usage.check_and_increment_date in Hc; [|done|exact Hu]. lia.
      * apply Usage.check_denied_unchanged in Hc. subst. etrans; [by eapply Hclk|lia].
    + destruct (Usage.check_and_increment _ e0 t0) as [v U'] eqn:Hc. simpl in Hu.
      rewrite (Usage.check_and_increment_other _ _ _ _ _ _ Hc Hne) in Hu.
      etrans; [by eapply Hclk|lia].
  - by apply Usage.spec_check_bounded.
  - intros e t. rewrite Usage.spec_check_count, Hv. f_equal.
    destruct (decide (fst (Usage.spec_check σ e0 t0) = Usage.Allowed)) as [Ha|Ha].
    + apply decide_ext. naive_solver.
    + rewrite !decide_False; naive_solver.
Qed.

Lemma count_searches_cons email t l ls :
  count_searches email t (l :: ls) =
  (if decide (l = Some (email, t)) then 1 else 0) + count_searches email t ls.
Proof.
  unfold count_searches. simpl. case_bool_decide; case_decide; simpl; done.
Qed.

Lemma run_counts evs : forall w σ d e t,
  Usage.represents (USAGE (server w)) σ ->
  (forall e u, USAGE (server w) !! e = Some u -> Usage.u_date u <= d) ->
  (forall e t, σ e t <= Usage.DAILY_LIMIT) ->
  dates_from d evs = true ->
  σ e t + count_searches e t (snd (run w evs)) <= Usage.DAILY_LIMIT.
Proof.
  induction evs as [|ev evs IH]; intros w σ d e t Hrep Hclk Hb Hdates.
  - simpl. specialize (Hb e t). unfold count_searches. simpl. lia.
  - simpl in Hdates. apply andb_true_iff in Hdates as [Hd Hdates].
    apply Nat.leb_le in Hd.
    destruct (exec_counters w ev σ d Hrep Hclk Hb Hd) as (σ1 & Hrep1 & Hclk1 & Hb1 & Hσ1).
    rewrite run_cons. simpl. rewrite count_searches_cons.
    specialize (IH _ σ1 _ e t Hrep1 Hclk1 Hb1 Hdates). rewrite Hσ1 in IH. lia.
Qed.

(** (C1) On a clock that never goes back, each email gets at most
    [DAILY_LIMIT] searches past the quota check on each day, whatever
    requests are interleaved and whatever cookies are presented. *)
Theorem quota_per_day evs email t :
  dates_from 0 evs = true ->
  count_searches email t (snd (run init_world evs)) <= Usage.DAILY_LIMIT.
Proof.
  intros Hdates.
  pose proof (run_counts evs init_world (fun _ _ => 0) 0 email t) as H.
  simpl in H. apply H; [|by intros ? ?|intros; lia|done].
  intros e. by rewrite lookup_empty.
Qed.

(** An honest request presents a session that is known. *)
Lemma presented_known w ev email :
  sessions_known w -> honest w ev ->
  Session.logged_in (presented w ev) = Some email ->
  is_Some (USERS (server w) !! email).
Proof.
  intros Hk Hh. unfold presented. destruct Hh as [Hc|s Hc Hs]; rewrite Hc.
  - destruct (jar w !! client ev) as [s|] eqn:Hj; simpl; [|done].
    apply Hk. right. by exists (client ev).
  - apply Hk. by left.
Qed.

(** (C4) Authentication: in every world reached by honest requests (each
    client presents its own cookie or one the server signed), a session
    logged in as [email] exists only if [email] is in [USERS], i.e. an OTP
    was issued for it and then checked by [verify_otp]. *)
Theorem reachable_sessions_known w : reachable w -> sessions_known w.
Proof.
  induction 1 as [|w ev Hr IH Hh].
  - intros s email [Hs|[c Hc]]; [by apply elem_of_nil in Hs|done].
  - rewrite exec_world.
    destruct (handle (server w) (presented w ev) (ev_env ev) (ev_req ev))
      as [[st' sess'] r] eqn:Hhd.
    pose proof (handle_session (server w) (presented w ev) (ev_env ev) (ev_req ev)) as Hs'.
    pose proof (handle_users_grow (server w) (presented w ev) (ev_env ev) (ev_req ev)) as Hg.
    rewrite Hhd in Hs', Hg. simpl in *.
    assert (forall email, Session.logged_in sess' = Some email -> is_Some (USERS st' !! email))
      as Hnew.
    { intros email Hl. apply Hg. destruct (Hs' email Hl) as [Hp|Hu]; [|done].
      by eapply presented_known. }
    intros s email Hin Hl. simpl in Hin |- *.
    destruct Hin as [Hin|[c Hc]].
    + apply elem_of_cons in Hin as [->|Hin]; [by apply Hnew|].
      apply Hg. apply (IH s); [by left|done].
    + destruct (decide (c = client ev)) as [->|Hne].
      * rewrite lookup_insert_eq in Hc. injection Hc as <-. by apply Hnew.
      * rewrite lookup_insert_ne in Hc by done. apply Hg. apply (IH s); [right; by exists c|done].
Qed.

(** The dates stored in [USAGE] are those of the requests. *)
Lemma exec_usage_dates w ev T :
  (forall k u, USAGE (server w) !! k = Some u -> Usage.u_date u < T) ->
  today (ev_env ev) < T ->
  forall k u, USAGE (server (fst (fst (exec w ev)))) !! k = Some u -> Usage.u_date u < T.
Proof.
  intros Hw Ht k u. rewrite exec_usage, handle_usage.
  destruct (ev_req ev); try apply Hw. destruct (Session.logged_in _) as [email|]; [|apply Hw].
  destruct (Usage.check_and_increment _ _ _) as [v U'] eqn:Hc. simpl.
  destruct (decide (k = email)) as [->|Hne].
  - destruct v.
    + intros Hu. by rewrite (Usage.check_and_increment_date _ _ _ _ _ _ Hc eq_refl Hu).
    + apply Usage.check_denied_unchanged in Hc as ->. apply Hw.
  - rewrite (Usage.check_and_increment_other _ _ _ _ _ _ Hc Hne). apply Hw.
Qed.

Lemma run_usage_dates w evs T :
  (forall k u, USAGE (server w) !! k = Some u -> Usage.u_date u < T) ->
  Forall (fun e => today (ev_env e) < T) evs ->
  forall k u, USAGE (server (fst (fst (run w evs)))) !! k = Some u -> Usage.u_date u < T.
Proof.
  intros Hw Hd. revert w Hw. induction Hd as [|ev evs Hev Hd IH]; intros w Hw; [done|].
  rewrite run_cons. cbn [fst]. apply IH. by apply exec_usage_dates.
Qed.

(** (C22) The type of [USERS] is preserved: on any run from the initial
    world whose draws for [/send-otp] are indices of [string.digits],
    every code stored in [USERS] is six decimal digits. *)
Theorem users_codes_typed evs :
  Forall draws_ok evs -> users_typed (server (fst (fst (run init_world evs)))).
Proof.
  enough (forall w, users_typed (server w) -> Forall draws_ok evs ->
                    users_typed (server (fst (fst (run w evs))))) as H.
  { intros Hd. apply H; [apply map_Forall_empty|done]. }
  induction evs as [|ev evs IH]; intros w Hw Hd; [done|].
  apply Forall_cons in Hd as [Hev Hd]. rewrite run_cons. cbn [fst]. apply IH; [|done].
  rewrite exec_world.
  pose proof (handle_users_typed (server w) (presented w ev) (ev_env ev) (ev_req ev)) as Hh.
  unfold draws_ok in Hev. destruct (handle _ _ _ _) as [[st' s'] r]. by apply Hh.
Qed.

(** (C37) A denial is never permanent: after any run from the initial
    world, however many searches were denied, a search of a logged-in
    client on a day later than every earlier request is performed. *)
Theorem search_served_later_day evs ev email f q :
  Forall (fun e => today (ev_env e) < today (ev_env ev)) evs ->
  ev_req ev = PostSearch f q ->
  Session.logged_in (presented (fst (fst (run init_world evs))) ev) = Some email ->
  snd (exec (fst (fst (run init_world evs))) ev) = Some (email, today (ev_env ev)).
Proof.
  intros Hd Hr Hl. rewrite exec_label, Hr, Hl, Usage.check_and_increment_eq.
  assert (Usage.effective_count (USAGE (server (fst (fst (run init_world evs))))) email
            (today (ev_env ev)) = 0) as ->.
  { unfold Usage.effective_count.
    destruct (_ !! email) as [u|] eqn:Hu; [|done].
    apply (run_usage_dates init_world evs (today (ev_env ev))) in Hu; [|done|done].
    case_decide; [lia|done]. }
  done.
Qed.
End Runs.

(** ** Properties of the handlers *)

Section HandlerProps.
Context `{RE : Frame.ReEngine} `{TR : Frame.TableReader} `{HR : Frame.TableRenderer}.

(** (C20) OTP replay: after [send_otp] stores a code, verifying it logs the
    client in, redirects with 302 and leaves the server state as it was,
    so the same code verifies again on every later attempt until the next
    [send_otp] for that email. *)
Theorem verify_replay st rnd email sess e :
  let st1 := fst (send_otp st rnd email) in
  handle st1 sess e (PostVerifyOtp email (Otp.gen_otp rnd)) =
    (st1, Session.establish sess email, Redirect "/app" 302).
Proof.
  cbv zeta. unfold handle, verify_otp. cbn [fst send_otp USERS].
  rewrite Otp.otp_valid_after_store, decide_True by done.
  by rewrite String.eqb_refl.
Qed.

(** (C23) A wrong code is refused with the error page; the session and the
    server state are unchanged. *)
Theorem verify_wrong_code st sess e email otp :
  Otp.otp_valid (USERS st) email otp = false ->
  handle st sess e (PostVerifyOtp email otp) = (st, sess, Html wrong_code_html).
Proof. intros Hv. simpl. unfold verify_otp. by rewrite Hv. Qed.

(** (C24) Without a logged-in session, the landing page and the search
    redirect to the login page (307) and change nothing: no quota is
    spent and no file is read. *)
Theorem anonymous_redirected st sess e f q :
  Session.logged_in sess = None ->
  handle st sess e GetApp = (st, sess, Redirect "/login" 307) /\
  handle st sess e (PostSearch f q) = (st, sess, Redirect "/login" 307).
Proof. intros Hl. simpl. unfold app_page, search. by rewrite Hl. Qed.

(** (C26) A search with an unsupported file name still spends one unit of
    the quota: the count is incremented before the extension is looked
    at. *)
Theorem unsupported_spends_quota st sess e email f q c :
  Session.logged_in sess = Some email ->
  USAGE st !! email = Some (Usage.mk_usage (today e) c) -> c < Usage.DAILY_LIMIT ->
  PyStr.endswith (PyStr.lower (Search.filename f)) ".csv" = false ->
  PyStr.endswith (PyStr.lower (Search.filename f)) ".xlsx" = false ->
  handle st sess e (PostSearch f q) =
    (mk_state (USERS st) (<[email := Usage.mk_usage (today e) (S c)]> (USAGE st)),
     sess, Html unsupported_html).
Proof.
  intros Hl Hu Hc Hcsv Hxlsx. simpl. unfold search. rewrite Hl.
  rewrite (Usage.check_allows_below_limit _ _ _ c) by done.
  simpl. unfold Search.search_file. by rewrite Hcsv, Hxlsx.
Qed.

(** (C25) On a new day the landing page still shows the previous day's
    count, although the quota check resets it: with a record of another
    day the page reports its old count while the next search is
    admitted. *)
Theorem app_page_stale_count st sess t email d c :
  Session.logged_in sess = Some email ->
  USAGE st !! email = Some (Usage.mk_usage d c) -> d <> t ->
  app_page st sess t = Html (app_html email c) /\
  fst (Usage.check_and_increment (USAGE st) email t) = Usage.Allowed.
Proof.
  intros Hl Hu Hd. unfold app_page, Usage.page_count, Usage.usage_get.
  rewrite Hl, Hu. split; [done|].
  rewrite Usage.check_new_day; [done|]. intros u Hu'. rewrite Hu in Hu'. by injection Hu' as <-.
Qed.

(** (C30) The page [send_otp] returns contains the submitted email and the
    code verbatim: the email is not escaped (markup in it is injected into
    the page) and the code is shown to whoever asked for it. *)
Theorem send_otp_page_reflects st rnd email :
  exists body, snd (send_otp st rnd email) = Html body /\
    PyStr.contains email body = true /\
    PyStr.contains (Otp.gen_otp rnd) body = true.
Proof.
  eexists. split; [reflexivity|]. split.
  - eapply PyStr.contains_trans; [apply (PyStr.contains_append_mid "        <h3>Codice inviato a ")|].
    apply PyStr.block_contains_line. simpl. tauto.
  - eapply PyStr.contains_trans;
      [apply (PyStr.contains_append_mid "        <p><b>Codice OTP (solo per test): ")|].
    apply PyStr.block_contains_line. simpl. tauto.
Qed.

(** (C29) The session cookie is all the handlers check: a cookie carrying
    any non-empty email, made without any OTP (the signing key is in the
    source), opens the landing page of that email on a server that has
    never issued a code for it. *)
Theorem forged_cookie_accepted email t :
  email <> "" ->
  let ev := mk_event 0 (Some (Session.establish ∅ email)) (mk_env t []) GetApp in
  snd (fst (exec init_world ev)) = Html (app_html email 0) /\
  USERS (server init_world) !! email = None.
Proof.
  intros Hne. cbv zeta. rewrite exec_response.
  cbn [presented cookie handle ev_req ev_env today server init_world snd].
  unfold app_page. rewrite Session.logged_in_establish by done.
  split; [|done]. unfold Usage.page_count, Usage.usage_get. simpl. by rewrite lookup_empty.
Qed.
End HandlerProps.



(** (C36) With the modelled [re], a malformed query spends a unit of
    the quota and answers the error page carrying the message of the
    [re.error]: the count is incremented before the CSV blocks are
    matched, and the exception is caught by the handler. *)
Theorem invalid_pattern_spends_quota `{TR : Frame.TableReader} `{HR : Frame.TableRenderer}
    fallback st sess e email f q c df msg pos :
  Session.logged_in sess = Some email ->
  USAGE st !! email = Some (Usage.mk_usage (today e) c) -> c < Usage.DAILY_LIMIT ->
  PyStr.endswith (PyStr.lower (Search.filename f)) ".csv" = true ->
  Frame.read_csv (Search.content f) = inr df -> Frame.rows df <> [] ->
  Regex.compile q = Some (inl (Regex.ReError msg pos)) ->
  @handle (Regex.python_re fallback) TR HR st sess e (PostSearch f q) =
    (mk_state (USERS st) (<[email := Usage.mk_usage (today e) (S c)]> (USAGE st)),
     sess, Html (error_html (Regex.error_message (String.list_ascii_of_string q) msg pos))).
Proof.
  intros Hl Hu Hc Hcsv Hr Hne Hq. simpl. unfold search. rewrite Hl.
  rewrite (Usage.check_allows_below_limit _ _ _ c) by done. simpl.
  rewrite (Search.search_file_pattern_error f q
             (Regex.error_message (String.list_ascii_of_string q) msg pos) df);
    [done|done| |done|done].
  unfold Frame.re_compile_ic, Regex.python_re. by rewrite Hq.
Qed.


(** ** Witnesses *)

Lemma invalid_pattern_spends_quota_witness :
  Regex.compile "(" = Some (inl (Regex.ReError "missing ), unterminated subpattern" 0)) /\
  @handle (Regex.python_re Frame.literal_engine) Search.cities_reader demo_renderer
    (demo_state 1 3) demo_session (mk_env 1 []) (PostSearch (Search.demo_upload "c.csv") "(") =
    (mk_state ∅ (<["u@x" := Usage.mk_usage 1 4]> (Usage.demo_usage 1 3)),
     demo_session, Html (error_html "missing ), unterminated subpattern at position 0")).
Proof.
  split; [vm_compute; reflexivity|].
  apply (invalid_pattern_spends_quota (TR := Search.cities_reader) (HR := demo_renderer)
           Frame.literal_engine (demo_state 1 3) demo_session (mk_env 1 []) "u@x"
           (Search.demo_upload "c.csv") "(" 3 Search.cities
           "missing ), unterminated subpattern" 0);
    [reflexivity|reflexivity|unfold Usage.DAILY_LIMIT; lia|vm_compute; reflexivity
    |reflexivity|discriminate|vm_compute; reflexivity].
Defined.

#[local] Existing Instances Frame.literal_engine Search.cities_reader demo_renderer.

Lemma users_codes_typed_witness :
  Forall draws_ok [ev_send; ev_verify] /\
  users_typed (server (fst (fst (run init_world [ev_send; ev_verify])))).
Proof.
  assert (Forall draws_ok [ev_send; ev_verify]) as H.
  { repeat constructor; simpl; lia. }
  split; [exact H|]. apply users_codes_typed, H.
Defined.

Lemma search_served_later_day_witness :
  Session.logged_in (presented (fst (fst (run init_world eleven_searches))) (ev_search 2)) =
    Some "u@x" /\
  snd (exec (fst (fst (run init_world eleven_searches))) (ev_search 2)) = Some ("u@x", 2).
Proof.
  assert (Session.logged_in (presented (fst (fst (run init_world eleven_searches))) (ev_search 2)) =
    Some "u@x") as H by (vm_compute; reflexivity).
  split; [exact H|].
  apply (search_served_later_day eleven_searches (ev_search 2) "u@x"
           (Search.mk_upload "cities.csv" []) "mil");
    [vm_compute; repeat constructor; lia|reflexivity|exact H].
Defined.

Lemma quota_per_day_witness :
  dates_from 0 eleven_searches = true /\
  count_searches "u@x" 1 (snd (run init_world eleven_searches)) <= Usage.DAILY_LIMIT.
Proof.
  split; [vm_compute; reflexivity|]. apply quota_per_day. vm_compute. reflexivity.
Defined.

Lemma reachable_sessions_known_witness :
  reachable (fst (fst (exec (fst (fst (exec init_world ev_send))) ev_verify))) /\
  sessions_known (fst (fst (exec (fst (fst (exec init_world ev_send))) ev_verify))).
Proof.
  assert (reachable (fst (fst (exec (fst (fst (exec init_world ev_send))) ev_verify)))) as H.
  { apply reach_step; [apply reach_step; [apply reach_init|]|]; apply honest_own; reflexivity. }
  split; [exact H|]. apply reachable_sessions_known, H.
Defined.

Lemma verify_wrong_code_witness :
  Otp.otp_valid (USERS init_state) "u@x" "000000" = false /\
  handle init_state ∅ (mk_env 1 []) (PostVerifyOtp "u@x" "000000") =
    (init_state, ∅, Html wrong_code_html).
Proof.
  split; [reflexivity|]. apply verify_wrong_code. reflexivity.
Defined.

Lemma anonymous_redirected_witness :
  Session.logged_in ∅ = None /\
  handle (demo_state 1 3) ∅ (mk_env 1 []) GetApp = (demo_state 1 3, ∅, Redirect "/login" 307) /\
  handle (demo_state 1 3) ∅ (mk_env 1 []) (PostSearch (Search.demo_upload "c.csv") "mil") =
    (demo_state 1 3, ∅, Redirect "/login" 307).
Proof.
  split; [reflexivity|]. apply anonymous_redirected. reflexivity.
Defined.

Lemma unsupported_spends_quota_witness :
  Session.logged_in demo_session = Some "u@x" /\
  USAGE (demo_state 1 3) !! "u@x" = Some (Usage.mk_usage 1 3) /\
  handle (demo_state 1 3) demo_session (mk_env 1 []) (PostSearch (Search.demo_upload "notes.txt") "mil") =
    (mk_state ∅ (<["u@x" := Usage.mk_usage 1 4]> (Usage.demo_usage 1 3)),
     demo_session, Html unsupported_html).
Proof.
  split; [reflexivity|]. split; [reflexivity|].
  apply (unsupported_spends_quota (demo_state 1 3) demo_session (mk_env 1 []) "u@x" _ "mil" 3);
    [reflexivity|reflexivity|unfold Usage.DAILY_LIMIT; lia|vm_compute; reflexivity|vm_compute; reflexivity].
Defined.

Lemma app_page_stale_count_witness :
  USAGE (demo_state 1 10) !! "u@x" = Some (Usage.mk_usage 1 10) /\
  app_page (demo_state 1 10) demo_session 2 = Html (app_html "u@x" 10) /\
  fst (Usage.check_and_increment (USAGE (demo_state 1 10)) "u@x" 2) = Usage.Allowed.
Proof.
  split; [reflexivity|].
  apply (app_page_stale_count (demo_state 1 10) demo_session 2 "u@x" 1 10);
    [reflexivity|reflexivity|lia].
Defined.

Lemma forged_cookie_accepted_witness :
  "eve@x" <> "" /\
  snd (fst (exec init_world (mk_event 0 (Some (Session.establish ∅ "eve@x")) (mk_env 3 []) GetApp))) =
    Html (app_html "eve@x" 0) /\
  USERS (server init_world) !! "eve@x" = None.
Proof.
  split; [discriminate|]. apply (forged_cookie_accepted "eve@x" 3). discriminate.
Defined.

End App.
